(** * Unit-commitment tutorials (MIPLearn "getting started" notebooks)

    A shallow embedding of the code cells of the two "getting started"
    notebooks (Python/Pyomo and Julia/JuMP) and of the feature-extractor
    notebook: the [UnitCommitmentData] record, the two [build_uc_model]
    functions, the two [random_uc_data] generators, the warm-start component
    configuration and the [H5FieldsExtractor] configurations.

    Conventions.
    - Numbers.  The notebooks compute with binary64 floats.  The builders
      only copy the data into symbolic expressions; the generators multiply
      and add.  Numbers are embedded as exact rationals [Q]: rounding is not
      modelled.
    - Exceptions.  Code that can raise runs in [Exec], a writer/error monad:
      the writer part logs every subscript applied to one of the four
      per-generator lists, the error part carries the exception.
    - Dynamic typing.  A Pyomo expression is an [expr]; a plain Python number
      is the expression [ENum q].  Python's [sum] starts from the integer 0,
      so the sum of an empty generator is the plain number 0. *)

From Stdlib Require Import QArith Lqa DecimalString DecimalNat.
From stdpp Require Import gmap strings list fin_maps sorting.

Local Open Scope Q_scope.

(** ** Exceptions and the execution monad *)

Inductive exn :=
  | IndexError          (* Python: list subscript out of range *)
  | ValueError          (* Python: Pyomo / NumPy reject an argument *)
  | FileNotFoundError   (* no file at the given path *)
  | UnpicklingError     (* the file does not hold a problem-data record *)
  | BoundsError         (* Julia: array subscript out of range *)
  | ArgumentError       (* Julia: negative dimension *)
  | SystemError         (* Julia: the file cannot be opened *)
  | TypeError           (* Julia: the file does not hold a problem-data record *)
  | KeyError            (* HDF5: no such field *)
  | AssertionError      (* extractor shape check failed *)
  | ExtractorError.     (* extractor used without the requested fields *)

Inductive result (A : Type) :=
  | Ok (a : A)
  | Raise (e : exn).
Arguments Ok {A} a.
Arguments Raise {A} e.

(** The four per-generator lists of the record. *)
Inductive field := f_pmin | f_pmax | f_cfix | f_cvar.

(** One subscript operation [data.<field>[index]]. *)
Record access := Access { acc_field : field; acc_index : nat }.

Definition Exec (A : Type) : Type := (list access * result A)%type.

#[export] Instance Exec_ret : MRet Exec := λ A a, ([], Ok a).

#[export] Instance Exec_bind : MBind Exec := λ A B f m,
  match m.2 with
  | Raise e => (m.1, Raise e)
  | Ok a => ((m.1 ++ (f a).1)%list, (f a).2)
  end.

Definition raise {A : Type} (e : exn) : Exec A := ([], Raise e).

Definition tell (a : access) : Exec unit := ([a], Ok tt).

(** Left fold with an effectful body: a [for] loop that updates a state. *)
Fixpoint foldlM {A S : Type} (body : S → A → Exec S) (s : S) (l : list A) : Exec S :=
  match l with
  | [] => mret s
  | a :: l' => s' ← body s a; foldlM body s' l'
  end.

(** ** Problem data

    Python: [@dataclass class UnitCommitmentData]; Julia:
    [struct UnitCommitmentData].  Neither constructor compares the lengths
    of the four lists. *)

Record UnitCommitmentData := {
  demand : Q;
  pmin : list Q;
  pmax : list Q;
  cfix : list Q;
  cvar : list Q;
}.

Definition field_of (d : UnitCommitmentData) (f : field) : list Q :=
  match f with
  | f_pmin => pmin d
  | f_pmax => pmax d
  | f_cfix => cfix d
  | f_cvar => cvar d
  end.

(** ** Serialized problem-data files

    [miplearn.io] (Python) and the JLD2 helpers (Julia) are library code
    that the notebooks only call. *)

(** Modelled from the spec: the serialization format (gzipped pickle, JLD2)
    is missing from the material, which calls it a pre-existing externally
    defined schema; it is an abstract codec. *)
Class Codec := {
  blob : Type;
  dumps : UnitCommitmentData → blob;
  loads : blob → option UnitCommitmentData;
}.

(** A codec that stores the record itself. *)
Definition memory_codec : Codec :=
  {| blob := UnitCommitmentData; dumps := λ d, d; loads := λ b, Some b |}.

(** Python's [f"{i:05d}"]: decimal, left-padded with zeros to five digits. *)
Fixpoint pad_zeros (k : nat) (d : Decimal.uint) : Decimal.uint :=
  match k with
  | O => d
  | S k' => Decimal.D0 (pad_zeros k' d)
  end.

Definition zfill5 (i : nat) : string :=
  let d := Nat.to_uint i in
  NilEmpty.string_of_uint (pad_zeros (5 - Decimal.nb_digits d) d).

(** The path of the file of record number [i]. *)
Definition pkl_gz_path (dirname : string) (i : nat) : string :=
  dirname +:+ "/" +:+ zfill5 i +:+ ".pkl.gz".

(** Modelled from the spec: [write_pkl_gz] is missing from the material;
    the Pyomo notebook says that it writes the records to the files
    [<dirname>/00000.pkl.gz], [<dirname>/00001.pkl.gz], ... and the notebook
    passes its return value on as the list of these paths. *)
Fixpoint write_from `{Codec} (i : nat) (objs : list UnitCommitmentData) (dirname : string)
    (fs : gmap string blob) : list string * gmap string blob :=
  match objs with
  | [] => ([], fs)
  | obj :: objs' =>
      let filename := pkl_gz_path dirname i in
      let r := write_from (S i) objs' dirname (<[filename := dumps obj]> fs) in
      (filename :: r.1, r.2)
  end.

Definition write_pkl_gz `{Codec} (objs : list UnitCommitmentData) (dirname : string)
    (fs : gmap string blob) : list string * gmap string blob :=
  write_from 0 objs dirname fs.

(** Modelled from the spec: [read_pkl_gz] is missing from the material; it
    loads the record that a problem-data file holds. *)
Definition read_pkl_gz `{Codec} (fs : gmap string blob) (filename : string)
    : Exec UnitCommitmentData :=
  match fs !! filename with
  | None => raise FileNotFoundError
  | Some b =>
      match loads b with
      | Some d => mret d
      | None => raise UnpicklingError
      end
  end.

(** ** Symbolic optimization models *)

(** The two variable families of the model. *)
Inductive comp := X | Y.

Inductive expr :=
  | ENum (q : Q)                 (* a plain number *)
  | EVar (c : comp) (k : nat)    (* x[k] or y[k] *)
  | EMul (a b : expr)
  | EAdd (a b : expr).

Inductive relational :=
  | RLe (a b : expr)    (* a <= b *)
  | RGe (a b : expr)    (* a >= b *)
  | REq (a b : expr).   (* a == b *)

Inductive sense := minimize | maximize.

(** An assignment gives every variable a value. *)
Definition assignment : Type := comp → nat → Q.

Fixpoint eval (ρ : assignment) (e : expr) : Q :=
  match e with
  | ENum q => q
  | EVar c k => ρ c k
  | EMul a b => eval ρ a * eval ρ b
  | EAdd a b => eval ρ a + eval ρ b
  end.

Definition holds (ρ : assignment) (r : relational) : bool :=
  match r with
  | RLe a b => Qle_bool (eval ρ a) (eval ρ b)
  | RGe a b => Qle_bool (eval ρ b) (eval ρ a)
  | REq a b => Qeq_bool (eval ρ a) (eval ρ b)
  end.

(** Is the expression a plain number? *)
Definition is_num (e : expr) : bool :=
  match e with
  | ENum _ => true
  | _ => false
  end.

(** The ideal sum of a list of numbers. *)
Definition Qsum (l : list Q) : Q := foldr Qplus 0 l.

(** ** Random instances *)

(** The pseudo-random bit generator behind NumPy's and Julia's samplers is
    library code: a state, a seeding function and a step that returns raw
    bits. *)
Class BitGenerator := {
  rng_state : Type;
  rng_seed : Z → rng_state;
  rng_next : rng_state → Z * rng_state;
}.

(** A linear congruential generator, for running the generators. *)
Definition lcg : BitGenerator :=
  {| rng_state := Z;
     rng_seed := λ seed, seed;
     rng_next := λ s, let s' := ((6364136223846793005 * s + 1442695040888963407) mod 2 ^ 64)%Z
                      in ((s' / 2 ^ 11)%Z, s') |}.

(** A uniform sample of the unit interval [0, 1): 53 random bits over 2^53. *)
Definition random_sample `{BitGenerator} (g : rng_state) : Q * rng_state :=
  let r := rng_next g in
  (Qmake (r.1 mod 2 ^ 53) (2 ^ 53), r.2).

(** [n] samples of [lo + width * U], where [U] is uniform on [0, 1). *)
Fixpoint sample_affine `{BitGenerator} (lo width : Q) (n : nat) (g : rng_state)
    : list Q * rng_state :=
  match n with
  | O => ([], g)
  | S n' =>
      let u := random_sample g in
      let rest := sample_affine lo width n' u.2 in
      (lo + width * u.1 :: rest.1, rest.2)
  end.

(** ** Feature extraction and the warm-start component

    [H5FieldsExtractor], [MemorizingPrimalComponent] and their parts are
    library classes; the notebooks only construct and call them. *)

(** An HDF5 field holds a number or a vector of numbers. *)
Inductive h5_value :=
  | H5Scalar (v : Q)
  | H5Array (a : list Q).

(** Modelled from the spec: the HDF5 file of an instance is missing from the
    material, which describes it as named numeric fields per instance; the
    numbers of variables and of constraints of the instance are recorded
    with the fields. *)
Record H5File := {
  n_vars : nat;
  n_constrs : nat;
  datasets : gmap string h5_value;
}.


(** The constructor arguments; an argument that is not given is [None]. *)
Record H5FieldsExtractor := {
  instance_fields : option (list string);
  var_fields : option (list string);
  constr_fields : option (list string);
}.


#[export] Instance result_ret : MRet result := λ A a, Ok a.

#[export] Instance result_bind : MBind result := λ A B f m,
  match m with
  | Ok a => f a
  | Raise e => Raise e
  end.

#[export] Instance result_fmap : FMap result := λ A B f m,
  match m with
  | Ok a => Ok (f a)
  | Raise e => Raise e
  end.

(** A field as a vector: a scalar is a vector of length one. *)
Definition h5_vector (h5 : H5File) (f : string) : result (list Q) :=
  match datasets h5 !! f with
  | Some (H5Array a) => Ok a
  | Some (H5Scalar v) => Ok [v]
  | None => Raise KeyError
  end.

(** A field as a column of [n] entries: a scalar is repeated, a vector must
    have [n] entries. *)
Definition h5_column (h5 : H5File) (n : nat) (f : string) : result (list Q) :=
  match datasets h5 !! f with
  | Some (H5Array a) => if decide (length a = n) then Ok a else Raise AssertionError
  | Some (H5Scalar v) => Ok (replicate n v)
  | None => Raise KeyError
  end.

(** The matrix with the given columns: row [i] holds entry [i] of each. *)
Definition columns_to_rows (n : nat) (cols : list (list Q)) : list (list Q) :=
  (λ i, (λ col, nth i col 0) <$> cols) <$> seq 0 n.

(** Modelled from the spec: [H5FieldsExtractor.get_instance_features] is
    missing from the material; the feature-extractor notebook says that the
    class extracts the user-specified fields, assembles them into a matrix
    and returns it as-is, and prints an instance-feature vector made of the
    scalar field followed by the entries of the vector field. *)
Definition get_instance_features (ext : H5FieldsExtractor) (h5 : H5File)
    : result (list Q) :=
  match instance_fields ext with
  | None => Raise ExtractorError
  | Some fields => xs ← mapM (h5_vector h5) fields; mret (concat xs)
  end.

(** Modelled from the spec: [H5FieldsExtractor.get_var_features] is missing
    from the material; the notebook prints one row per variable and one
    column per field, a scalar field repeated in every row, and says that
    the class checks the shapes. *)
Definition get_var_features (ext : H5FieldsExtractor) (h5 : H5File)
    : result (list (list Q)) :=
  match var_fields ext with
  | None => Raise ExtractorError
  | Some fields =>
      cols ← mapM (h5_column h5 (n_vars h5)) fields;
      mret (columns_to_rows (n_vars h5) cols)
  end.

(** Modelled from the spec: [H5FieldsExtractor.get_constr_features] is
    missing from the material; as [get_var_features], with one row per
    constraint. *)
Definition get_constr_features (ext : H5FieldsExtractor) (h5 : H5File)
    : result (list (list Q)) :=
  match constr_fields ext with
  | None => Raise ExtractorError
  | Some fields =>
      cols ← mapM (h5_column h5 (n_constrs h5)) fields;
      mret (columns_to_rows (n_constrs h5) cols)
  end.

(** Modelled from the spec: the concatenation of the feature vectors of
    several instances is missing from the material; the notebook warns that
    the library cannot concatenate vectors whose numbers of features
    differ. *)
Definition vstack (rows : list (list Q)) : result (list (list Q)) :=
  match rows with
  | [] => Raise ValueError
  | r :: rows' =>
      if forallb (λ r', Nat.eqb (length r') (length r)) rows' then Ok rows
      else Raise ValueError
  end.

(** The field holds one number. *)
Definition scalar_field (h5 : H5File) (f : string) : bool :=
  match datasets h5 !! f with
  | Some (H5Scalar _) => true
  | _ => false
  end.

(** The field holds one number per variable of the instance. *)
Definition per_variable_field (h5 : H5File) (f : string) : bool :=
  match datasets h5 !! f with
  | Some (H5Array a) => bool_decide (length a = n_vars h5)
  | _ => false
  end.



(** [KNeighborsClassifier(n_neighbors=...)]. *)
Record KNeighborsClassifier := { n_neighbors : Z }.

(** [MergeTopSolutions(k, thresholds)]. *)
Record MergeTopSolutions := { k : Z; thresholds : list Q }.

(** Modelled from the spec: the solver's side of a model is missing from the
    material; the spec calls a warm start an initial candidate solution
    supplied to a solver.  The solver holds the program and, once one has
    been supplied, a candidate: a value for some of the binary variables,
    none for the others. *)
Record SolverModel {P : Type} := {
  program : P;
  warm_start : option (list (option Q));
}.

Arguments SolverModel : clear implicits.

(** Modelled from the spec: the action classes are missing from the
    material; an action is what a primal component does to the solver's
    model with the partial solution it predicts. *)
Record PrimalComponentAction := {
  perform : ∀ P : Type, list (option Q) → SolverModel P → SolverModel P;
}.

(** Modelled from the spec: [SetWarmStart()] is missing from the material;
    the notebooks say that the partial solution is provided to the solver as
    a warm start (step 4 of the strategy). *)
Definition SetWarmStart : PrimalComponentAction :=
  {| perform := λ P start m, {| program := program m; warm_start := Some start |} |}.

Record MemorizingPrimalComponent := {
  clf : KNeighborsClassifier;
  extractor : H5FieldsExtractor;
  constructor : MergeTopSolutions;
  action : PrimalComponentAction;
}.

(** Modelled from the spec: the training data of the component is missing
    from the material; a training instance is the HDF5 file that was
    collected for it, and the optimal values of its binary variables. *)
Record TrainingSample := {
  sample_h5 : H5File;
  sample_solution : list Q;
}.

(** The squared Euclidean distance of two feature vectors. *)
Definition distance (a b : list Q) : Q :=
  Qsum (zip_with (λ u v, (u - v) * (u - v)) a b).

(** Memorized instance [a] is at least as similar to [x] as [b] is. *)
Definition nearer (x : list Q) (a b : list Q * list Q) : Prop :=
  Qle_bool (distance x a.1) (distance x b.1) = true.

#[export] Instance nearer_dec (x : list Q) (a b : list Q * list Q) :
  Decision (nearer x a b) := bool_eq_dec _ true.

(** Modelled from the spec: [MemorizingPrimalComponent.fit] is missing from
    the material; the notebooks say that the component memorizes the optimal
    solutions of all training instances (step 1).  Each solution is kept
    with the instance features of its file, stacked into one matrix. *)
Definition fit (comp : MemorizingPrimalComponent) (training : list TrainingSample)
    : result (list (list Q * list Q)) :=
  xs ← mapM (λ t, get_instance_features (extractor comp) (sample_h5 t)) training;
  xs ← vstack xs;
  mret (zip xs (sample_solution <$> training)).

(** Modelled from the spec: the classifier is missing from the material;
    the notebooks say that it finds the [n_neighbors] most similar training
    instances (step 2).  The memorized instances are sorted by their
    distance to the test instance and the first [n_neighbors] are kept. *)
Definition kneighbors (c : KNeighborsClassifier) (memory : list (list Q * list Q))
    (x : list Q) : list (list Q * list Q) :=
  take (Z.to_nat (n_neighbors c)) (merge_sort (nearer x) memory).

(** Modelled from the spec: [MergeTopSolutions] is missing from the
    material; the notebooks say that it merges the solutions into a single
    partial solution and only assigns the variables on which they agree
    unanimously (step 3).  It merges the first [k] solutions: with
    thresholds [[lo; hi]] a variable is assigned 0 when its mean value is at
    most [lo], 1 when its mean value is at least [hi], and is left without a
    value otherwise. *)
Definition construct (c : MergeTopSolutions) (solutions : list (list Q))
    : list (option Q) :=
  let top := take (Z.to_nat (k c)) solutions in
  match top with
  | [] => []
  | s :: _ =>
      (λ j, let mean := Qsum ((λ s', nth j s' 0) <$> top)
                        / inject_Z (Z.of_nat (length top)) in
            if Qle_bool (nth 1 (thresholds c) 1) mean then Some 1
            else if Qle_bool mean (nth 0 (thresholds c) 0) then Some 0
            else None)
      <$> seq 0 (length s)
  end.

(** Modelled from the spec: [MemorizingPrimalComponent.before_mip] is
    missing from the material; before the solver starts on a test instance,
    the component extracts the features of the instance, finds the nearest
    memorized instances, merges their solutions, and lets the action act on
    the solver's model (steps 2 to 4). *)
Definition before_mip {P : Type} (comp : MemorizingPrimalComponent)
    (memory : list (list Q * list Q)) (h5 : H5File) (model : SolverModel P)
    : result (SolverModel P) :=
  x ← get_instance_features (extractor comp) h5;
  if forallb (λ m, Nat.eqb (length m.1) (length x)) memory then
    let nearest := kneighbors (clf comp) memory x in
    mret (perform (action comp) P (construct (constructor comp) (nearest.*2)) model)
  else Raise ValueError.

(** The constraint right-hand sides that a file records. *)
Definition constr_rhs (h5 : H5File) : option (list Q) :=
  match datasets h5 !! "static_constr_rhs" with
  | Some (H5Array a) => Some a
  | _ => None
  end.

(** A value of a binary variable. *)
Definition binary (v : Q) : bool := Qeq_bool v 0 || Qeq_bool v 1.

(** A training sample of a family of instances with [m] constraints and [n]
    binary variables. *)
Definition sample_of (m n : nat) (t : TrainingSample) : bool :=
  bool_decide (length <$> constr_rhs (sample_h5 t) = Some m)
  && bool_decide (length (sample_solution t) = n)
  && forallb binary (sample_solution t).

(** ** The Pyomo notebook *)

Module Pyomo.

Inductive domain := Binary | NonNegativeReals.

Definition in_domain (dom : domain) (v : Q) : bool :=
  match dom with
  | Binary => Qeq_bool v 0 || Qeq_bool v 1
  | NonNegativeReals => Qle_bool 0 v
  end.

(** [pe.Var(index, domain=...)]. *)
Record Var := { var_index : list nat; var_domain : domain }.

(** [pe.Objective(expr=...)]; the sense defaults to [minimize]. *)
Record Objective := { obj_expr : expr; obj_sense : sense }.

Record ConcreteModel := {
  x : Var;
  y : Var;
  obj : Objective;
  eq_max_power : list relational;
  eq_min_power : list relational;
  eq_demand : relational;
}.

Record PyomoModel := { inner : ConcreteModel; solver_name : string }.

(** [data.<f>[i]] on a Python list. *)
Definition getitem (f : field) (l : list Q) (i : nat) : Exec Q :=
  _ ← tell (Access f i);
  match l !! i with
  | Some v => mret v
  | None => raise IndexError
  end.

(** The builtin [sum]: [0 + e0 + e1 + ...]; adding a Pyomo expression to the
    number 0 gives the expression unchanged. *)
Definition py_add (a b : expr) : expr :=
  match a with
  | ENum q => if Qeq_bool q 0 then b else EAdd a b
  | _ => EAdd a b
  end.

Definition py_sum (items : list expr) : expr := foldl py_add (ENum 0) items.

(** [a == b]: a Python [bool] between two plain numbers, a relational
    expression as soon as a variable is involved. *)
Definition py_eq (a b : expr) : bool + relational :=
  match a, b with
  | ENum p, ENum q => inl (Qeq_bool p q)
  | _, _ => inr (REq a b)
  end.

(** [pe.Constraint(expr=...)]: Pyomo rejects a trivial Boolean. *)
Definition Constraint (e : bool + relational) : Exec relational :=
  match e with
  | inl _ => raise ValueError
  | inr r => mret r
  end.

Definition build_uc_model `{Codec} (fs : gmap string blob)
    (data : string + UnitCommitmentData) : Exec PyomoModel :=
  data ← match data with
         | inl path => read_pkl_gz fs path
         | inr d => mret d
         end;
  let n := length (pmin data) in
  let model_x := {| var_index := seq 0 n; var_domain := Binary |} in
  let model_y := {| var_index := seq 0 n; var_domain := NonNegativeReals |} in
  terms ← mapM (λ i,
             c ← getitem f_cfix (cfix data) i;
             v ← getitem f_cvar (cvar data) i;
             mret (EAdd (EMul (ENum c) (EVar X i)) (EMul (ENum v) (EVar Y i))))
           (seq 0 n);
  let model_obj := {| obj_expr := py_sum terms; obj_sense := minimize |} in
  lists ← foldlM (λ (lists : list relational * list relational) i,
             hi ← getitem f_pmax (pmax data) i;
             let max_power := lists.1 ++ [RLe (EVar Y i) (EMul (ENum hi) (EVar X i))] in
             lo ← getitem f_pmin (pmin data) i;
             let min_power := lists.2 ++ [RGe (EVar Y i) (EMul (ENum lo) (EVar X i))] in
             mret (max_power, min_power))
           ([], []) (seq 0 n);
  model_eq_demand ← Constraint (py_eq (py_sum (map (EVar Y) (seq 0 n))) (ENum (demand data)));
  mret {| inner := {| x := model_x; y := model_y; obj := model_obj;
                      eq_max_power := lists.1; eq_min_power := lists.2;
                      eq_demand := model_eq_demand |};
          solver_name := "gurobi_persistent" |}.

(** All constraints of a model, in declaration order. *)
Definition constraints (m : ConcreteModel) : list relational :=
  eq_max_power m ++ eq_min_power m ++ [eq_demand m].

(** [ρ] is a feasible point of the model. *)
Definition feasible (ρ : assignment) (m : ConcreteModel) : bool :=
  forallb (λ k, in_domain (var_domain (x m)) (ρ X k)) (var_index (x m))
  && forallb (λ k, in_domain (var_domain (y m)) (ρ Y k)) (var_index (y m))
  && forallb (holds ρ) (constraints m).

(** [scipy.stats.uniform(loc, scale).rvs(n)]: uniform on [loc, loc + scale]. *)
Definition rvs `{BitGenerator} (loc scale : Q) (n : nat) (g : rng_state)
    : list Q * rng_state :=
  sample_affine loc scale n g.

(** [.rvs()]: one sample. *)
Definition rvs1 `{BitGenerator} (loc scale : Q) (g : rng_state) : Q * rng_state :=
  let u := random_sample g in (loc + scale * u.1, u.2).

(** The list comprehension: one demand per sample, the four arrays shared. *)
Fixpoint comprehension `{BitGenerator} (pmin pmax cfix cvar : list Q) (samples : nat)
    (g : rng_state) : list UnitCommitmentData :=
  match samples with
  | O => []
  | S k =>
      let u := rvs1 0.5 0.25 g in
      {| demand := Qsum pmax * u.1; pmin := pmin; pmax := pmax; cfix := cfix; cvar := cvar |}
      :: comprehension pmin pmax cfix cvar k u.2
  end.

Definition random_uc_data `{BitGenerator} (samples n : Z) (seed : Z)
    : result (list UnitCommitmentData) :=
  if (n <? 0)%Z then Raise ValueError else
  let g := rng_seed seed in
  let r1 := rvs 100000 400000 (Z.to_nat n) g in
  let pmin := r1.1 in
  let r2 := rvs 2.0 2.5 (Z.to_nat n) r1.2 in
  let pmax := zip_with Qmult pmin r2.1 in
  let r3 := rvs 100.0 25.0 (Z.to_nat n) r2.2 in
  let cfix := zip_with Qmult pmin r3.1 in
  let r4 := rvs 1.25 0.25 (Z.to_nat n) r3.2 in
  let cvar := r4.1 in
  Ok (comprehension pmin pmax cfix cvar (Z.to_nat samples) r4.2).

(** The warm-start component of the notebook. *)
Definition comp : MemorizingPrimalComponent :=
  {| clf := {| n_neighbors := 25 |};
     extractor := {| instance_fields := Some ["static_constr_rhs"];
                     var_fields := None; constr_fields := None |};
     constructor := {| k := 25; thresholds := [0.0; 1.0] |};
     action := SetWarmStart |}.

End Pyomo.

(** ** The JuMP notebook *)

Module JuMP.

(** [@variable(model, x[G], Bin)] and [@variable(model, y[G] >= 0)]: a
    family of variables over the keys [G], optionally binary, optionally
    with a lower bound. *)
Record Variables := { keys : list nat; binary : bool; lower_bound : option Q }.

Definition in_bounds (vs : Variables) (v : Q) : bool :=
  (if binary vs then Qeq_bool v 0 || Qeq_bool v 1 else true)
  && match lower_bound vs with
     | Some lb => Qle_bool lb v
     | None => true
     end.

Record Model := {
  optimizer : string;
  x : Variables;
  y : Variables;
  objective_sense : sense;
  objective_function : expr;
  eq_max_power : list relational;
  eq_min_power : list relational;
  eq_demand : relational;
}.

Record JumpModel := { inner : Model }.

(** [data.<f>[g]] on a Julia vector: subscripts start at 1. *)
Definition getindex (f : field) (v : list Q) (g : nat) : Exec Q :=
  _ ← tell (Access f g);
  match g with
  | O => raise BoundsError
  | S k =>
      match v !! k with
      | Some a => mret a
      | None => raise BoundsError
      end
  end.

(** [sum(... for g in G)] inside a JuMP macro: an affine expression
    accumulated from zero. *)
Definition affine_sum (items : list expr) : expr := foldl EAdd (ENum 0) items.

(** Modelled from the spec: [read_jld2] is missing from the material; it
    loads the record that a problem-data file holds. *)
Definition read_jld2 `{Codec} (fs : gmap string blob) (filename : string)
    : Exec UnitCommitmentData :=
  match fs !! filename with
  | None => raise SystemError
  | Some b =>
      match loads b with
      | Some d => mret d
      | None => raise TypeError
      end
  end.

Definition build_uc_model `{Codec} (fs : gmap string blob)
    (data : string + UnitCommitmentData) : Exec JumpModel :=
  data ← match data with
         | inl path => read_jld2 fs path
         | inr d => mret d
         end;
  let G := seq 1 (length (pmin data)) in
  let model_x := {| keys := G; binary := true; lower_bound := None |} in
  let model_y := {| keys := G; binary := false; lower_bound := Some 0 |} in
  terms ← mapM (λ g,
             c ← getindex f_cfix (cfix data) g;
             v ← getindex f_cvar (cvar data) g;
             mret (EAdd (EMul (ENum c) (EVar X g)) (EMul (ENum v) (EVar Y g))))
           G;
  max_power ← mapM (λ g,
             hi ← getindex f_pmax (pmax data) g;
             mret (RLe (EVar Y g) (EMul (ENum hi) (EVar X g))))
           G;
  min_power ← mapM (λ g,
             lo ← getindex f_pmin (pmin data) g;
             mret (RGe (EVar Y g) (EMul (ENum lo) (EVar X g))))
           G;
  mret {| inner := {| optimizer := "Gurobi.Optimizer";
                      x := model_x; y := model_y;
                      objective_sense := minimize;
                      objective_function := affine_sum terms;
                      eq_max_power := max_power;
                      eq_min_power := min_power;
                      eq_demand := REq (affine_sum (map (EVar Y) G)) (ENum (demand data)) |} |}.

Definition constraints (m : Model) : list relational :=
  eq_max_power m ++ eq_min_power m ++ [eq_demand m].

(** [ρ] is a feasible point of the model. *)
Definition feasible (ρ : assignment) (m : Model) : bool :=
  forallb (λ g, in_bounds (x m) (ρ X g)) (keys (x m))
  && forallb (λ g, in_bounds (y m) (ρ Y g)) (keys (y m))
  && forallb (holds ρ) (constraints m).

(** [rand(Uniform(a, b), n)]: uniform on [a, b]. *)
Definition rand `{BitGenerator} (a b : Q) (n : nat) (g : rng_state)
    : list Q * rng_state :=
  sample_affine a (b - a) n g.

(** [rand(Uniform(a, b))]: one sample. *)
Definition rand1 `{BitGenerator} (a b : Q) (g : rng_state) : Q * rng_state :=
  let u := random_sample g in (a + (b - a) * u.1, u.2).

Fixpoint comprehension `{BitGenerator} (pmin pmax cfix cvar : list Q) (samples : nat)
    (g : rng_state) : list UnitCommitmentData :=
  match samples with
  | O => []
  | S k =>
      let u := rand1 0.5 0.75 g in
      {| demand := Qsum pmax * u.1; pmin := pmin; pmax := pmax; cfix := cfix; cvar := cvar |}
      :: comprehension pmin pmax cfix cvar k u.2
  end.

Definition random_uc_data `{BitGenerator} (samples n : Z) (seed : Z)
    : result (list UnitCommitmentData) :=
  if (n <? 0)%Z then Raise ArgumentError else
  let g := rng_seed seed in
  let r1 := rand 100000 500000 (Z.to_nat n) g in
  let pmin := r1.1 in
  let r2 := rand 2 2.5 (Z.to_nat n) r1.2 in
  let pmax := zip_with Qmult pmin r2.1 in
  let r3 := rand 100 125 (Z.to_nat n) r2.2 in
  let cfix := zip_with Qmult pmin r3.1 in
  let r4 := rand 1.25 1.50 (Z.to_nat n) r3.2 in
  let cvar := r4.1 in
  Ok (comprehension pmin pmax cfix cvar (Z.to_nat samples) r4.2).

(** The warm-start component of the notebook. *)
Definition comp : MemorizingPrimalComponent :=
  {| clf := {| n_neighbors := 25 |};
     extractor := {| instance_fields := Some ["static_constr_rhs"];
                     var_fields := None; constr_fields := None |};
     constructor := {| k := 25; thresholds := [0.0; 1.0] |};
     action := SetWarmStart |}.

End JuMP.

(** The assignment of the 0-based variables that an assignment of the
    1-based variables induces: Pyomo's [x[i]] is JuMP's [x[i+1]]. *)
Definition shift (ρ : assignment) : assignment := λ c k, ρ c (S k).

(** The Pyomo model and the JuMP model state the same mixed-integer
    program: the same variables (up to the base of the subscripts) with the
    same admissible values, the same sense, and an objective and constraints
    that agree at every assignment. *)
Definition same_program (mp : Pyomo.ConcreteModel) (mj : JuMP.Model) : Prop :=
  S <$> Pyomo.var_index (Pyomo.x mp) = JuMP.keys (JuMP.x mj)
  ∧ S <$> Pyomo.var_index (Pyomo.y mp) = JuMP.keys (JuMP.y mj)
  ∧ (∀ v, Pyomo.in_domain (Pyomo.var_domain (Pyomo.x mp)) v = JuMP.in_bounds (JuMP.x mj) v)
  ∧ (∀ v, Pyomo.in_domain (Pyomo.var_domain (Pyomo.y mp)) v = JuMP.in_bounds (JuMP.y mj) v)
  ∧ Pyomo.obj_sense (Pyomo.obj mp) = JuMP.objective_sense mj
  ∧ (∀ ρ, eval (shift ρ) (Pyomo.obj_expr (Pyomo.obj mp)) == eval ρ (JuMP.objective_function mj))
  ∧ (∀ ρ, holds (shift ρ) <$> Pyomo.constraints mp = holds ρ <$> JuMP.constraints mj).

(** ** The feature-extractor notebook *)

Module Features.

Definition ext : H5FieldsExtractor :=
  {| instance_fields := Some ["lp_obj_value"; "static_var_obj_coeffs"];
     var_fields := Some ["lp_obj_value"; "static_var_obj_coeffs"; "lp_var_values";
                         "lp_var_reduced_costs"];
     constr_fields := Some ["static_constr_rhs"; "lp_constr_dual_values";
                            "lp_constr_slacks"] |}.

End Features.

(** ** Sample inputs *)

(** The three-generator instance that both notebooks solve. *)
Definition example_data : UnitCommitmentData :=
  {| demand := 100; pmin := [10; 20; 30]; pmax := [50; 60; 70];
     cfix := [700; 600; 500]; cvar := [1.5; 2.0; 2.5] |}.

(** A record without generators. *)
Definition empty_data : UnitCommitmentData :=
  {| demand := 100; pmin := []; pmax := []; cfix := []; cvar := [] |}.

(** A record whose lists have different lengths. *)
Definition ragged_data : UnitCommitmentData :=
  {| demand := 30; pmin := [10]; pmax := [50; 60]; cfix := [700; 600; 500]; cvar := [1.5] |}.

(** A record whose [cfix] is shorter than its [pmin]. *)
Definition short_data : UnitCommitmentData :=
  {| demand := 30; pmin := [10; 20]; pmax := [50; 60]; cfix := [700]; cvar := [1.5; 2.0] |}.

(** The HDF5 file of the feature-extractor notebook, with the values that
    the notebook prints: ten variables, five constraints. *)
Definition knapsack_h5 : H5File :=
  {| n_vars := 10;
     n_constrs := 5;
     datasets := list_to_map
       [("lp_obj_value", H5Scalar (-1531.24308771));
        ("static_var_obj_coeffs",
         H5Array [-350; -692; -454; -709; -605; -543; -321; -674; -571; -341]);
        ("lp_var_values",
         H5Array [0; 0.251703322; 0; 0.111373022; 1; 0; 0.107488781; 0.882293701; 0;
                  0.128830120]);
        ("lp_var_reduced_costs",
         H5Array [94.3468018; 0; 82.5504150; 0; -126.055283; 168.693771; 0; 0;
                  141.129074; 0]);
        ("static_constr_rhs", H5Array [1310; 988; 1004; 1269; 1007]);
        ("lp_constr_dual_values",
         H5Array [-0.15978307; -0.32881632; -0.40601316; -0.13659772; -0.28800571]);
        ("lp_constr_slacks", H5Array [0; 0; 0; 0; 0])] |}.

(** A file of an instance with three variables and two constraints. *)
Definition small_h5 : H5File :=
  {| n_vars := 3;
     n_constrs := 2;
     datasets := list_to_map
       [("lp_obj_value", H5Scalar (-12.5));
        ("static_var_obj_coeffs", H5Array [-3; -4; -5]);
        ("static_constr_rhs", H5Array [7; 8])] |}.

(** An extractor whose instance fields are a per-variable field and a
    per-constraint field. *)
Definition mixed_ext : H5FieldsExtractor :=
  {| instance_fields := Some ["static_var_obj_coeffs"; "static_constr_rhs"];
     var_fields := None;
     constr_fields := None |}.

(** A file of an instance with two variables and three constraints. *)
Definition tall_h5 : H5File :=
  {| n_vars := 2;
     n_constrs := 3;
     datasets := list_to_map
       [("lp_obj_value", H5Scalar (-9));
        ("static_var_obj_coeffs", H5Array [-4; -5]);
        ("static_constr_rhs", H5Array [6; 7; 8])] |}.

(** An extractor with two per-variable fields among its instance fields. *)
Definition coeffs_values_ext : H5FieldsExtractor :=
  {| instance_fields := Some ["static_var_obj_coeffs"; "lp_var_values"];
     var_fields := None;
     constr_fields := None |}.


(** Training sample [i] of a family with one constraint and three binary
    variables: the right-hand side is [i]; in the optimal solution the first
    variable is 1, the second is 1 when [i] is even, the third is 0. *)
Definition toy_sample (i : nat) : TrainingSample :=
  {| sample_h5 :=
       {| n_vars := 3;
          n_constrs := 1;
          datasets := list_to_map
            [("static_constr_rhs", H5Array [inject_Z (Z.of_nat i)])] |};
     sample_solution := [1; if Nat.even i then 1 else 0; 0] |}.

(** Thirty training samples, the farthest from the test instance first. *)
Definition toy_training : list TrainingSample := toy_sample <$> rev (seq 0 30).

(** A test instance of the same family, with right-hand side 0. *)
Definition toy_test : H5File := sample_h5 (toy_sample 0).

(** ** Closed forms and vocabulary of the statements

    What the builders compute when no subscript is out of range, written
    without the monad (the lemmas below show that the builders return
    exactly these), and the notions that the statements about the random
    instances use. *)

Module Closed.

Definition pyomo_term (d : UnitCommitmentData) (i : nat) : expr :=
  EAdd (EMul (ENum (nth i (cfix d) 0)) (EVar X i))
       (EMul (ENum (nth i (cvar d) 0)) (EVar Y i)).

Definition pyomo_max (d : UnitCommitmentData) (i : nat) : relational :=
  RLe (EVar Y i) (EMul (ENum (nth i (pmax d) 0)) (EVar X i)).

Definition pyomo_min (d : UnitCommitmentData) (i : nat) : relational :=
  RGe (EVar Y i) (EMul (ENum (nth i (pmin d) 0)) (EVar X i)).

Definition pyomo_model (d : UnitCommitmentData) : Pyomo.PyomoModel :=
  let n := length (pmin d) in
  {| Pyomo.inner :=
       {| Pyomo.x := {| Pyomo.var_index := seq 0 n; Pyomo.var_domain := Pyomo.Binary |};
          Pyomo.y := {| Pyomo.var_index := seq 0 n;
                        Pyomo.var_domain := Pyomo.NonNegativeReals |};
          Pyomo.obj := {| Pyomo.obj_expr := Pyomo.py_sum (pyomo_term d <$> seq 0 n);
                          Pyomo.obj_sense := minimize |};
          Pyomo.eq_max_power := pyomo_max d <$> seq 0 n;
          Pyomo.eq_min_power := pyomo_min d <$> seq 0 n;
          Pyomo.eq_demand := REq (Pyomo.py_sum (EVar Y <$> seq 0 n)) (ENum (demand d)) |};
     Pyomo.solver_name := "gurobi_persistent" |}.

Definition pyomo_log (d : UnitCommitmentData) : list access :=
  let n := length (pmin d) in
  concat ((λ i, [Access f_cfix i; Access f_cvar i]) <$> seq 0 n)
  ++ concat ((λ i, [Access f_pmax i; Access f_pmin i]) <$> seq 0 n).

Definition jump_term (d : UnitCommitmentData) (g : nat) : expr :=
  EAdd (EMul (ENum (nth (pred g) (cfix d) 0)) (EVar X g))
       (EMul (ENum (nth (pred g) (cvar d) 0)) (EVar Y g)).

Definition jump_max (d : UnitCommitmentData) (g : nat) : relational :=
  RLe (EVar Y g) (EMul (ENum (nth (pred g) (pmax d) 0)) (EVar X g)).

Definition jump_min (d : UnitCommitmentData) (g : nat) : relational :=
  RGe (EVar Y g) (EMul (ENum (nth (pred g) (pmin d) 0)) (EVar X g)).

Definition jump_model (d : UnitCommitmentData) : JuMP.JumpModel :=
  let G := seq 1 (length (pmin d)) in
  {| JuMP.inner :=
       {| JuMP.optimizer := "Gurobi.Optimizer";
          JuMP.x := {| JuMP.keys := G; JuMP.binary := true; JuMP.lower_bound := None |};
          JuMP.y := {| JuMP.keys := G; JuMP.binary := false; JuMP.lower_bound := Some 0 |};
          JuMP.objective_sense := minimize;
          JuMP.objective_function := JuMP.affine_sum (jump_term d <$> G);
          JuMP.eq_max_power := jump_max d <$> G;
          JuMP.eq_min_power := jump_min d <$> G;
          JuMP.eq_demand := REq (JuMP.affine_sum (EVar Y <$> G)) (ENum (demand d)) |} |}.

(** The vector that [h5_vector] returns for a field of the file. *)
Definition vector_of (h5 : H5File) (f : string) : list Q :=
  match datasets h5 !! f with
  | Some (H5Array a) => a
  | Some (H5Scalar v) => [v]
  | None => []
  end.

(** Every generator is online and generator [k] produces [ys[k]]. *)
Definition all_on (ys : list Q) : assignment :=
  λ c k, match c with
         | X => 1
         | Y => nth k ys 0
         end.

(** The same with the subscripts of Julia: generator [g] produces
    [ys[g]], counted from 1. *)
Definition all_on1 (ys : list Q) : assignment :=
  λ c g, match c with
         | X => 1
         | Y => nth (pred g) ys 0
         end.

(** A production plan for the demand: every generator runs at the same
    fraction of the way from its minimum to its maximum. *)
Definition dispatch (d : UnitCommitmentData) : list Q :=
  let lo_total := Qsum (pmin d) in
  let hi_total := Qsum (pmax d) in
  let t := if Qle_bool hi_total lo_total then 0
           else (demand d - lo_total) / (hi_total - lo_total) in
  zip_with (λ lo hi, lo + t * (hi - lo)) (pmin d) (pmax d).

(** The records of one call of [random_uc_data]: four shared arrays of
    length [n], and a demand between 0.5 and 0.75 times the sum of [pmax]. *)
Definition demand_family (n : nat) (data : list UnitCommitmentData) : Prop :=
  ∃ a b c e : list Q,
    length a = n ∧ length b = n ∧ length c = n ∧ length e = n
    ∧ Forall (λ d, pmin d = a ∧ pmax d = b ∧ cfix d = c ∧ cvar d = e
                   ∧ 0.5 * Qsum b <= demand d ∧ demand d <= 0.75 * Qsum b) data.

(** Each maximum is at least twice the minimum, so the minima add up to
    at most half of the maxima, which is at most the demand, which is at
    most the sum of the maxima. *)
Definition capacity_chain (d : UnitCommitmentData) : Prop :=
  Forall2 (λ lo hi, 2 * lo <= hi) (pmin d) (pmax d)
  ∧ Qsum (pmin d) <= 0.5 * Qsum (pmax d)
  ∧ 0.5 * Qsum (pmax d) <= demand d
  ∧ demand d <= Qsum (pmax d).

End Closed.

(** ** The problem that the notebooks describe

    Both notebooks state the problem in words before they model it: each
    generator is online or offline; an online generator produces between its
    minimum and its maximum power and costs its fixed cost plus its variable
    cost per unit produced; an offline generator produces nothing and costs
    nothing; the total production is exactly the demand. *)

Module Problem.

(** [ρ] is a schedule of the problem of record [d]: [ρ X i] says whether
    generator [i] is online, [ρ Y i] how much it produces. *)
Definition schedule (d : UnitCommitmentData) (ρ : assignment) : Prop :=
  (∀ i, (i < length (pmin d))%nat →
     (ρ X i == 0 ∧ ρ Y i == 0)
     ∨ (ρ X i == 1 ∧ nth i (pmin d) 0 <= ρ Y i ∧ ρ Y i <= nth i (pmax d) 0))
  ∧ Qsum (ρ Y <$> seq 0 (length (pmin d))) == demand d.

(** What the schedule costs the company. *)
Definition cost (d : UnitCommitmentData) (ρ : assignment) : Q :=
  Qsum ((λ i, if Qeq_bool (ρ X i) 1
              then nth i (cfix d) 0 + nth i (cvar d) 0 * ρ Y i
              else 0)
        <$> seq 0 (length (pmin d))).

End Problem.

(** The record with [pmax], [cfix] and [cvar] cut to the length of [pmin]. *)
Definition truncated (d : UnitCommitmentData) : UnitCommitmentData :=
  let n := length (pmin d) in
  {| demand := demand d; pmin := pmin d; pmax := take n (pmax d);
     cfix := take n (cfix d); cvar := take n (cvar d) |}.

(** The lists of the record have one entry per generator, and there is a
    generator. *)
Definition per_generator (d : UnitCommitmentData) : Prop :=
  (1 ≤ length (pmin d))%nat ∧ length (pmax d) = length (pmin d)
  ∧ length (cfix d) = length (pmin d) ∧ length (cvar d) = length (pmin d).

(** ** The cells that generate and use the files (Pyomo notebook) *)

(** Python's [l[a:b]] for [0 <= a <= b]. *)
Definition slice {A : Type} (l : list A) (a b : nat) : list A :=
  take (b - a) (drop a l).

Module Cells.

(** What the cell leaves behind: the records, the two lists of paths and
    the files. *)
Record generated `{Codec} := {
  data : list UnitCommitmentData;
  train_data : list string;
  test_data : list string;
  files : gmap string blob;
}.

(** [data = random_uc_data(samples=500, n=500)];
    [train_data = write_pkl_gz(data[0:450], "uc/train")];
    [test_data = write_pkl_gz(data[450:500], "uc/test")]. *)
Definition generate `{BitGenerator} `{Codec} (fs : gmap string blob) : result generated :=
  data ← Pyomo.random_uc_data 500 500 42;
  let train := write_pkl_gz (slice data 0 450) "uc/train" fs in
  let test := write_pkl_gz (slice data 450 500) "uc/test" train.2 in
  mret {| data := data; train_data := train.1; test_data := test.1; files := test.2 |}.

(** [data = random_uc_data(samples=1, n=500)[0]]; [model = build_uc_model(data)]. *)
Definition in_memory `{BitGenerator} `{Codec} (fs : gmap string blob) : Exec Pyomo.PyomoModel :=
  match Pyomo.random_uc_data 1 500 42 with
  | Raise e => raise e
  | Ok l =>
      match l !! 0%nat with
      | None => raise IndexError
      | Some d => Pyomo.build_uc_model fs (inr d)
      end
  end.

End Cells.

(** A bit generator whose every draw is the largest 53-bit number. *)
Definition top_bits : BitGenerator :=
  {| rng_state := unit;
     rng_seed := λ _, tt;
     rng_next := λ s, ((2 ^ 53 - 1)%Z, s) |}.

(** * Lemmas *)

(** ** The execution monad *)

Lemma Exec_bind_Ok {A B : Type} (f : A → Exec B) (l : list access) (a : A) :
  (l, Ok a) ≫= f = ((l ++ (f a).1)%list, (f a).2).
Proof. reflexivity. Qed.

Lemma Exec_bind_Raise {A B : Type} (f : A → Exec B) (l : list access) (e : exn) :
  (l, Raise e) ≫= f = (l, Raise e).
Proof. reflexivity. Qed.

Lemma Exec_bind_ret {A B : Type} (f : A → Exec B) (a : A) :
  mret a ≫= f = f a.
Proof.
  unfold mret, Exec_ret. rewrite Exec_bind_Ok. simpl. by destruct (f a).
Qed.

(** A [mapM] whose body never raises is a [map], and logs in order. *)
Lemma mapM_pure {A B : Type} (f : A → Exec B) (lg : A → list access) (g : A → B)
    (l : list A) :
  (∀ a, a ∈ l → f a = (lg a, Ok (g a))) →
  mapM f l = (concat (lg <$> l), Ok (g <$> l)).
Proof.
  induction l as [|a l IH]; intros Hf; [reflexivity|].
  cbn [mapM]. rewrite (Hf a) by left. rewrite Exec_bind_Ok.
  rewrite IH by (intros; apply Hf; by right).
  cbn. by rewrite app_nil_r.
Qed.

(** A loop whose body never raises is a left fold. *)
Lemma foldlM_pure {A S : Type} (body : S → A → Exec S) (lg : A → list access)
    (h : S → A → S) (l : list A) (s : S) :
  (∀ s a, a ∈ l → body s a = (lg a, Ok (h s a))) →
  foldlM body s l = (concat (lg <$> l), Ok (foldl h s l)).
Proof.
  revert s. induction l as [|a l IH]; intros s Hb; [reflexivity|].
  cbn [foldlM]. rewrite (Hb s a) by left. rewrite Exec_bind_Ok.
  rewrite IH by (intros; apply Hb; by right). reflexivity.
Qed.

(** Appending one element per iteration to two lists builds two maps. *)
Lemma foldl_two_lists {A B C : Type} (f : A → B) (g : A → C) (l : list A)
    (s : list B * list C) :
  foldl (λ (st : list B * list C) a, (st.1 ++ [f a], st.2 ++ [g a])) s l
  = (s.1 ++ (f <$> l), s.2 ++ (g <$> l)).
Proof.
  revert s. induction l as [|a l IH]; intros [s1 s2]; cbn.
  - by rewrite !app_nil_r.
  - rewrite IH. cbn. by rewrite <- !app_assoc.
Qed.

Lemma lookup_nth_Q (l : list Q) (i : nat) :
  (i < length l)%nat → l !! i = Some (nth i l 0).
Proof.
  intros Hi. destruct (lookup_lt_is_Some_2 l i Hi) as [v Hv].
  rewrite Hv. f_equal. symmetry. by apply nth_lookup_Some.
Qed.

Lemma getitem_Some (f : field) (l : list Q) (i : nat) :
  (i < length l)%nat → Pyomo.getitem f l i = ([Access f i], Ok (nth i l 0)).
Proof.
  intros Hi. unfold Pyomo.getitem. rewrite (lookup_nth_Q l i Hi). reflexivity.
Qed.

Lemma getindex_Some (f : field) (l : list Q) (g : nat) :
  (1 ≤ g ≤ length l)%nat → JuMP.getindex f l g = ([Access f g], Ok (nth (pred g) l 0)).
Proof.
  intros Hg. unfold JuMP.getindex. destruct g as [|k]; [lia|].
  cbn [pred]. rewrite (lookup_nth_Q l k) by lia. reflexivity.
Qed.

(** ** Sums *)

Lemma Qsum_nil : Qsum [] = 0.
Proof. reflexivity. Qed.

Lemma Qsum_cons (a : Q) (l : list Q) : Qsum (a :: l) = a + Qsum l.
Proof. reflexivity. Qed.

Lemma py_add_not_num (a b : expr) :
  is_num a = false → Pyomo.py_add a b = EAdd a b.
Proof. by destruct a. Qed.

Lemma foldl_py_add_not_num (items : list expr) (a : expr) :
  is_num a = false → is_num (foldl Pyomo.py_add a items) = false.
Proof.
  revert a. induction items as [|b items IH]; intros a Ha; [done|].
  cbn. apply IH. by rewrite py_add_not_num.
Qed.

(** The sum of a non-empty list of Pyomo expressions is an expression. *)
Lemma py_sum_not_num (t : expr) (items : list expr) :
  is_num t = false → is_num (Pyomo.py_sum (t :: items)) = false.
Proof.
  intros Ht. unfold Pyomo.py_sum. cbn. by apply foldl_py_add_not_num.
Qed.

Lemma eval_py_add (ρ : assignment) (a b : expr) :
  eval ρ (Pyomo.py_add a b) == eval ρ a + eval ρ b.
Proof.
  destruct a as [q| | |]; try reflexivity.
  unfold Pyomo.py_add. destruct (Qeq_bool q 0) eqn:Hq; [|reflexivity].
  apply Qeq_bool_eq in Hq. cbn [eval]. rewrite Hq. ring.
Qed.

Lemma eval_foldl_py_add (ρ : assignment) (items : list expr) (a : expr) :
  eval ρ (foldl Pyomo.py_add a items) == eval ρ a + Qsum (eval ρ <$> items).
Proof.
  revert a. induction items as [|b items IH]; intros a.
  - cbn [foldl]. rewrite fmap_nil, Qsum_nil. ring.
  - cbn [foldl]. rewrite fmap_cons, Qsum_cons, IH, eval_py_add. ring.
Qed.

(** Python's [sum] denotes the sum of the values of its items. *)
Lemma eval_py_sum (ρ : assignment) (items : list expr) :
  eval ρ (Pyomo.py_sum items) == Qsum (eval ρ <$> items).
Proof. unfold Pyomo.py_sum. rewrite eval_foldl_py_add. cbn [eval]. ring. Qed.

Lemma eval_foldl_EAdd (ρ : assignment) (items : list expr) (a : expr) :
  eval ρ (foldl EAdd a items) == eval ρ a + Qsum (eval ρ <$> items).
Proof.
  revert a. induction items as [|b items IH]; intros a.
  - cbn [foldl]. rewrite fmap_nil, Qsum_nil. ring.
  - cbn [foldl]. rewrite fmap_cons, Qsum_cons, IH. cbn [eval]. ring.
Qed.

(** So does the sum of a JuMP macro. *)
Lemma eval_affine_sum (ρ : assignment) (items : list expr) :
  eval ρ (JuMP.affine_sum items) == Qsum (eval ρ <$> items).
Proof. unfold JuMP.affine_sum. rewrite eval_foldl_EAdd. cbn [eval]. ring. Qed.

(** ** The builders, step by step *)

Lemma py_eq_sum_vars (n : nat) (q : Q) :
  (1 ≤ n)%nat →
  Pyomo.py_eq (Pyomo.py_sum (EVar Y <$> seq 0 n)) (ENum q)
  = inr (REq (Pyomo.py_sum (EVar Y <$> seq 0 n)) (ENum q)).
Proof.
  intros Hn. destruct n as [|n]; [lia|].
  cbn [seq fmap list_fmap].
  pose proof (py_sum_not_num (EVar Y 0) (list_fmap _ _ (EVar Y) (seq 1 n)) eq_refl) as Hs.
  by destruct (Pyomo.py_sum _).
Qed.

(** With enough entries in [pmax], [cfix] and [cvar], the Pyomo builder
    performs exactly the accesses of [Closed.pyomo_log]; it returns
    [Closed.pyomo_model] unless there is no generator, in which case Pyomo
    rejects the demand constraint. *)
Lemma pyomo_build_closed `{Codec} (fs : gmap string blob) (d : UnitCommitmentData) :
  (length (pmin d) ≤ length (pmax d))%nat →
  (length (pmin d) ≤ length (cfix d))%nat →
  (length (pmin d) ≤ length (cvar d))%nat →
  Pyomo.build_uc_model fs (inr d)
  = (Closed.pyomo_log d,
     if decide (length (pmin d) = 0%nat) then Raise ValueError
     else Ok (Closed.pyomo_model d)).
Proof.
  intros Hmax Hfix Hvar.
  unfold Pyomo.build_uc_model. rewrite Exec_bind_ret. cbv zeta.
  rewrite (mapM_pure _ (λ i, [Access f_cfix i; Access f_cvar i]) (Closed.pyomo_term d)).
  2:{ intros i Hi. apply elem_of_seq in Hi.
      rewrite !getitem_Some by lia. reflexivity. }
  rewrite Exec_bind_Ok.
  rewrite (foldlM_pure _ (λ i, [Access f_pmax i; Access f_pmin i])
             (λ st i, (st.1 ++ [Closed.pyomo_max d i], st.2 ++ [Closed.pyomo_min d i]))).
  2:{ intros st i Hi. apply elem_of_seq in Hi.
      rewrite !getitem_Some by lia. reflexivity. }
  rewrite Exec_bind_Ok, foldl_two_lists. cbn [fst snd app].
  unfold Closed.pyomo_log.
  destruct (decide (length (pmin d) = 0%nat)) as [Hz|Hnz].
  - rewrite Hz. reflexivity.
  - rewrite py_eq_sum_vars by lia. cbn. by rewrite !app_nil_r.
Qed.

(** With enough entries in every list, the JuMP builder returns
    [Closed.jump_model], also when there is no generator. *)
Lemma jump_build_closed `{Codec} (fs : gmap string blob) (d : UnitCommitmentData) :
  (length (pmin d) ≤ length (pmax d))%nat →
  (length (pmin d) ≤ length (cfix d))%nat →
  (length (pmin d) ≤ length (cvar d))%nat →
  (JuMP.build_uc_model fs (inr d)).2 = Ok (Closed.jump_model d).
Proof.
  intros Hmax Hfix Hvar.
  unfold JuMP.build_uc_model. rewrite Exec_bind_ret. cbv zeta.
  assert (Hterms : mapM (λ g,
             c ← JuMP.getindex f_cfix (cfix d) g;
             v ← JuMP.getindex f_cvar (cvar d) g;
             mret (EAdd (EMul (ENum c) (EVar X g)) (EMul (ENum v) (EVar Y g))))
           (seq 1 (length (pmin d)))
          = (concat ((λ g, [Access f_cfix g; Access f_cvar g]) <$> seq 1 (length (pmin d))),
             Ok (Closed.jump_term d <$> seq 1 (length (pmin d))))).
  { apply mapM_pure. intros g Hg. apply elem_of_seq in Hg.
    rewrite !getindex_Some by lia. reflexivity. }
  assert (Hmaxs : mapM (λ g,
             hi ← JuMP.getindex f_pmax (pmax d) g;
             mret (RLe (EVar Y g) (EMul (ENum hi) (EVar X g))))
           (seq 1 (length (pmin d)))
          = (concat ((λ g, [Access f_pmax g]) <$> seq 1 (length (pmin d))),
             Ok (Closed.jump_max d <$> seq 1 (length (pmin d))))).
  { apply mapM_pure. intros g Hg. apply elem_of_seq in Hg.
    rewrite !getindex_Some by lia. reflexivity. }
  assert (Hmins : mapM (λ g,
             lo ← JuMP.getindex f_pmin (pmin d) g;
             mret (RGe (EVar Y g) (EMul (ENum lo) (EVar X g))))
           (seq 1 (length (pmin d)))
          = (concat ((λ g, [Access f_pmin g]) <$> seq 1 (length (pmin d))),
             Ok (Closed.jump_min d <$> seq 1 (length (pmin d))))).
  { apply mapM_pure. intros g Hg. apply elem_of_seq in Hg.
    rewrite !getindex_Some by lia. reflexivity. }
  rewrite Hterms, Exec_bind_Ok, Hmaxs, Exec_bind_Ok, Hmins. reflexivity.
Qed.

Lemma pyomo_build_Ok `{Codec} (fs : gmap string blob) (d : UnitCommitmentData) (n : nat) :
  (1 ≤ n)%nat →
  length (pmin d) = n → length (pmax d) = n → length (cfix d) = n → length (cvar d) = n →
  (Pyomo.build_uc_model fs (inr d)).2 = Ok (Closed.pyomo_model d).
Proof.
  intros Hn H1 H2 H3 H4. rewrite pyomo_build_closed by lia.
  cbn [snd]. destruct (decide _); [lia|done].
Qed.

(** ** The two models state the same program *)

Lemma Qsum_fmap_ext {A : Type} (f g : A → Q) (l : list A) :
  (∀ a, f a = g a) → Qsum (f <$> l) = Qsum (g <$> l).
Proof. intros Hfg. f_equal. apply list_fmap_ext. auto. Qed.

Lemma closed_same_program (d : UnitCommitmentData) :
  same_program (Pyomo.inner (Closed.pyomo_model d)) (JuMP.inner (Closed.jump_model d)).
Proof.
  unfold same_program, Closed.pyomo_model, Closed.jump_model.
  cbn [Pyomo.inner JuMP.inner Pyomo.x Pyomo.y Pyomo.obj JuMP.x JuMP.y Pyomo.var_index
       Pyomo.var_domain JuMP.keys Pyomo.obj_sense Pyomo.obj_expr JuMP.objective_sense
       JuMP.objective_function].
  split_and!.
  - by rewrite fmap_S_seq.
  - by rewrite fmap_S_seq.
  - intros v. unfold JuMP.in_bounds. cbn [JuMP.binary JuMP.lower_bound].
    by rewrite andb_true_r.
  - intros v. reflexivity.
  - reflexivity.
  - intros ρ. rewrite eval_py_sum, eval_affine_sum.
    rewrite <- fmap_S_seq, <- !list_fmap_compose. reflexivity.
  - intros ρ. unfold Pyomo.constraints, JuMP.constraints.
    cbn [Pyomo.eq_max_power Pyomo.eq_min_power Pyomo.eq_demand
         JuMP.eq_max_power JuMP.eq_min_power JuMP.eq_demand].
    rewrite !fmap_app, <- fmap_S_seq, <- !list_fmap_compose.
    apply (f_equal2 app); [reflexivity|].
    apply (f_equal2 app); [reflexivity|].
    cbn [fmap list_fmap holds eval]. apply (f_equal (λ b, [b])).
    apply eq_true_iff_eq. rewrite !Qeq_bool_iff.
    rewrite eval_py_sum, eval_affine_sum, <- !list_fmap_compose.
    reflexivity.
Qed.

(** * The claims *)

(** ** C1: the structure of the model *)

(** C1, counterexample.  For the record without generators, whose four lists
    all have length 0, the Pyomo builder raises instead of returning a model
    with one constraint: the sum over an empty range is the plain number 0,
    the comparison with the demand is a Python [bool], and Pyomo rejects it
    as the expression of [eq_demand]. *)
Lemma build_uc_model_no_generators :
  length (pmin empty_data) = 0%nat ∧ length (pmax empty_data) = 0%nat
  ∧ length (cfix empty_data) = 0%nat ∧ length (cvar empty_data) = 0%nat
  ∧ (Pyomo.build_uc_model (H:=memory_codec) ∅ (inr empty_data)).2 = Raise ValueError
  ∧ ¬ ∃ m, (Pyomo.build_uc_model (H:=memory_codec) ∅ (inr empty_data)).2 = Ok m.
Proof.
  split_and!; try reflexivity.
  intros [m Hm]. vm_compute in Hm. discriminate.
Qed.

(** C1, amended.  For every record whose four lists have the same length
    [n >= 1], the Pyomo builder returns a model with exactly the binary
    variables [x[0..n-1]], the non-negative variables [y[0..n-1]], the
    objective [sum_i (cfix[i]*x[i] + cvar[i]*y[i])] to be minimized, the [n]
    constraints [y[i] <= pmax[i]*x[i]], the [n] constraints
    [y[i] >= pmin[i]*x[i]] and the constraint [sum_i y[i] == demand], that is
    [2n+1] constraints; the JuMP builder returns the same with the
    subscripts [1..n]. *)
Theorem build_uc_model_structure `{Codec} (fs : gmap string blob)
    (d : UnitCommitmentData) (n : nat) :
  (1 ≤ n)%nat →
  length (pmin d) = n → length (pmax d) = n → length (cfix d) = n → length (cvar d) = n →
  (∃ m, (Pyomo.build_uc_model fs (inr d)).2 = Ok m
     ∧ Pyomo.x (Pyomo.inner m)
       = {| Pyomo.var_index := seq 0 n; Pyomo.var_domain := Pyomo.Binary |}
     ∧ Pyomo.y (Pyomo.inner m)
       = {| Pyomo.var_index := seq 0 n; Pyomo.var_domain := Pyomo.NonNegativeReals |}
     ∧ Pyomo.obj_sense (Pyomo.obj (Pyomo.inner m)) = minimize
     ∧ (∀ ρ, eval ρ (Pyomo.obj_expr (Pyomo.obj (Pyomo.inner m)))
             == Qsum ((λ i, nth i (cfix d) 0 * ρ X i + nth i (cvar d) 0 * ρ Y i)
                      <$> seq 0 n))
     ∧ Pyomo.eq_max_power (Pyomo.inner m)
       = (λ i, RLe (EVar Y i) (EMul (ENum (nth i (pmax d) 0)) (EVar X i))) <$> seq 0 n
     ∧ Pyomo.eq_min_power (Pyomo.inner m)
       = (λ i, RGe (EVar Y i) (EMul (ENum (nth i (pmin d) 0)) (EVar X i))) <$> seq 0 n
     ∧ (∃ total, Pyomo.eq_demand (Pyomo.inner m) = REq total (ENum (demand d))
                 ∧ ∀ ρ, eval ρ total == Qsum (ρ Y <$> seq 0 n))
     ∧ length (Pyomo.constraints (Pyomo.inner m)) = (2 * n + 1)%nat)
  ∧ (∃ m, (JuMP.build_uc_model fs (inr d)).2 = Ok m
     ∧ JuMP.x (JuMP.inner m)
       = {| JuMP.keys := seq 1 n; JuMP.binary := true; JuMP.lower_bound := None |}
     ∧ JuMP.y (JuMP.inner m)
       = {| JuMP.keys := seq 1 n; JuMP.binary := false; JuMP.lower_bound := Some 0 |}
     ∧ JuMP.objective_sense (JuMP.inner m) = minimize
     ∧ (∀ ρ, eval ρ (JuMP.objective_function (JuMP.inner m))
             == Qsum ((λ g, nth (pred g) (cfix d) 0 * ρ X g + nth (pred g) (cvar d) 0 * ρ Y g)
                      <$> seq 1 n))
     ∧ JuMP.eq_max_power (JuMP.inner m)
       = (λ g, RLe (EVar Y g) (EMul (ENum (nth (pred g) (pmax d) 0)) (EVar X g))) <$> seq 1 n
     ∧ JuMP.eq_min_power (JuMP.inner m)
       = (λ g, RGe (EVar Y g) (EMul (ENum (nth (pred g) (pmin d) 0)) (EVar X g))) <$> seq 1 n
     ∧ (∃ total, JuMP.eq_demand (JuMP.inner m) = REq total (ENum (demand d))
                 ∧ ∀ ρ, eval ρ total == Qsum (ρ Y <$> seq 1 n))
     ∧ length (JuMP.constraints (JuMP.inner m)) = (2 * n + 1)%nat).
Proof.
  intros Hn H1 H2 H3 H4. split.
  - exists (Closed.pyomo_model d).
    split; [by apply (pyomo_build_Ok fs d n)|].
    unfold Closed.pyomo_model. rewrite H1.
    cbn [Pyomo.inner Pyomo.x Pyomo.y Pyomo.obj Pyomo.obj_sense Pyomo.obj_expr
         Pyomo.eq_max_power Pyomo.eq_min_power Pyomo.eq_demand].
    split_and!; try reflexivity.
    + intros ρ. rewrite eval_py_sum, <- list_fmap_compose. reflexivity.
    + eexists. split; [reflexivity|].
      intros ρ. rewrite eval_py_sum, <- list_fmap_compose. reflexivity.
    + unfold Pyomo.constraints.
      cbn [Pyomo.eq_max_power Pyomo.eq_min_power Pyomo.eq_demand].
      rewrite !length_app, !length_fmap, !length_seq. cbn [length]. lia.
  - exists (Closed.jump_model d).
    split; [apply jump_build_closed; lia|].
    unfold Closed.jump_model. rewrite H1.
    cbn [JuMP.inner JuMP.x JuMP.y JuMP.objective_sense JuMP.objective_function
         JuMP.eq_max_power JuMP.eq_min_power JuMP.eq_demand].
    split_and!; try reflexivity.
    + intros ρ. rewrite eval_affine_sum, <- list_fmap_compose. reflexivity.
    + eexists. split; [reflexivity|].
      intros ρ. rewrite eval_affine_sum, <- list_fmap_compose. reflexivity.
    + unfold JuMP.constraints.
      cbn [JuMP.eq_max_power JuMP.eq_min_power JuMP.eq_demand].
      rewrite !length_app, !length_fmap, !length_seq. cbn [length]. lia.
Qed.

(** The three-generator instance of the notebooks satisfies the hypotheses. *)
Lemma build_uc_model_structure_witness :
  (1 ≤ 3)%nat ∧ length (pmin example_data) = 3%nat
  ∧ ∃ m, (Pyomo.build_uc_model (H:=memory_codec) ∅ (inr example_data)).2 = Ok m
         ∧ length (Pyomo.constraints (Pyomo.inner m)) = 7%nat.
Proof.
  split; [lia|]. split; [reflexivity|].
  destruct (build_uc_model_structure (H:=memory_codec) ∅ example_data 3)
    as [(m & Hm & _ & _ & _ & _ & _ & _ & _ & Hlen) _];
    [lia|reflexivity|reflexivity|reflexivity|reflexivity|].
  exists m. split; [exact Hm|exact Hlen].
Defined.

(** ** C2: subscripts stay in range; lengths are never compared *)

(** C2.  When [pmax], [cfix] and [cvar] are at least as long as [pmin],
    every subscript that [build_uc_model] applies to one of the four lists
    is below the length of that list, and no [IndexError] is raised.
    Nothing compares the four lengths: a record with four different lengths
    is built and both builders accept it. *)
Theorem build_uc_model_in_bounds `{Codec} (fs : gmap string blob) (d : UnitCommitmentData) :
  (length (pmin d) ≤ length (pmax d))%nat →
  (length (pmin d) ≤ length (cfix d))%nat →
  (length (pmin d) ≤ length (cvar d))%nat →
  Forall (λ a, (acc_index a < length (field_of d (acc_field a)))%nat)
         (Pyomo.build_uc_model fs (inr d)).1
  ∧ (Pyomo.build_uc_model fs (inr d)).2 ≠ Raise IndexError
  ∧ (length (pmin ragged_data) ≠ length (pmax ragged_data)
     ∧ length (pmax ragged_data) ≠ length (cfix ragged_data)
     ∧ (∃ m, (Pyomo.build_uc_model fs (inr ragged_data)).2 = Ok m)
     ∧ (∃ m, (JuMP.build_uc_model fs (inr ragged_data)).2 = Ok m)).
Proof.
  intros Hmax Hfix Hvar. rewrite pyomo_build_closed by lia. cbn [fst snd].
  split_and!.
  - unfold Closed.pyomo_log. apply Forall_app. split.
    + apply Forall_concat, Forall_fmap, Forall_forall. intros i Hi.
      apply elem_of_seq in Hi. repeat constructor; cbn; lia.
    + apply Forall_concat, Forall_fmap, Forall_forall. intros i Hi.
      apply elem_of_seq in Hi. repeat constructor; cbn; lia.
  - destruct (decide _); discriminate.
  - cbn. lia.
  - cbn. lia.
  - exists (Closed.pyomo_model ragged_data).
    rewrite pyomo_build_closed by (cbn; lia). reflexivity.
  - exists (Closed.jump_model ragged_data).
    apply jump_build_closed; cbn; lia.
Qed.

Lemma build_uc_model_in_bounds_witness :
  (length (pmin ragged_data) ≤ length (pmax ragged_data))%nat
  ∧ Forall (λ a, (acc_index a < length (field_of ragged_data (acc_field a)))%nat)
           (Pyomo.build_uc_model (H:=memory_codec) ∅ (inr ragged_data)).1.
Proof.
  split; [cbn; lia|].
  apply (build_uc_model_in_bounds (H:=memory_codec) ∅ ragged_data); cbn; lia.
Defined.

(** With a [cfix] that is too short the subscript [cfix[1]] is out of range:
    the Pyomo builder raises [IndexError], the JuMP builder [BoundsError]. *)
Example build_uc_model_short_list :
  Pyomo.build_uc_model (H:=memory_codec) ∅ (inr short_data)
  = ([Access f_cfix 0; Access f_cvar 0; Access f_cfix 1], Raise IndexError)
  ∧ (JuMP.build_uc_model (H:=memory_codec) ∅ (inr short_data)).2 = Raise BoundsError.
Proof. split; reflexivity. Qed.

(** ** C8: the record and what the builder reads of it *)

Lemma Ok_inj {A : Type} (a b : A) : Ok a = Ok b → a = b.
Proof. congruence. Qed.

Lemma foldl_EAdd_inj (l1 l2 : list expr) (a1 a2 : expr) :
  length l1 = length l2 → foldl EAdd a1 l1 = foldl EAdd a2 l2 → a1 = a2 ∧ l1 = l2.
Proof.
  revert l2 a1 a2.
  induction l1 as [|t1 l1 IH]; intros [|t2 l2] a1 a2 Hlen Heq; try discriminate Hlen.
  - done.
  - cbn [foldl] in Heq. injection Hlen as Hlen.
    destruct (IH l2 _ _ Hlen Heq) as [Ha ->]. by injection Ha as -> ->.
Qed.

Lemma foldl_py_add_EAdd (l : list expr) (a : expr) :
  is_num a = false → foldl Pyomo.py_add a l = foldl EAdd a l.
Proof.
  revert a. induction l as [|t l IH]; intros a Ha; [done|].
  cbn [foldl]. assert (Pyomo.py_add a t = EAdd a t) as -> by (by destruct a).
  by apply IH.
Qed.

(** Python's [sum] keeps every term apart: two lists of as many symbolic
    terms with the same sum are the same list. *)
Lemma py_sum_inj (l1 l2 : list expr) :
  length l1 = length l2 →
  Forall (λ t, is_num t = false) l1 → Forall (λ t, is_num t = false) l2 →
  Pyomo.py_sum l1 = Pyomo.py_sum l2 → l1 = l2.
Proof.
  intros Hlen H1 H2.
  destruct H1 as [|t1 l1 Ht1 _], H2 as [|t2 l2 Ht2 _]; try discriminate Hlen; [done|].
  unfold Pyomo.py_sum. cbn [foldl].
  change (Pyomo.py_add (ENum 0) t1) with t1. change (Pyomo.py_add (ENum 0) t2) with t2.
  rewrite !foldl_py_add_EAdd by done. intros Heq. injection Hlen as Hlen.
  by destruct (foldl_EAdd_inj l1 l2 t1 t2 Hlen Heq) as [-> ->].
Qed.

Lemma fmap_seq_pointwise {A : Type} (f g : nat → A) (s n : nat) :
  f <$> seq s n = g <$> seq s n → ∀ i, (i < n)%nat → f (s + i)%nat = g (s + i)%nat.
Proof.
  intros Heq i Hi. apply (f_equal (λ l, l !! i)) in Heq.
  rewrite !list_lookup_fmap, lookup_seq_lt in Heq by done. by injection Heq.
Qed.

(** The Pyomo model of a record with lists of equal length shows the five
    fields of the record. *)
Lemma pyomo_model_inj (d1 d2 : UnitCommitmentData) :
  length (pmax d1) = length (pmin d1) → length (cfix d1) = length (pmin d1) →
  length (cvar d1) = length (pmin d1) →
  length (pmax d2) = length (pmin d2) → length (cfix d2) = length (pmin d2) →
  length (cvar d2) = length (pmin d2) →
  Closed.pyomo_model d1 = Closed.pyomo_model d2 →
  demand d1 = demand d2 ∧ pmin d1 = pmin d2 ∧ pmax d1 = pmax d2
  ∧ cfix d1 = cfix d2 ∧ cvar d1 = cvar d2.
Proof.
  intros Hb1 Hc1 He1 Hb2 Hc2 He2 Heq.
  pose proof (f_equal (λ m, length (Pyomo.var_index (Pyomo.x (Pyomo.inner m)))) Heq) as Hn.
  pose proof (f_equal (λ m, Pyomo.obj_expr (Pyomo.obj (Pyomo.inner m))) Heq) as Hobj.
  pose proof (f_equal (λ m, Pyomo.eq_max_power (Pyomo.inner m)) Heq) as Hmax.
  pose proof (f_equal (λ m, Pyomo.eq_min_power (Pyomo.inner m)) Heq) as Hmin.
  pose proof (f_equal (λ m, Pyomo.eq_demand (Pyomo.inner m)) Heq) as Hdem.
  cbn in Hn, Hobj, Hmax, Hmin, Hdem. rewrite !length_seq in Hn.
  rewrite <- Hn in Hobj, Hmax, Hmin.
  apply py_sum_inj in Hobj;
    [|by rewrite !length_fmap|by apply Forall_fmap, Forall_true..].
  pose proof (fmap_seq_pointwise _ _ _ _ Hobj) as Hterm.
  pose proof (fmap_seq_pointwise _ _ _ _ Hmax) as Hhi.
  pose proof (fmap_seq_pointwise _ _ _ _ Hmin) as Hlo.
  split_and!.
  - by injection Hdem.
  - apply (nth_ext _ _ 0 0); [done|]. intros i Hi.
    specialize (Hlo i Hi). by injection Hlo.
  - apply (nth_ext _ _ 0 0); [lia|]. intros i Hi.
    specialize (Hhi i ltac:(lia)). by injection Hhi.
  - apply (nth_ext _ _ 0 0); [lia|]. intros i Hi.
    specialize (Hterm i ltac:(lia)). by injection Hterm.
  - apply (nth_ext _ _ 0 0); [lia|]. intros i Hi.
    specialize (Hterm i ltac:(lia)). by injection Hterm.
Qed.

(** So does the JuMP model. *)
Lemma jump_model_inj (d1 d2 : UnitCommitmentData) :
  length (pmax d1) = length (pmin d1) → length (cfix d1) = length (pmin d1) →
  length (cvar d1) = length (pmin d1) →
  length (pmax d2) = length (pmin d2) → length (cfix d2) = length (pmin d2) →
  length (cvar d2) = length (pmin d2) →
  Closed.jump_model d1 = Closed.jump_model d2 →
  demand d1 = demand d2 ∧ pmin d1 = pmin d2 ∧ pmax d1 = pmax d2
  ∧ cfix d1 = cfix d2 ∧ cvar d1 = cvar d2.
Proof.
  intros Hb1 Hc1 He1 Hb2 Hc2 He2 Heq.
  pose proof (f_equal (λ m, length (JuMP.keys (JuMP.x (JuMP.inner m)))) Heq) as Hn.
  pose proof (f_equal (λ m, JuMP.objective_function (JuMP.inner m)) Heq) as Hobj.
  pose proof (f_equal (λ m, JuMP.eq_max_power (JuMP.inner m)) Heq) as Hmax.
  pose proof (f_equal (λ m, JuMP.eq_min_power (JuMP.inner m)) Heq) as Hmin.
  pose proof (f_equal (λ m, JuMP.eq_demand (JuMP.inner m)) Heq) as Hdem.
  cbn in Hn, Hobj, Hmax, Hmin, Hdem. rewrite !length_seq in Hn.
  rewrite <- Hn in Hobj, Hmax, Hmin.
  unfold JuMP.affine_sum in Hobj.
  apply foldl_EAdd_inj in Hobj as [_ Hobj]; [|by rewrite !length_fmap].
  pose proof (fmap_seq_pointwise _ _ _ _ Hobj) as Hterm.
  pose proof (fmap_seq_pointwise _ _ _ _ Hmax) as Hhi.
  pose proof (fmap_seq_pointwise _ _ _ _ Hmin) as Hlo.
  split_and!.
  - by injection Hdem.
  - apply (nth_ext _ _ 0 0); [done|]. intros i Hi.
    specialize (Hlo i Hi). by injection Hlo.
  - apply (nth_ext _ _ 0 0); [lia|]. intros i Hi.
    specialize (Hhi i ltac:(lia)). by injection Hhi.
  - apply (nth_ext _ _ 0 0); [lia|]. intros i Hi.
    specialize (Hterm i ltac:(lia)). by injection Hterm.
  - apply (nth_ext _ _ 0 0); [lia|]. intros i Hi.
    specialize (Hterm i ltac:(lia)). by injection Hterm.
Qed.

(** C8.  A record is its demand and its four lists [pmin], [pmax], [cfix]
    and [cvar], and nothing else: records that agree on the five fields are
    the same record.  The five fields are the only data that either builder
    reads: two runs on records that agree on them are the same run, accesses
    included, whatever the files that are around.  And the builders do read
    each of the five: when the lists have one entry per generator, two
    records with the same model agree on all five fields. *)
Theorem build_uc_model_reads_five_fields `{Codec} (fs1 fs2 : gmap string blob)
    (d1 d2 : UnitCommitmentData) :
  (demand d1 = demand d2 → pmin d1 = pmin d2 → pmax d1 = pmax d2 →
   cfix d1 = cfix d2 → cvar d1 = cvar d2 →
   d1 = d2
   ∧ Pyomo.build_uc_model fs1 (inr d1) = Pyomo.build_uc_model fs2 (inr d2)
   ∧ JuMP.build_uc_model fs1 (inr d1) = JuMP.build_uc_model fs2 (inr d2))
  ∧ (per_generator d1 → per_generator d2 →
     ((Pyomo.build_uc_model fs1 (inr d1)).2 = (Pyomo.build_uc_model fs2 (inr d2)).2 →
      demand d1 = demand d2 ∧ pmin d1 = pmin d2 ∧ pmax d1 = pmax d2
      ∧ cfix d1 = cfix d2 ∧ cvar d1 = cvar d2)
     ∧ ((JuMP.build_uc_model fs1 (inr d1)).2 = (JuMP.build_uc_model fs2 (inr d2)).2 →
        demand d1 = demand d2 ∧ pmin d1 = pmin d2 ∧ pmax d1 = pmax d2
        ∧ cfix d1 = cfix d2 ∧ cvar d1 = cvar d2)).
Proof.
  split.
  - destruct d1, d2. cbn. intros -> -> -> -> ->. done.
  - intros (Hn1 & Hb1 & Hc1 & He1) (Hn2 & Hb2 & Hc2 & He2). split.
    + rewrite !pyomo_build_closed by lia. cbn [snd].
      rewrite !decide_False by lia. intros Heq. apply Ok_inj in Heq.
      by apply pyomo_model_inj.
    + rewrite !jump_build_closed by lia. intros Heq. apply Ok_inj in Heq.
      by apply jump_model_inj.
Qed.

(** The record of the notebooks, built once with no file around and once
    next to a file; and a record with another [cvar], whose model
    differs. *)
Lemma build_uc_model_reads_five_fields_witness :
  Pyomo.build_uc_model (H:=memory_codec) ∅ (inr example_data)
  = Pyomo.build_uc_model (H:=memory_codec) {[ "uc/train/00000.pkl.gz" := short_data ]}
      (inr {| demand := 100; pmin := [10; 20; 30]; pmax := [50; 60; 70];
              cfix := [700; 600; 500]; cvar := [1.5; 2.0; 2.5] |})
  ∧ (Pyomo.build_uc_model (H:=memory_codec) ∅ (inr example_data)).2
    ≠ (Pyomo.build_uc_model (H:=memory_codec) ∅
         (inr {| demand := 100; pmin := [10; 20; 30]; pmax := [50; 60; 70];
                 cfix := [700; 600; 500]; cvar := [1.5; 2.0; 3.5] |})).2.
Proof.
  split.
  - apply (build_uc_model_reads_five_fields (H:=memory_codec) ∅
             {[ "uc/train/00000.pkl.gz" := short_data ]} example_data
             {| demand := 100; pmin := [10; 20; 30]; pmax := [50; 60; 70];
                cfix := [700; 600; 500]; cvar := [1.5; 2.0; 2.5] |});
      reflexivity.
  - intros Heq.
    apply (build_uc_model_reads_five_fields (H:=memory_codec) ∅ ∅ example_data
             {| demand := 100; pmin := [10; 20; 30]; pmax := [50; 60; 70];
                cfix := [700; 600; 500]; cvar := [1.5; 2.0; 3.5] |}) in Heq;
      [|unfold per_generator; cbn; lia..].
    destruct Heq as (_ & _ & _ & _ & Hcvar). discriminate Hcvar.
Defined.

(** ** C4: the Pyomo model and the JuMP model *)

(** C4, counterexample.  For the record without generators the Pyomo
    builder raises, so the two builders do not construct a pair of models
    for every record with lists of equal length. *)
Lemma builders_differ_without_generators :
  length (pmin empty_data) = length (pmax empty_data)
  ∧ length (pmin empty_data) = length (cfix empty_data)
  ∧ length (pmin empty_data) = length (cvar empty_data)
  ∧ ¬ ∃ mp mj,
        (Pyomo.build_uc_model (H:=memory_codec) ∅ (inr empty_data)).2 = Ok mp
        ∧ (JuMP.build_uc_model (H:=memory_codec) ∅ (inr empty_data)).2 = Ok mj
        ∧ same_program (Pyomo.inner mp) (JuMP.inner mj).
Proof.
  split_and!; try reflexivity.
  intros (mp & mj & Hp & _). vm_compute in Hp. discriminate.
Qed.

(** C4, amended.  For every record whose four lists have the same length
    [n >= 1], the Pyomo builder and the JuMP builder return models of the
    same mixed-integer program: the same variables (Pyomo's [x[i]], [y[i]]
    are JuMP's [x[i+1]], [y[i+1]]) with the same domains, the same sense, the
    same objective function and the same constraints. *)
Theorem builders_same_program `{Codec} (fs : gmap string blob)
    (d : UnitCommitmentData) (n : nat) :
  (1 ≤ n)%nat →
  length (pmin d) = n → length (pmax d) = n → length (cfix d) = n → length (cvar d) = n →
  ∃ mp mj,
    (Pyomo.build_uc_model fs (inr d)).2 = Ok mp
    ∧ (JuMP.build_uc_model fs (inr d)).2 = Ok mj
    ∧ same_program (Pyomo.inner mp) (JuMP.inner mj).
Proof.
  intros Hn H1 H2 H3 H4.
  exists (Closed.pyomo_model d), (Closed.jump_model d). split_and!.
  - by apply (pyomo_build_Ok fs d n).
  - apply jump_build_closed; lia.
  - apply closed_same_program.
Qed.

Lemma builders_same_program_witness :
  (1 ≤ 3)%nat
  ∧ ∃ mp mj,
      (Pyomo.build_uc_model (H:=memory_codec) ∅ (inr example_data)).2 = Ok mp
      ∧ (JuMP.build_uc_model (H:=memory_codec) ∅ (inr example_data)).2 = Ok mj
      ∧ same_program (Pyomo.inner mp) (JuMP.inner mj).
Proof.
  split; [lia|].
  apply (builders_same_program (H:=memory_codec) ∅ example_data 3);
    [lia|reflexivity|reflexivity|reflexivity|reflexivity].
Defined.

(** ** C3: a record or the path of its file *)

(** The file names of the notebook: [00000], [00001], ..., [00449]. *)
Example zfill5_names :
  zfill5 0 = "00000" ∧ zfill5 1 = "00001" ∧ zfill5 449 = "00449"
  ∧ zfill5 123456 = "123456".
Proof. split_and!; reflexivity. Qed.

Lemma of_uint_pad_zeros (k : nat) (d : Decimal.uint) :
  Nat.of_uint (pad_zeros k d) = Nat.of_uint d.
Proof. induction k as [|k IH]; [reflexivity|]. cbn [pad_zeros]. exact IH. Qed.

(** Different numbers have different five-digit names. *)
Lemma zfill5_inj (i j : nat) : zfill5 i = zfill5 j → i = j.
Proof.
  unfold zfill5. intros Heq.
  apply (f_equal NilEmpty.uint_of_string) in Heq.
  rewrite !NilEmpty.usu in Heq. injection Heq as Heq.
  apply (f_equal Nat.of_uint) in Heq.
  by rewrite !of_uint_pad_zeros, !Unsigned.of_to in Heq.
Qed.

Lemma string_length_app (a b : string) :
  String.length (a +:+ b) = (String.length a + String.length b)%nat.
Proof. induction a as [|c a IH]; [reflexivity|]. simpl. by rewrite IH. Qed.

Lemma string_app_inj_r (t a b : string) : a +:+ t = b +:+ t → a = b.
Proof.
  revert b. induction a as [|c a IH]; intros [|c' b] Heq.
  - reflexivity.
  - apply (f_equal String.length) in Heq.
    rewrite !string_length_app in Heq. cbn in Heq. lia.
  - apply (f_equal String.length) in Heq.
    rewrite !string_length_app in Heq. cbn in Heq. lia.
  - cbn in Heq. injection Heq as -> Heq. f_equal. by apply IH.
Qed.

(** Different records of one call go to different files. *)
Lemma pkl_gz_path_inj (dirname : string) (i j : nat) :
  pkl_gz_path dirname i = pkl_gz_path dirname j → i = j.
Proof.
  unfold pkl_gz_path. intros Heq.
  apply String.app_inj, String.app_inj in Heq.
  by apply string_app_inj_r, zfill5_inj in Heq.
Qed.

(** Writing the records from number [k] on leaves the earlier files alone. *)
Lemma write_from_earlier `{Codec} (objs : list UnitCommitmentData) (dirname : string)
    (k j : nat) (fs : gmap string blob) :
  (j < k)%nat →
  (write_from k objs dirname fs).2 !! pkl_gz_path dirname j = fs !! pkl_gz_path dirname j.
Proof.
  revert k fs. induction objs as [|obj objs IH]; intros k fs Hj; [reflexivity|].
  cbn [write_from snd]. rewrite IH by lia.
  apply lookup_insert_ne. intros Heq. apply pkl_gz_path_inj in Heq. lia.
Qed.

(** Record number [i] of the call is returned as path number [i], and its
    file holds the record. *)
Lemma write_from_lookup `{Codec} (objs : list UnitCommitmentData) (dirname : string)
    (k i : nat) (d : UnitCommitmentData) (fs : gmap string blob) :
  objs !! i = Some d →
  (write_from k objs dirname fs).1 !! i = Some (pkl_gz_path dirname (k + i))
  ∧ (write_from k objs dirname fs).2 !! pkl_gz_path dirname (k + i) = Some (dumps d).
Proof.
  revert k i fs. induction objs as [|obj objs IH]; intros k i fs Hi; [done|].
  cbn [write_from fst snd]. destruct i as [|i].
  - injection Hi as ->. rewrite Nat.add_0_r. split; [reflexivity|].
    rewrite write_from_earlier by lia. apply lookup_insert_eq.
  - replace (k + S i)%nat with (S k + i)%nat by lia. by apply IH.
Qed.

Lemma read_written `{Codec} (fs : gmap string blob) (d : UnitCommitmentData)
    (filename : string) :
  fs !! filename = Some (dumps d) → loads (dumps d) = Some d →
  read_pkl_gz fs filename = mret d.
Proof. intros Hfile Hrt. unfold read_pkl_gz. by rewrite Hfile, Hrt. Qed.

(** C3.  [build_uc_model] takes a record or the path of a problem-data
    file.  [write_pkl_gz] returns one path per record that it writes, and
    building from the path of a record is building from the record,
    provided that the codec reads back what it wrote. *)
Theorem build_uc_model_file_roundtrip `{Codec} (fs : gmap string blob)
    (objs : list UnitCommitmentData) (dirname : string) (i : nat) (d : UnitCommitmentData) :
  objs !! i = Some d →
  loads (dumps d) = Some d →
  ∃ path,
    (write_pkl_gz objs dirname fs).1 !! i = Some path
    ∧ Pyomo.build_uc_model (write_pkl_gz objs dirname fs).2 (inl path)
      = Pyomo.build_uc_model fs (inr d).
Proof.
  intros Hi Hrt. unfold write_pkl_gz.
  destruct (write_from_lookup objs dirname 0 i d fs Hi) as [Hpath Hfile].
  exists (pkl_gz_path dirname (0 + i)). split; [exact Hpath|].
  unfold Pyomo.build_uc_model. by rewrite (read_written _ d).
Qed.

(** Writing the three-generator instance alone, as in a call with the list
    of this one record. *)
Lemma build_uc_model_file_roundtrip_witness :
  loads (Codec:=memory_codec) (dumps example_data) = Some example_data
  ∧ (write_pkl_gz (H:=memory_codec) [example_data] "uc/train" ∅).1
    = ["uc/train/00000.pkl.gz"]
  ∧ Pyomo.build_uc_model (H:=memory_codec)
      (write_pkl_gz (H:=memory_codec) [example_data] "uc/train" ∅).2
      (inl "uc/train/00000.pkl.gz")
    = Pyomo.build_uc_model (H:=memory_codec) ∅ (inr example_data).
Proof.
  split; [reflexivity|]. split; [reflexivity|].
  destruct (build_uc_model_file_roundtrip (H:=memory_codec) ∅ [example_data]
              "uc/train" 0 example_data)
    as (path & Hpath & Hbuild); [reflexivity|reflexivity|].
  injection Hpath as <-. exact Hbuild.
Defined.

(** ** The extractor *)

Lemma result_bind_Ok {A B : Type} (f : A → result B) (a : A) : Ok a ≫= f = f a.
Proof. reflexivity. Qed.






Lemma mapM_result_pure {A B : Type} (f : A → result B) (g : A → B) (l : list A) :
  Forall (λ a, f a = Ok (g a)) l → mapM f l = Ok (g <$> l).
Proof.
  induction 1 as [|a l Ha _ IH]; [reflexivity|].
  cbn [mapM]. rewrite Ha, result_bind_Ok, IH. reflexivity.
Qed.

Lemma h5_vector_present (h5 : H5File) (f : string) :
  is_Some (datasets h5 !! f) → h5_vector h5 f = Ok (Closed.vector_of h5 f).
Proof.
  unfold h5_vector, Closed.vector_of. intros [v Hv]. rewrite Hv. by destruct v.
Qed.

(** The instance features are the configured fields, one after the other. *)
Lemma instance_features_concat (ext : H5FieldsExtractor) (h5 : H5File)
    (fields : list string) :
  instance_fields ext = Some fields →
  Forall (λ f, is_Some (datasets h5 !! f)) fields →
  get_instance_features ext h5 = Ok (concat (Closed.vector_of h5 <$> fields)).
Proof.
  intros Hext Hall. unfold get_instance_features. rewrite Hext.
  rewrite (mapM_result_pure _ (Closed.vector_of h5)); [reflexivity|].
  eapply Forall_impl; [exact Hall|]. intros f. apply h5_vector_present.
Qed.

Lemma scalar_field_present (h5 : H5File) (f : string) :
  scalar_field h5 f = true → is_Some (datasets h5 !! f).
Proof. unfold scalar_field. destruct (datasets h5 !! f); [eauto|done]. Qed.

Lemma per_variable_field_present (h5 : H5File) (f : string) :
  per_variable_field h5 f = true → is_Some (datasets h5 !! f).
Proof. unfold per_variable_field. destruct (datasets h5 !! f); [eauto|done]. Qed.

Lemma scalar_fields_length (h5 : H5File) (fields : list string) :
  Forall (λ f, scalar_field h5 f = true) fields →
  length (concat (Closed.vector_of h5 <$> fields)) = length fields.
Proof.
  induction 1 as [|f fields Hf _ IH]; [reflexivity|].
  cbn [fmap list_fmap concat]. rewrite length_app. cbn [length]. rewrite IH.
  unfold scalar_field in Hf. unfold Closed.vector_of.
  by destruct (datasets h5 !! f) as [[v|a]|].
Qed.

Lemma per_variable_field_length (h5 : H5File) (f : string) :
  per_variable_field h5 f = true → length (Closed.vector_of h5 f) = n_vars h5.
Proof.
  unfold per_variable_field, Closed.vector_of.
  destruct (datasets h5 !! f) as [[v|a]|]; try done.
  apply bool_decide_eq_true.
Qed.

(** Scalar fields around one per-variable field: as many features as there
    are scalar fields, plus one per variable. *)
Lemma mixed_fields_length (h5 : H5File) (before after : list string) (f0 : string) :
  Forall (λ f, scalar_field h5 f = true) (before ++ after) →
  per_variable_field h5 f0 = true →
  length (concat (Closed.vector_of h5 <$> before ++ f0 :: after))
  = (length (before ++ after) + n_vars h5)%nat.
Proof.
  intros Hs Hv. apply Forall_app in Hs as [Hb Ha].
  rewrite fmap_app, concat_app, fmap_cons, concat_cons, !length_app.
  rewrite !scalar_fields_length, per_variable_field_length by done. lia.
Qed.

Lemma mixed_fields_present (h5 : H5File) (before after : list string) (f0 : string) :
  Forall (λ f, scalar_field h5 f = true) (before ++ after) →
  per_variable_field h5 f0 = true →
  Forall (λ f, is_Some (datasets h5 !! f)) (before ++ f0 :: after).
Proof.
  intros Hs Hv. apply Forall_app in Hs as [Hb Ha].
  apply Forall_app. split; [|constructor].
  - eapply Forall_impl; [exact Hb|]. intros f. apply scalar_field_present.
  - by apply per_variable_field_present.
  - eapply Forall_impl; [exact Ha|]. intros f. apply scalar_field_present.
Qed.

Lemma vstack_ragged (va vb : list Q) :
  length va ≠ length vb → vstack [va; vb] = Raise ValueError.
Proof.
  intros Hne. unfold vstack. cbn [forallb].
  destruct (Nat.eqb_spec (length vb) (length va)); [congruence|reflexivity].
Qed.

(** ** C6: a per-variable field among the instance fields *)

(** C6, counterexample.  An extractor whose instance fields are a
    per-variable field and a per-constraint field, and no scalar field,
    gives five features both for a file with three variables and two
    constraints and for a file with two variables and three constraints:
    the vectors do not have as many entries as the instance has variables,
    and although the numbers of variables differ, the vectors have the same
    length and are concatenated.  With two per-variable fields, the file of
    the notebook, with its ten variables, gives twenty features. *)
Lemma instance_features_of_vector_fields :
  instance_fields mixed_ext = Some ["static_var_obj_coeffs"; "static_constr_rhs"]
  ∧ per_variable_field small_h5 "static_var_obj_coeffs" = true
  ∧ per_variable_field tall_h5 "static_var_obj_coeffs" = true
  ∧ Forall (λ f, scalar_field small_h5 f = false ∧ scalar_field tall_h5 f = false)
      ["static_var_obj_coeffs"; "static_constr_rhs"]
  ∧ n_vars small_h5 = 3%nat ∧ n_vars tall_h5 = 2%nat
  ∧ get_instance_features mixed_ext small_h5 = Ok [-3; -4; -5; 7; 8]
  ∧ get_instance_features mixed_ext tall_h5 = Ok [-4; -5; 6; 7; 8]
  ∧ vstack [[-3; -4; -5; 7; 8]; [-4; -5; 6; 7; 8]]
    = Ok [[-3; -4; -5; 7; 8]; [-4; -5; 6; 7; 8]]
  ∧ instance_fields coeffs_values_ext = Some ["static_var_obj_coeffs"; "lp_var_values"]
  ∧ per_variable_field knapsack_h5 "static_var_obj_coeffs" = true
  ∧ per_variable_field knapsack_h5 "lp_var_values" = true
  ∧ n_vars knapsack_h5 = 10%nat
  ∧ length <$> get_instance_features coeffs_values_ext knapsack_h5 = Ok 20%nat.
Proof.
  split_and!; try (vm_compute; reflexivity).
  repeat constructor.
Qed.

(** C6.  When the instance fields are scalar fields and one per-variable
    field, the instance-feature vector of a file has as many entries as
    there are scalar fields plus the number of variables of the instance;
    so the vectors of two instances with different numbers of variables
    have different lengths, and concatenating them fails. *)
Theorem instance_features_length (ext : H5FieldsExtractor) (h5a h5b : H5File)
    (before after : list string) (f0 : string) :
  instance_fields ext = Some (before ++ f0 :: after) →
  Forall (λ f, scalar_field h5a f = true) (before ++ after) →
  per_variable_field h5a f0 = true →
  Forall (λ f, scalar_field h5b f = true) (before ++ after) →
  per_variable_field h5b f0 = true →
  ∃ va vb,
    get_instance_features ext h5a = Ok va
    ∧ get_instance_features ext h5b = Ok vb
    ∧ length va = (length (before ++ after) + n_vars h5a)%nat
    ∧ length vb = (length (before ++ after) + n_vars h5b)%nat
    ∧ (n_vars h5a ≠ n_vars h5b →
       length va ≠ length vb ∧ vstack [va; vb] = Raise ValueError).
Proof.
  intros Hext Hsa Hva Hsb Hvb.
  pose proof (mixed_fields_length h5a before after f0 Hsa Hva) as Hla.
  pose proof (mixed_fields_length h5b before after f0 Hsb Hvb) as Hlb.
  eexists _, _. split_and!.
  - apply instance_features_concat; [exact Hext|]. by apply mixed_fields_present.
  - apply instance_features_concat; [exact Hext|]. by apply mixed_fields_present.
  - exact Hla.
  - exact Hlb.
  - intros Hne.
    assert (Hlen : length (concat (Closed.vector_of h5a <$> before ++ f0 :: after))
                   ≠ length (concat (Closed.vector_of h5b <$> before ++ f0 :: after)))
      by lia.
    split; [exact Hlen|]. by apply vstack_ragged.
Qed.

(** The extractor of the notebook on the file of the notebook (ten
    variables, eleven features) and on a file with three variables. *)
Lemma instance_features_length_witness :
  ∃ va vb,
    get_instance_features Features.ext knapsack_h5 = Ok va
    ∧ get_instance_features Features.ext small_h5 = Ok vb
    ∧ length va = 11%nat ∧ length vb = 4%nat
    ∧ vstack [va; vb] = Raise ValueError.
Proof.
  destruct (instance_features_length Features.ext knapsack_h5 small_h5
              ["lp_obj_value"] [] "static_var_obj_coeffs")
    as (va & vb & Ha & Hb & Hla & Hlb & Hne).
  - reflexivity.
  - repeat constructor.
  - reflexivity.
  - repeat constructor.
  - reflexivity.
  - exists va, vb. split_and!; try done. apply Hne. cbn. lia.
Defined.



(** ** C7: the fields that the extractors read *)

(** On the file of the notebook, the extractor of the notebook returns the
    vector and the shapes that the notebook prints. *)
Example notebook_features :
  get_instance_features Features.ext knapsack_h5
  = Ok [-1531.24308771; -350; -692; -454; -709; -605; -543; -321; -674; -571; -341]
  ∧ (λ rows, (length rows, length <$> rows)) <$> get_var_features Features.ext knapsack_h5
    = Ok (10%nat, replicate 10 4%nat)
  ∧ (λ rows, (length rows, length <$> rows)) <$> get_constr_features Features.ext knapsack_h5
    = Ok (5%nat, replicate 5 3%nat)
  ∧ (λ rows, rows !! 1%nat) <$> get_var_features Features.ext knapsack_h5
    = Ok (Some [-1531.24308771; -692; 0.251703322; 0]).
Proof. split_and!; vm_compute; reflexivity. Qed.





(** ** C5: the warm-start component *)

Lemma binary_cases (v : Q) : binary v = true → v == 0 ∨ v == 1.
Proof.
  unfold binary. intros Hv.
  apply orb_true_iff in Hv as [Hv|Hv]; apply Qeq_bool_iff in Hv; auto.
Qed.

Lemma nth_binary (s : list Q) (j : nat) :
  forallb binary s = true → binary (nth j s 0) = true.
Proof.
  intros Hs. destruct (nth_in_or_default j s 0) as [Hin| ->]; [|reflexivity].
  rewrite forallb_forall in Hs. by apply Hs.
Qed.

Lemma inject_nat_S (n : nat) : inject_Z (Z.of_nat (S n)) == inject_Z (Z.of_nat n) + 1.
Proof. rewrite Nat2Z.inj_succ. unfold Z.succ. rewrite inject_Z_plus. reflexivity. Qed.

(** A sum of zeros and ones lies between 0 and the number of terms. *)
Lemma Qsum_binary (l : list Q) :
  Forall (λ v, binary v = true) l →
  0 <= Qsum l ∧ Qsum l <= inject_Z (Z.of_nat (length l)).
Proof.
  induction 1 as [|v l Hv _ [IH0 IH1]].
  - rewrite Qsum_nil. change (inject_Z (Z.of_nat (length (@nil Q)))) with 0.
    split; lra.
  - rewrite Qsum_cons. cbn [length].
    pose proof (inject_nat_S (length l)) as HS.
    destruct (binary_cases v Hv); split; lra.
Qed.

Lemma Qsum_all_ones (l : list Q) :
  Forall (λ v, binary v = true) l →
  inject_Z (Z.of_nat (length l)) <= Qsum l → Forall (λ v, v == 1) l.
Proof.
  induction 1 as [|v l Hv Hl IH]; intros Hsum; [constructor|].
  rewrite Qsum_cons in Hsum. cbn [length] in Hsum.
  pose proof (inject_nat_S (length l)) as HS.
  destruct (Qsum_binary l Hl) as [_ Hup].
  destruct (binary_cases v Hv) as [Hv0|Hv1]; [lra|].
  constructor; [done|]. apply IH. lra.
Qed.

Lemma Qsum_all_zeros (l : list Q) :
  Forall (λ v, binary v = true) l → Qsum l <= 0 → Forall (λ v, v == 0) l.
Proof.
  induction 1 as [|v l Hv Hl IH]; intros Hsum; [constructor|].
  rewrite Qsum_cons in Hsum.
  destruct (Qsum_binary l Hl) as [Hlow _].
  destruct (binary_cases v Hv) as [Hv0|Hv1]; [|lra].
  constructor; [done|]. apply IH. lra.
Qed.

Lemma Qsum_ones (l : list Q) :
  Forall (λ v, v == 1) l → Qsum l == inject_Z (Z.of_nat (length l)).
Proof.
  induction 1 as [|v l Hv _ IH]; [reflexivity|].
  rewrite Qsum_cons. cbn [length].
  pose proof (inject_nat_S (length l)) as HS. lra.
Qed.

Lemma Qsum_zeros (l : list Q) : Forall (λ v, v == 0) l → Qsum l == 0.
Proof.
  induction 1 as [|v l Hv _ IH]; [reflexivity|].
  rewrite Qsum_cons. lra.
Qed.

Lemma mean_bounds (mean N S : Q) :
  0 < N → mean * N == S → (1.0 <= mean ↔ N <= S) ∧ (mean <= 0.0 ↔ S <= 0).
Proof.
  intros HN Hm. split; split; intros Hle.
  - assert (0 <= (mean - 1) * N) by (apply Qmult_le_0_compat; lra). lra.
  - destruct (Qlt_le_dec mean 1) as [Hlt|]; [|lra].
    assert (0 < (1 - mean) * N) by (apply Qmult_lt_0_compat; lra). lra.
  - assert (0 <= (0 - mean) * N) by (apply Qmult_le_0_compat; lra). lra.
  - destruct (Qlt_le_dec 0 mean) as [Hlt|]; [|lra].
    assert (0 < mean * N) by (apply Qmult_lt_0_compat; lra). lra.
Qed.

(** The mean of zeros and ones is at least 1 exactly when all are ones, and
    at most 0 exactly when all are zeros. *)
Lemma mean_thresholds (col : list Q) :
  col ≠ [] → Forall (λ v, binary v = true) col →
  (Qle_bool 1.0 (Qsum col / inject_Z (Z.of_nat (length col))) = true
   ↔ Forall (λ v, v == 1) col)
  ∧ (Qle_bool (Qsum col / inject_Z (Z.of_nat (length col))) 0.0 = true
     ↔ Forall (λ v, v == 0) col).
Proof.
  intros Hne Hbin.
  assert (HN : 0 < inject_Z (Z.of_nat (length col))).
  { destruct col as [|v col]; [done|]. cbn [length].
    pose proof (inject_nat_S (length col)) as HS.
    apply Forall_cons in Hbin as [_ Hbin].
    destruct (Qsum_binary col Hbin). lra. }
  assert (Hm : Qsum col / inject_Z (Z.of_nat (length col))
               * inject_Z (Z.of_nat (length col)) == Qsum col).
  { rewrite Qmult_comm. apply Qmult_div_r. lra. }
  destruct (mean_bounds _ _ _ HN Hm) as [H1 H0].
  destruct (Qsum_binary col Hbin) as [Hlow Hup].
  rewrite !Qle_bool_iff, H1, H0. split; split.
  - by apply Qsum_all_ones.
  - intros Hones. apply Qsum_ones in Hones. lra.
  - by apply Qsum_all_zeros.
  - intros Hzeros. apply Qsum_zeros in Hzeros. lra.
Qed.

(** [MergeTopSolutions(25, [0.0, 1.0])] on 25 solutions: a variable gets a
    value exactly when the solutions agree on it unanimously. *)
Lemma construct_unanimous (solutions : list (list Q)) (n : nat) :
  length solutions = 25%nat →
  Forall (λ s, length s = n ∧ forallb binary s = true) solutions →
  length (construct {| k := 25; thresholds := [0.0; 1.0] |} solutions) = n
  ∧ (∀ j v, construct {| k := 25; thresholds := [0.0; 1.0] |} solutions !! j
            = Some (Some v) →
       (v = 0 ∨ v = 1) ∧ Forall (λ s, nth j s 0 == v) solutions)
  ∧ (∀ j v, (j < n)%nat → v = 0 ∨ v = 1 →
       Forall (λ s, nth j s 0 == v) solutions →
       construct {| k := 25; thresholds := [0.0; 1.0] |} solutions !! j
       = Some (Some v)).
Proof.
  intros Hlen Hall. unfold construct. cbn [k thresholds nth].
  change (Z.to_nat 25) with 25%nat. rewrite take_ge by lia.
  destruct solutions as [|s rest] eqn:E; [discriminate Hlen|]. rewrite <- E in *.
  assert (Hs : length s = n).
  { rewrite E in Hall. by apply Forall_cons in Hall as [[? _] _]. }
  assert (Hne : ∀ j, (λ s', nth j s' 0) <$> solutions ≠ []) by (intros j; by rewrite E).
  assert (Hbin : ∀ j, Forall (λ v, binary v = true) ((λ s', nth j s' 0) <$> solutions)).
  { intros j. apply Forall_fmap. eapply Forall_impl; [exact Hall|].
    intros s' [_ Hs']. by apply nth_binary. }
  assert (Hcol : ∀ j, length ((λ s', nth j s' 0) <$> solutions) = length solutions)
    by (intros j; apply length_fmap).
  rewrite Hs. split_and!.
  - by rewrite length_fmap, length_seq.
  - intros j v Hj.
    assert (Hjn : (j < n)%nat).
    { apply lookup_lt_Some in Hj. by rewrite length_fmap, length_seq in Hj. }
    rewrite list_lookup_fmap, lookup_seq_lt in Hj by done. cbn in Hj.
    destruct (mean_thresholds _ (Hne j) (Hbin j)) as [H1 H0].
    rewrite Hcol in H1, H0.
    destruct (Qle_bool 1.0 _).
    + injection Hj as <-. split; [by right|].
      apply (Forall_fmap (λ s', nth j s' 0) (λ v, v == 1)). by apply H1.
    + destruct (Qle_bool _ 0.0); [|discriminate Hj].
      injection Hj as <-. split; [by left|].
      apply (Forall_fmap (λ s', nth j s' 0) (λ v, v == 0)). by apply H0.
  - intros j v Hjn Hv Hagree.
    rewrite list_lookup_fmap, lookup_seq_lt by done. cbn.
    destruct (mean_thresholds _ (Hne j) (Hbin j)) as [H1 H0].
    rewrite Hcol in H1, H0.
    apply (Forall_fmap (λ s', nth j s' 0) (λ u, u == v)) in Hagree.
    destruct Hv as [-> | ->].
    + apply H0 in Hagree. rewrite Hagree.
      destruct (Qle_bool 1.0 _); [|reflexivity].
      exfalso. assert (Hones : Forall (λ v, v == 1) ((λ s', nth j s' 0) <$> solutions))
        by (by apply H1).
      apply H0 in Hagree. rewrite E in Hones, Hagree.
      rewrite fmap_cons in Hones, Hagree.
      apply Forall_cons in Hones as [Hones _]. apply Forall_cons in Hagree as [Hagree _].
      rewrite Hagree in Hones. discriminate Hones.
    + apply H1 in Hagree. by rewrite Hagree.
Qed.

Lemma vstack_uniform (rows : list (list Q)) (m : nat) :
  rows ≠ [] → Forall (λ r, length r = m) rows → vstack rows = Ok rows.
Proof.
  intros Hne Hall. destruct rows as [|r rows]; [done|]. unfold vstack.
  apply Forall_cons in Hall as [Hr Hall].
  assert (forallb (λ r', Nat.eqb (length r') (length r)) rows = true) as ->; [|done].
  apply forallb_forall. intros r' Hr'. apply Nat.eqb_eq.
  rewrite Forall_forall in Hall. rewrite Hr. apply Hall. by apply list_elem_of_In.
Qed.

Lemma zip_fmap_same {A B C : Type} (f : A → B) (g : A → C) (l : list A) :
  zip (f <$> l) (g <$> l) = (λ a, (f a, g a)) <$> l.
Proof. induction l as [|a l IH]; [reflexivity|]. cbn. by rewrite IH. Qed.

(** The features that the component extracts from a file are the
    constraint right-hand sides. *)
Lemma rhs_features (h5 : H5File) (a : list Q) :
  constr_rhs h5 = Some a → get_instance_features (extractor Pyomo.comp) h5 = Ok a.
Proof.
  unfold constr_rhs, get_instance_features. cbn [extractor Pyomo.comp instance_fields mapM].
  unfold h5_vector. destruct (datasets h5 !! "static_constr_rhs") as [[v|a']|]; try done.
  intros [= ->]. cbn. by rewrite app_nil_r.
Qed.

(** Training memorizes, for every training instance, its constraint
    right-hand sides and its solution. *)
Lemma fit_memorizes (training : list TrainingSample) (m : nat) :
  training ≠ [] →
  Forall (λ t, ∃ a, constr_rhs (sample_h5 t) = Some a ∧ length a = m) training →
  fit Pyomo.comp training
  = Ok ((λ t, (default [] (constr_rhs (sample_h5 t)), sample_solution t)) <$> training).
Proof.
  intros Hne Hall. unfold fit.
  rewrite (mapM_result_pure _ (λ t, default [] (constr_rhs (sample_h5 t)))).
  2:{ eapply Forall_impl; [exact Hall|]. intros t (a & Ha & _).
      cbn beta. rewrite Ha. by apply rhs_features. }
  rewrite result_bind_Ok, (vstack_uniform _ m).
  - rewrite result_bind_Ok, zip_fmap_same. reflexivity.
  - by destruct training.
  - apply Forall_fmap. eapply Forall_impl; [exact Hall|].
    intros t (a & Ha & Hm). unfold compose. cbn beta. by rewrite Ha.
Qed.

#[local] Instance nearer_transitive (x : list Q) : Transitive (nearer x).
Proof.
  intros a b c. unfold nearer. rewrite !Qle_bool_iff. apply Qle_trans.
Qed.

#[local] Instance nearer_total (x : list Q) : Total (nearer x).
Proof.
  intros a b. unfold nearer. rewrite !Qle_bool_iff.
  destruct (Qlt_le_dec (distance x b.1) (distance x a.1)) as [Hlt|Hle];
    [right; by apply Qlt_le_weak|by left].
Qed.

(** The [n] nearest of at least [n] memorized instances: [n] of them, each
    at least as near as every other one. *)
Lemma kneighbors_nearest (memory : list (list Q * list Q)) (x : list Q) (n : nat) :
  (n ≤ length memory)%nat →
  memory ≡ₚ take n (merge_sort (nearer x) memory) ++ drop n (merge_sort (nearer x) memory)
  ∧ length (take n (merge_sort (nearer x) memory)) = n
  ∧ ∀ a b, a ∈ take n (merge_sort (nearer x) memory) →
           b ∈ drop n (merge_sort (nearer x) memory) →
           distance x a.1 <= distance x b.1.
Proof.
  intros Hn.
  pose proof (merge_sort_Permutation (nearer x) memory) as Hperm.
  split_and!.
  - by rewrite take_drop.
  - rewrite length_take. apply Permutation_length in Hperm. lia.
  - intros a b Ha Hb. apply Qle_bool_iff.
    pose proof (StronglySorted_merge_sort (nearer x) memory) as Hsorted.
    rewrite <- (take_drop n (merge_sort (nearer x) memory)) in Hsorted.
    exact (StronglySorted_app_1_elem_of _ _ _ _ _ Hsorted Ha Hb).
Qed.

(** C5.  Both notebooks configure the same [MemorizingPrimalComponent]: a
    k-nearest-neighbours classifier with 25 neighbours, an
    [H5FieldsExtractor] whose only field is the instance field
    [static_constr_rhs], [MergeTopSolutions(25, [0.0, 1.0])], and the action
    [SetWarmStart].  Trained on at least 25 instances of a family with [m]
    constraints and [n] binary variables, the component memorizes the
    constraint right-hand sides and the solution of every training
    instance; for a test instance of the family it takes the 25 memorized
    instances whose right-hand sides are nearest to those of the test
    instance, merges their solutions into a partial solution that gives a
    binary variable a value exactly when the 25 solutions agree on it, and
    supplies this partial solution to the solver as the warm start, leaving
    the program as it is. *)
Theorem warm_start_component {P : Type} (training : list TrainingSample) (test : H5File)
    (model : SolverModel P) (m n : nat) (x : list Q) :
  (25 ≤ length training)%nat →
  forallb (sample_of m n) training = true →
  constr_rhs test = Some x → length x = m →
  Pyomo.comp = JuMP.comp
  ∧ n_neighbors (clf Pyomo.comp) = 25%Z
  ∧ extractor Pyomo.comp
    = {| instance_fields := Some ["static_constr_rhs"];
         var_fields := None; constr_fields := None |}
  ∧ constructor Pyomo.comp = {| k := 25; thresholds := [0.0; 1.0] |}
  ∧ action Pyomo.comp = SetWarmStart
  ∧ ∃ memory nearest others start,
      fit Pyomo.comp training = Ok memory
      ∧ Forall2 (λ t a, constr_rhs (sample_h5 t) = Some a.1 ∧ sample_solution t = a.2)
          training memory
      ∧ memory ≡ₚ nearest ++ others
      ∧ length nearest = 25%nat
      ∧ (∀ a b, a ∈ nearest → b ∈ others → distance x a.1 <= distance x b.1)
      ∧ before_mip Pyomo.comp memory test model
        = Ok {| program := program model; warm_start := Some start |}
      ∧ length start = n
      ∧ (∀ j v, start !! j = Some (Some v) →
           (v = 0 ∨ v = 1) ∧ ∀ a, a ∈ nearest → nth j a.2 0 == v)
      ∧ (∀ j v, (j < n)%nat → v = 0 ∨ v = 1 →
           (∀ a, a ∈ nearest → nth j a.2 0 == v) → start !! j = Some (Some v)).
Proof.
  intros Hlen Htr Hx Hxm.
  split_and!; try reflexivity.
  assert (Hall : Forall (λ t, ∃ a, constr_rhs (sample_h5 t) = Some a ∧ length a = m
                              ∧ length (sample_solution t) = n
                              ∧ forallb binary (sample_solution t) = true) training).
  { apply Forall_forall. intros t Ht. apply list_elem_of_In in Ht.
    rewrite forallb_forall in Htr. specialize (Htr t Ht). unfold sample_of in Htr.
    apply andb_true_iff in Htr as [Htr Hb]. apply andb_true_iff in Htr as [Hr Hn].
    apply bool_decide_eq_true in Hr, Hn.
    destruct (constr_rhs (sample_h5 t)) as [a|]; [|discriminate Hr].
    exists a. cbn in Hr. injection Hr as Hr. done. }
  set (h := λ t, (default [] (constr_rhs (sample_h5 t)), sample_solution t)).
  set (memory := h <$> training).
  assert (Hmem : Forall (λ a, length a.1 = m ∧ length a.2 = n
                              ∧ forallb binary a.2 = true) memory).
  { apply Forall_fmap. eapply Forall_impl; [exact Hall|].
    intros t (a & Ha & Hm & Hn & Hb). unfold compose, h. cbn. by rewrite Ha. }
  destruct (kneighbors_nearest memory x 25) as (Hperm & Hlen25 & Hnear).
  { unfold memory. rewrite length_fmap. exact Hlen. }
  set (nearest := take 25 (merge_sort (nearer x) memory)) in *.
  set (others := drop 25 (merge_sort (nearer x) memory)) in *.
  assert (Hsols : Forall (λ s, length s = n ∧ forallb binary s = true) (nearest.*2)).
  { apply Forall_fmap, Forall_forall. intros a Ha.
    rewrite Forall_forall in Hmem. destruct (Hmem a) as (_ & ? & ?); [|done].
    rewrite Hperm. apply elem_of_app. by left. }
  destruct (construct_unanimous (nearest.*2) n) as (Hstart & Honly & Hevery);
    [by rewrite length_fmap|exact Hsols|].
  exists memory, nearest, others,
    (construct {| k := 25; thresholds := [0.0; 1.0] |} (nearest.*2)).
  split_and!.
  - apply (fit_memorizes training m); [by destruct training; [cbn in Hlen; lia|]|].
    eapply Forall_impl; [exact Hall|]. intros t (a & Ha & Hm & _). eauto.
  - apply Forall2_fmap_r, Forall_Forall2_diag.
    eapply Forall_impl; [exact Hall|]. intros t (a & Ha & _).
    unfold compose, h. cbn. by rewrite Ha.
  - exact Hperm.
  - exact Hlen25.
  - exact Hnear.
  - unfold before_mip. rewrite (rhs_features test x Hx), result_bind_Ok.
    assert (forallb (λ a : list Q * list Q, Nat.eqb (length a.1) (length x)) memory
            = true) as ->; [|reflexivity].
    apply forallb_forall. intros a Ha. apply list_elem_of_In in Ha.
    rewrite Forall_forall in Hmem. destruct (Hmem a Ha) as (Hm & _).
    apply Nat.eqb_eq. lia.
  - exact Hstart.
  - intros j v Hj. destruct (Honly j v Hj) as [Hv Hagree]. split; [exact Hv|].
    intros a Ha. rewrite Forall_fmap, Forall_forall in Hagree. by apply Hagree.
  - intros j v Hj Hv Hagree. apply Hevery; [done|done|].
    apply Forall_fmap, Forall_forall. intros a Ha. by apply Hagree.
Qed.

(** Thirty training instances with right-hand sides 0 to 29 and a test
    instance with right-hand side 0: the 25 nearest are the instances 0 to
    24, whose solutions agree on the first variable (1) and on the third
    (0), and not on the second. *)
Lemma warm_start_component_witness :
  ∃ memory,
    fit Pyomo.comp toy_training = Ok memory
    ∧ before_mip Pyomo.comp memory toy_test
        {| program := Closed.pyomo_model example_data; warm_start := None |}
      = Ok {| program := Closed.pyomo_model example_data;
              warm_start := Some [Some 1; None; Some 0] |}.
Proof.
  destruct (warm_start_component toy_training toy_test
              {| program := Closed.pyomo_model example_data; warm_start := None |}
              1 3 [0])
    as (_ & _ & _ & _ & _ & memory & nearest & others & start & Hfit & _).
  - cbn. lia.
  - vm_compute. reflexivity.
  - reflexivity.
  - reflexivity.
  - exists memory. split; [exact Hfit|].
    vm_compute in Hfit. injection Hfit as <-. vm_compute. reflexivity.
Defined.

(** ** Random samples *)

(** A sample of the unit interval lies in [0, 1). *)
Lemma random_sample_unit `{BitGenerator} (g : rng_state) :
  0 <= (random_sample g).1 ∧ (random_sample g).1 < 1.
Proof.
  unfold random_sample. cbn [fst].
  pose proof (Z.mod_pos_bound (rng_next g).1 (2 ^ 53) ltac:(lia)) as Hb.
  unfold Qle, Qlt. cbn [Qnum Qden].
  change (Z.pos (2 ^ 53)) with (2 ^ 53)%Z. lia.
Qed.

Lemma sample_affine_length `{BitGenerator} (lo width : Q) (n : nat) (g : rng_state) :
  length (sample_affine lo width n g).1 = n.
Proof.
  revert g. induction n as [|n IH]; intros g; [reflexivity|].
  cbn [sample_affine fst length]. by rewrite IH.
Qed.

(** Samples of [lo + width * U] lie between [lo] and [lo + width]. *)
Lemma sample_affine_range `{BitGenerator} (lo width : Q) (n : nat) (g : rng_state) :
  0 <= width →
  Forall (λ v, lo <= v ∧ v <= lo + width) (sample_affine lo width n g).1.
Proof.
  intros Hw. revert g. induction n as [|n IH]; intros g; [constructor|].
  cbn [sample_affine fst]. constructor; [|apply IH].
  destruct (random_sample_unit g) as [H0 H1]. split; nra.
Qed.

Lemma Qsum_nonneg (l : list Q) : Forall (λ v, 0 <= v) l → 0 <= Qsum l.
Proof.
  induction 1 as [|v l Hv _ IH]; [rewrite Qsum_nil; lra|].
  rewrite Qsum_cons. lra.
Qed.

(** The sum of lower bounds is below the sum of the values they bound. *)
Lemma Qsum_scaled_le (c : Q) (l1 l2 : list Q) :
  Forall2 (λ a b, c * a <= b) l1 l2 → c * Qsum l1 <= Qsum l2.
Proof.
  induction 1 as [|a b l1 l2 Hab _ IH]; [rewrite !Qsum_nil; lra|].
  rewrite !Qsum_cons. lra.
Qed.

(** [pmax = pmin * factors] with factors of at least 2. *)
Lemma scaled_arrays (lo_a hi_a lo_f hi_f : Q) (a f : list Q) :
  0 <= lo_a → 2 <= lo_f → length a = length f →
  Forall (λ v, lo_a <= v ∧ v <= hi_a) a →
  Forall (λ v, lo_f <= v ∧ v <= hi_f) f →
  Forall2 (λ lo hi, 2 * lo <= hi) a (zip_with Qmult a f)
  ∧ Forall (λ v, 0 <= v) (zip_with Qmult a f).
Proof.
  intros Hlo_a Hlo Hlen Ha. revert f Hlen.
  induction Ha as [|v a [Hv1 Hv2] _ IH]; intros [|w f] Hlen Hf;
    try discriminate Hlen.
  { split; constructor. }
  apply Forall_cons in Hf as [[Hw1 Hw2] Hf].
  destruct (IH f) as [IH1 IH2]; [by injection Hlen|done|].
  cbn [zip_with]. split; constructor; try done; nra.
Qed.

Lemma pyomo_comprehension_family `{BitGenerator} (a b c e : list Q) (samples : nat)
    (g : rng_state) :
  0 <= Qsum b →
  length (Pyomo.comprehension a b c e samples g) = samples
  ∧ Forall (λ d, pmin d = a ∧ pmax d = b ∧ cfix d = c ∧ cvar d = e
                 ∧ 0.5 * Qsum b <= demand d ∧ demand d <= 0.75 * Qsum b)
      (Pyomo.comprehension a b c e samples g).
Proof.
  intros Hb. revert g. induction samples as [|k IH]; intros g.
  { split; [reflexivity|constructor]. }
  cbn [Pyomo.comprehension]. destruct (IH (Pyomo.rvs1 0.5 0.25 g).2) as [IH1 IH2].
  split; [cbn [length]; by rewrite IH1|].
  constructor; [|exact IH2]. cbn [pmin pmax cfix cvar demand].
  split_and!; try reflexivity.
  - unfold Pyomo.rvs1. cbn [fst].
    destruct (random_sample_unit g) as [H0 H1]. nra.
  - unfold Pyomo.rvs1. cbn [fst].
    destruct (random_sample_unit g) as [H0 H1]. nra.
Qed.

Lemma jump_comprehension_family `{BitGenerator} (a b c e : list Q) (samples : nat)
    (g : rng_state) :
  0 <= Qsum b →
  length (JuMP.comprehension a b c e samples g) = samples
  ∧ Forall (λ d, pmin d = a ∧ pmax d = b ∧ cfix d = c ∧ cvar d = e
                 ∧ 0.5 * Qsum b <= demand d ∧ demand d <= 0.75 * Qsum b)
      (JuMP.comprehension a b c e samples g).
Proof.
  intros Hb. revert g. induction samples as [|k IH]; intros g.
  { split; [reflexivity|constructor]. }
  cbn [JuMP.comprehension]. destruct (IH (JuMP.rand1 0.5 0.75 g).2) as [IH1 IH2].
  split; [cbn [length]; by rewrite IH1|].
  constructor; [|exact IH2]. cbn [pmin pmax cfix cvar demand].
  split_and!; try reflexivity.
  - unfold JuMP.rand1. cbn [fst].
    destruct (random_sample_unit g) as [H0 H1]. nra.
  - unfold JuMP.rand1. cbn [fst].
    destruct (random_sample_unit g) as [H0 H1]. nra.
Qed.

(** The Python generator, for [n >= 0]: the four arrays are drawn once, and
    the comprehension draws the demands. *)
Lemma pyomo_random_uc_data_closed `{BitGenerator} (samples n seed : Z) :
  (0 ≤ n)%Z →
  ∃ (a b c e : list Q) (g : rng_state),
    Pyomo.random_uc_data samples n seed
    = Ok (Pyomo.comprehension a b c e (Z.to_nat samples) g)
    ∧ length a = Z.to_nat n ∧ length b = Z.to_nat n
    ∧ length c = Z.to_nat n ∧ length e = Z.to_nat n
    ∧ Forall (λ v, 100000 <= v) a
    ∧ Forall2 (λ lo hi, 2 * lo <= hi) a b
    ∧ Forall (λ v, 0 <= v) b.
Proof.
  intros Hn. unfold Pyomo.random_uc_data.
  destruct (Z.ltb_spec n 0) as [|_]; [lia|]. cbv zeta. unfold Pyomo.rvs.
  set (r1 := sample_affine 100000 400000 (Z.to_nat n) (rng_seed seed)).
  set (r2 := sample_affine 2.0 2.5 (Z.to_nat n) r1.2).
  set (r3 := sample_affine 100.0 25.0 (Z.to_nat n) r2.2).
  set (r4 := sample_affine 1.25 0.25 (Z.to_nat n) r3.2).
  assert (Hl1 : length r1.1 = Z.to_nat n) by apply sample_affine_length.
  assert (Hl2 : length r2.1 = Z.to_nat n) by apply sample_affine_length.
  assert (Hl3 : length r3.1 = Z.to_nat n) by apply sample_affine_length.
  assert (Hl4 : length r4.1 = Z.to_nat n) by apply sample_affine_length.
  assert (Hr1 : Forall (λ v, 100000 <= v ∧ v <= 100000 + 400000) r1.1)
    by (apply sample_affine_range; lra).
  assert (Hr2 : Forall (λ v, 2.0 <= v ∧ v <= 2.0 + 2.5) r2.1)
    by (apply sample_affine_range; lra).
  destruct (scaled_arrays 100000 (100000 + 400000) 2.0 (2.0 + 2.5) r1.1 r2.1)
    as [Hb1 Hb2]; [lra|lra|lia|done|done|].
  exists r1.1, (zip_with Qmult r1.1 r2.1), (zip_with Qmult r1.1 r3.1), r4.1, r4.2.
  split_and!; try done.
  - rewrite length_zip_with. lia.
  - rewrite length_zip_with. lia.
  - eapply Forall_impl; [exact Hr1|]. by intros v [? _].
Qed.

(** The Julia generator, likewise. *)
Lemma jump_random_uc_data_closed `{BitGenerator} (samples n seed : Z) :
  (0 ≤ n)%Z →
  ∃ (a b c e : list Q) (g : rng_state),
    JuMP.random_uc_data samples n seed
    = Ok (JuMP.comprehension a b c e (Z.to_nat samples) g)
    ∧ length a = Z.to_nat n ∧ length b = Z.to_nat n
    ∧ length c = Z.to_nat n ∧ length e = Z.to_nat n
    ∧ Forall (λ v, 100000 <= v) a
    ∧ Forall2 (λ lo hi, 2 * lo <= hi) a b
    ∧ Forall (λ v, 0 <= v) b.
Proof.
  intros Hn. unfold JuMP.random_uc_data.
  destruct (Z.ltb_spec n 0) as [|_]; [lia|]. cbv zeta. unfold JuMP.rand.
  set (r1 := sample_affine 100000 (500000 - 100000) (Z.to_nat n) (rng_seed seed)).
  set (r2 := sample_affine 2 (2.5 - 2) (Z.to_nat n) r1.2).
  set (r3 := sample_affine 100 (125 - 100) (Z.to_nat n) r2.2).
  set (r4 := sample_affine 1.25 (1.50 - 1.25) (Z.to_nat n) r3.2).
  assert (Hl1 : length r1.1 = Z.to_nat n) by apply sample_affine_length.
  assert (Hl2 : length r2.1 = Z.to_nat n) by apply sample_affine_length.
  assert (Hl3 : length r3.1 = Z.to_nat n) by apply sample_affine_length.
  assert (Hl4 : length r4.1 = Z.to_nat n) by apply sample_affine_length.
  assert (Hr1 : Forall (λ v, 100000 <= v ∧ v <= 100000 + (500000 - 100000)) r1.1)
    by (apply sample_affine_range; lra).
  assert (Hr2 : Forall (λ v, 2 <= v ∧ v <= 2 + (2.5 - 2)) r2.1)
    by (apply sample_affine_range; lra).
  destruct (scaled_arrays 100000 (100000 + (500000 - 100000)) 2 (2 + (2.5 - 2)) r1.1 r2.1)
    as [Hb1 Hb2]; [lra|lra|lia|done|done|].
  exists r1.1, (zip_with Qmult r1.1 r2.1), (zip_with Qmult r1.1 r3.1), r4.1, r4.2.
  split_and!; try done.
  - rewrite length_zip_with. lia.
  - rewrite length_zip_with. lia.
  - eapply Forall_impl; [exact Hr1|]. by intros v [? _].
Qed.

(** ** C9: the records of one call *)

(** C9.  For [samples >= 1] and [n >= 1], [random_uc_data] returns exactly
    [samples] records; they share the same [pmin], [pmax], [cfix] and [cvar]
    arrays, of length [n], so that only the demand can differ; and every
    demand lies between 0.5 and 0.75 times the sum of [pmax].  This holds
    for the Python and for the Julia generator. *)
Theorem random_uc_data_family `{BitGenerator} (samples n seed : Z) :
  (1 ≤ samples)%Z → (1 ≤ n)%Z →
  (∃ data, Pyomo.random_uc_data samples n seed = Ok data
           ∧ Z.of_nat (length data) = samples
           ∧ Closed.demand_family (Z.to_nat n) data)
  ∧ (∃ data, JuMP.random_uc_data samples n seed = Ok data
             ∧ Z.of_nat (length data) = samples
             ∧ Closed.demand_family (Z.to_nat n) data).
Proof.
  intros Hs Hn. split.
  - destruct (pyomo_random_uc_data_closed samples n seed)
      as (a & b & c & e & g & Hdata & Ha & Hb & Hc & He & _ & _ & Hpos); [lia|].
    destruct (pyomo_comprehension_family a b c e (Z.to_nat samples) g) as [Hlen Hall].
    { by apply Qsum_nonneg. }
    eexists. split; [exact Hdata|]. split; [rewrite Hlen; lia|].
    by exists a, b, c, e.
  - destruct (jump_random_uc_data_closed samples n seed)
      as (a & b & c & e & g & Hdata & Ha & Hb & Hc & He & _ & _ & Hpos); [lia|].
    destruct (jump_comprehension_family a b c e (Z.to_nat samples) g) as [Hlen Hall].
    { by apply Qsum_nonneg. }
    eexists. split; [exact Hdata|]. split; [rewrite Hlen; lia|].
    by exists a, b, c, e.
Qed.

(** Two records of two generators, with the linear congruential generator. *)
Lemma random_uc_data_family_witness :
  (1 ≤ 2)%Z
  ∧ ∃ data, Pyomo.random_uc_data (H:=lcg) 2 2 42 = Ok data
            ∧ Z.of_nat (length data) = 2%Z
            ∧ Closed.demand_family 2 data.
Proof.
  split; [lia|].
  destruct (random_uc_data_family (H:=lcg) 2 2 42) as [Hpy _]; [lia|lia|].
  exact Hpy.
Defined.

(** ** A feasible point *)

Lemma nth_Forall2_Qle (a b : list Q) (i : nat) :
  Forall2 Qle a b → (i < length a)%nat → nth i a 0 <= nth i b 0.
Proof.
  intros Hab Hi. pose proof (Forall2_length _ _ _ Hab) as Hlen.
  eapply (Forall2_lookup_lr _ _ _ i); [exact Hab| |]; apply lookup_nth_Q; lia.
Qed.

Lemma fmap_nth_seq (l : list Q) : (λ k, nth k l 0) <$> seq 0 (length l) = l.
Proof.
  apply list_eq. intros i. rewrite list_lookup_fmap.
  destruct (decide (i < length l)%nat) as [Hi|Hi].
  - rewrite lookup_seq_lt by done. cbn. symmetry. by apply lookup_nth_Q.
  - rewrite lookup_seq_ge by lia. cbn. symmetry. apply lookup_ge_None_2. lia.
Qed.

(** Moving every entry the same fraction [t] of the way from [a] to [b]
    stays between [a] and [b] and moves the sum by the same fraction. *)
Lemma interpolate_spec (t : Q) (a b : list Q) :
  0 <= t → t <= 1 → Forall2 Qle a b →
  Forall2 Qle a (zip_with (λ lo hi, lo + t * (hi - lo)) a b)
  ∧ Forall2 Qle (zip_with (λ lo hi, lo + t * (hi - lo)) a b) b
  ∧ Qsum (zip_with (λ lo hi, lo + t * (hi - lo)) a b)
    == Qsum a + t * (Qsum b - Qsum a).
Proof.
  intros Ht0 Ht1. induction 1 as [|lo hi a b Hlh _ (IH1 & IH2 & IH3)].
  - cbn [zip_with]. split_and!; try constructor. rewrite Qsum_nil. ring.
  - cbn [zip_with]. split_and!.
    + constructor; [nra|done].
    + constructor; [nra|done].
    + rewrite !Qsum_cons, IH3. ring.
Qed.

(** [dispatch] is a plan between the minima and the maxima that meets the
    demand, whenever the demand lies between their sums. *)
Lemma dispatch_spec (d : UnitCommitmentData) :
  Forall2 Qle (pmin d) (pmax d) →
  Qsum (pmin d) <= demand d → demand d <= Qsum (pmax d) →
  Forall2 Qle (pmin d) (Closed.dispatch d)
  ∧ Forall2 Qle (Closed.dispatch d) (pmax d)
  ∧ Qsum (Closed.dispatch d) == demand d.
Proof.
  intros Hlh Hlo Hhi. unfold Closed.dispatch. cbv zeta.
  destruct (Qle_bool (Qsum (pmax d)) (Qsum (pmin d))) eqn:Hcmp.
  - apply Qle_bool_iff in Hcmp.
    destruct (interpolate_spec 0 (pmin d) (pmax d)) as (H1 & H2 & H3);
      [lra|lra|done|].
    split_and!; [done|done|]. rewrite H3. lra.
  - assert (Hgap : 0 < Qsum (pmax d) - Qsum (pmin d)).
    { destruct (Qlt_le_dec (Qsum (pmin d)) (Qsum (pmax d))) as [Hlt|Hle]; [lra|].
      apply Qle_bool_iff in Hle. congruence. }
    set (t := (demand d - Qsum (pmin d)) / (Qsum (pmax d) - Qsum (pmin d))).
    destruct (interpolate_spec t (pmin d) (pmax d)) as (H1 & H2 & H3); [| |done|].
    + apply Qle_shift_div_l; [done|]. lra.
    + apply Qle_shift_div_r; [done|]. lra.
    + split_and!; [done|done|]. rewrite H3. unfold t. field. lra.
Qed.

(** With every generator online, a plan between the minima and the maxima
    that meets the demand satisfies every constraint of the Pyomo model. *)
Lemma pyomo_plan_feasible (d : UnitCommitmentData) (ys : list Q) :
  Forall (λ v, 0 <= v) (pmin d) →
  Forall2 Qle (pmin d) ys → Forall2 Qle ys (pmax d) → Qsum ys == demand d →
  Pyomo.feasible (Closed.all_on ys) (Pyomo.inner (Closed.pyomo_model d)) = true.
Proof.
  intros Hpos Hlo Hhi Hsum.
  pose proof (Forall2_length _ _ _ Hlo) as Hlen1.
  pose proof (Forall2_length _ _ _ Hhi) as Hlen2.
  unfold Pyomo.feasible, Pyomo.constraints, Closed.pyomo_model.
  cbn [Pyomo.inner Pyomo.x Pyomo.y Pyomo.var_index Pyomo.var_domain
       Pyomo.eq_max_power Pyomo.eq_min_power Pyomo.eq_demand].
  rewrite !forallb_app, !andb_true_iff. split_and!.
  - apply forallb_forall. intros i _. reflexivity.
  - apply forallb_forall. intros i Hi. apply in_seq in Hi.
    unfold Pyomo.in_domain, Closed.all_on. apply Qle_bool_iff.
    apply Qle_trans with (nth i (pmin d) 0).
    + eapply Forall_forall; [exact Hpos|]. apply list_elem_of_In, nth_In. lia.
    + apply nth_Forall2_Qle; [done|lia].
  - apply forallb_forall. intros r Hr.
    apply list_elem_of_In, list_elem_of_fmap in Hr as (i & -> & Hi).
    apply elem_of_seq in Hi. unfold Closed.pyomo_max, Closed.all_on.
    cbn [holds eval]. apply Qle_bool_iff.
    pose proof (nth_Forall2_Qle ys (pmax d) i Hhi ltac:(lia)). lra.
  - apply forallb_forall. intros r Hr.
    apply list_elem_of_In, list_elem_of_fmap in Hr as (i & -> & Hi).
    apply elem_of_seq in Hi. unfold Closed.pyomo_min, Closed.all_on.
    cbn [holds eval]. apply Qle_bool_iff.
    pose proof (nth_Forall2_Qle (pmin d) ys i Hlo ltac:(lia)). lra.
  - cbn [forallb holds eval]. rewrite andb_true_r. apply Qeq_bool_iff.
    rewrite eval_py_sum, <- list_fmap_compose, Hlen1.
    change (eval (Closed.all_on ys) ∘ EVar Y) with (λ k, nth k ys 0).
    by rewrite fmap_nth_seq.
Qed.

Lemma forallb_fmap {A B : Type} (f : B → bool) (g : A → B) (l : list A) :
  forallb f (g <$> l) = forallb (f ∘ g) l.
Proof. induction l as [|a l IH]; [reflexivity|]. cbn. by rewrite IH. Qed.

Lemma forallb_holds (ρ : assignment) (l : list relational) :
  forallb (holds ρ) l = forallb id (holds ρ <$> l).
Proof. by rewrite forallb_fmap. Qed.

Lemma forallb_ext_eq {A : Type} (f g : A → bool) (l : list A) :
  (∀ a, f a = g a) → forallb f l = forallb g l.
Proof. intros Hfg. induction l as [|a l IH]; [reflexivity|]. cbn. by rewrite Hfg, IH. Qed.

(** Models of the same program have the same feasible points. *)
Lemma same_program_feasible (mp : Pyomo.ConcreteModel) (mj : JuMP.Model) (ρ : assignment) :
  same_program mp mj → Pyomo.feasible (shift ρ) mp = JuMP.feasible ρ mj.
Proof.
  intros (Hx & Hy & Hdx & Hdy & _ & _ & Hcs).
  unfold Pyomo.feasible, JuMP.feasible.
  rewrite <- Hx, <- Hy, !forallb_fmap.
  rewrite (forallb_holds (shift ρ)), (forallb_holds ρ), (Hcs ρ).
  apply (f_equal2 andb); [apply (f_equal2 andb)|reflexivity];
    apply forallb_ext_eq; intros i; cbn; [apply Hdx|apply Hdy].
Qed.

Lemma doubled_le (a b : list Q) :
  Forall (λ v, 0 <= v) a → Forall2 (λ lo hi, 2 * lo <= hi) a b → Forall2 Qle a b.
Proof.
  intros Ha Hab. induction Hab as [|lo hi a b Hlh _ IH]; [constructor|].
  apply Forall_cons in Ha as [Hlo Ha]. constructor; [lra|by apply IH].
Qed.

(** A record whose minima are non-negative, whose maxima are at least twice
    the minima and whose demand is between 0.5 and 0.75 times the sum of the
    maxima: the chain of inequalities holds, and [dispatch] is a plan that
    is feasible with every generator online. *)
Lemma record_feasible (d : UnitCommitmentData) :
  Forall (λ v, 0 <= v) (pmin d) →
  Forall2 (λ lo hi, 2 * lo <= hi) (pmin d) (pmax d) →
  0.5 * Qsum (pmax d) <= demand d → demand d <= 0.75 * Qsum (pmax d) →
  Closed.capacity_chain d
  ∧ Forall2 Qle (pmin d) (Closed.dispatch d)
  ∧ Forall2 Qle (Closed.dispatch d) (pmax d)
  ∧ Qsum (Closed.dispatch d) == demand d
  ∧ Pyomo.feasible (Closed.all_on (Closed.dispatch d))
      (Pyomo.inner (Closed.pyomo_model d)) = true.
Proof.
  intros Hpos Hdbl Hlo Hhi.
  pose proof (Qsum_scaled_le 2 _ _ Hdbl) as Hsum.
  pose proof (Qsum_nonneg _ Hpos) as Hsum0.
  pose proof (doubled_le _ _ Hpos Hdbl) as Hle.
  destruct (dispatch_spec d) as (H1 & H2 & H3); [done|lra|lra|].
  split_and!; try done.
  - unfold Closed.capacity_chain. split_and!; [done|lra|lra|lra].
  - by apply pyomo_plan_feasible.
Qed.

Lemma Forall_100000_nonneg (a : list Q) :
  Forall (λ v, 100000 <= v) a → Forall (λ v, 0 <= v) a.
Proof. intros Ha. eapply Forall_impl; [exact Ha|]. intros v Hv. cbn in Hv. lra. Qed.

(** ** C10: the models of random records are feasible *)

(** C10, counterexample.  With [n = 0] the Python generator returns a record
    without generators, and the Pyomo builder raises on it instead of
    returning a model. *)
Lemma random_uc_data_without_generators :
  ∃ d, Pyomo.random_uc_data (H:=lcg) 1 0 42 = Ok [d]
       ∧ (Pyomo.build_uc_model (H:=memory_codec) ∅ (inr d)).2 = Raise ValueError.
Proof.
  eexists. split; vm_compute; reflexivity.
Qed.

(** C10, amended.  For [n >= 1], every record that [random_uc_data] returns
    has each [pmax[i]] at least [2*pmin[i]], so the sum of [pmin] is at most
    half the sum of [pmax], which is at most the demand, which is at most
    the sum of [pmax]; [build_uc_model] returns a model for it, and with
    every [x[i] = 1] there are values [y] with [pmin[i] <= y[i] <= pmax[i]]
    whose sum is the demand and that satisfy every constraint of the model.
    This holds for the Python generator with the Pyomo builder and for the
    Julia generator with the JuMP builder. *)
Theorem random_uc_data_feasible `{BitGenerator} `{Codec} (fs : gmap string blob)
    (samples n seed : Z) :
  (1 ≤ n)%Z →
  (∃ data, Pyomo.random_uc_data samples n seed = Ok data
     ∧ Forall (λ d, Closed.capacity_chain d
                 ∧ ∃ m ys, (Pyomo.build_uc_model fs (inr d)).2 = Ok m
                     ∧ Forall2 Qle (pmin d) ys ∧ Forall2 Qle ys (pmax d)
                     ∧ Qsum ys == demand d
                     ∧ Pyomo.feasible (Closed.all_on ys) (Pyomo.inner m) = true) data)
  ∧ (∃ data, JuMP.random_uc_data samples n seed = Ok data
       ∧ Forall (λ d, Closed.capacity_chain d
                   ∧ ∃ m ys, (JuMP.build_uc_model fs (inr d)).2 = Ok m
                       ∧ Forall2 Qle (pmin d) ys ∧ Forall2 Qle ys (pmax d)
                       ∧ Qsum ys == demand d
                       ∧ JuMP.feasible (Closed.all_on1 ys) (JuMP.inner m) = true) data).
Proof.
  intros Hn. split.
  - destruct (pyomo_random_uc_data_closed samples n seed)
      as (a & b & c & e & g & Hdata & Ha & Hb & Hc & He & Hmin & Hdbl & Hpos); [lia|].
    destruct (pyomo_comprehension_family a b c e (Z.to_nat samples) g) as [_ Hall].
    { by apply Qsum_nonneg. }
    eexists. split; [exact Hdata|].
    eapply Forall_impl; [exact Hall|].
    intros d (Hda & Hdb & Hdc & Hde & Hlo & Hhi). subst a b c e.
    destruct (record_feasible d) as (Hchain & H1 & H2 & H3 & H4);
      [by apply Forall_100000_nonneg|done|done|done|].
    split; [done|].
    exists (Closed.pyomo_model d), (Closed.dispatch d). split_and!; try done.
    apply (pyomo_build_Ok fs d (Z.to_nat n)); [lia|done..].
  - destruct (jump_random_uc_data_closed samples n seed)
      as (a & b & c & e & g & Hdata & Ha & Hb & Hc & He & Hmin & Hdbl & Hpos); [lia|].
    destruct (jump_comprehension_family a b c e (Z.to_nat samples) g) as [_ Hall].
    { by apply Qsum_nonneg. }
    eexists. split; [exact Hdata|].
    eapply Forall_impl; [exact Hall|].
    intros d (Hda & Hdb & Hdc & Hde & Hlo & Hhi). subst a b c e.
    destruct (record_feasible d) as (Hchain & H1 & H2 & H3 & H4);
      [by apply Forall_100000_nonneg|done|done|done|].
    split; [done|].
    exists (Closed.jump_model d), (Closed.dispatch d). split_and!; try done.
    + apply jump_build_closed; lia.
    + rewrite <- (same_program_feasible _ _ _ (closed_same_program d)). exact H4.
Qed.

(** Two records with two generators each, drawn with the linear
    congruential generator. *)
Lemma random_uc_data_feasible_witness :
  (1 ≤ 2)%Z
  ∧ ∃ data, Pyomo.random_uc_data (H:=lcg) 2 2 42 = Ok data
      ∧ Forall (λ d, ∃ m ys,
                  (Pyomo.build_uc_model (H:=memory_codec) ∅ (inr d)).2 = Ok m
                  ∧ Qsum ys == demand d
                  ∧ Pyomo.feasible (Closed.all_on ys) (Pyomo.inner m) = true) data.
Proof.
  split; [lia|].
  destruct (random_uc_data_feasible (H:=lcg) (H0:=memory_codec) ∅ 2 2 42)
    as [(data & Hdata & Hall) _]; [lia|].
  exists data. split; [exact Hdata|].
  eapply Forall_impl; [exact Hall|].
  intros d (_ & m & ys & Hm & _ & _ & Hsum & Hfeas). by exists m, ys.
Defined.

(** * Further properties of the code *)

(** ** Runs that raise *)

Lemma mapM_Exec_ext {A B : Type} (f g : A → Exec B) (l : list A) :
  (∀ a, a ∈ l → f a = g a) → mapM f l = mapM g l.
Proof.
  induction l as [|a l IH]; intros Hfg; [reflexivity|].
  cbn [mapM]. rewrite (Hfg a) by left. rewrite IH; [reflexivity|].
  intros b Hb. apply Hfg. by right.
Qed.

Lemma foldlM_ext {A S : Type} (f g : S → A → Exec S) (l : list A) (s : S) :
  (∀ s a, a ∈ l → f s a = g s a) → foldlM f s l = foldlM g s l.
Proof.
  revert s. induction l as [|a l IH]; intros s Hfg; [reflexivity|].
  cbn [foldlM]. rewrite (Hfg s a) by left.
  destruct (g s a) as [lg [s'|e]]; [|reflexivity].
  rewrite !Exec_bind_Ok. rewrite IH; [reflexivity|].
  intros s0 b Hb. apply Hfg. by right.
Qed.

(** A [mapM] stops at the first element on which its body raises. *)
Lemma mapM_raise {A B : Type} (f : A → Exec B) (lg : A → list access) (g : A → B)
    (l1 l2 : list A) (a : A) (la : list access) (e : exn) :
  (∀ b, b ∈ l1 → f b = (lg b, Ok (g b))) →
  f a = (la, Raise e) →
  mapM f (l1 ++ a :: l2) = (concat (lg <$> l1) ++ la, Raise e).
Proof.
  intros Hok Ha. induction l1 as [|b l1 IH].
  - cbn [app mapM]. by rewrite Ha.
  - cbn [app mapM]. rewrite (Hok b) by left. rewrite Exec_bind_Ok.
    rewrite IH by (intros; apply Hok; by right).
    cbn. by rewrite app_assoc.
Qed.

(** So does a loop. *)
Lemma foldlM_raise {A S : Type} (body : S → A → Exec S) (lg : A → list access)
    (h : S → A → S) (l1 l2 : list A) (a : A) (la : list access) (e : exn) (s : S) :
  (∀ s b, b ∈ l1 → body s b = (lg b, Ok (h s b))) →
  (∀ s, body s a = (la, Raise e)) →
  foldlM body s (l1 ++ a :: l2) = (concat (lg <$> l1) ++ la, Raise e).
Proof.
  intros Hok Ha. revert s. induction l1 as [|b l1 IH]; intros s.
  - cbn [app foldlM]. by rewrite Ha.
  - cbn [app foldlM]. rewrite (Hok s b) by left. rewrite Exec_bind_Ok.
    rewrite IH by (intros; apply Hok; by right).
    cbn. by rewrite app_assoc.
Qed.

Lemma seq_split_at (n m : nat) :
  (m < n)%nat → seq 0 n = seq 0 m ++ m :: seq (S m) (n - S m).
Proof.
  intros Hm. replace n with (m + S (n - S m))%nat at 1 by lia.
  by rewrite seq_app.
Qed.

Lemma getitem_None (f : field) (l : list Q) (i : nat) :
  (length l ≤ i)%nat → Pyomo.getitem f l i = ([Access f i], Raise IndexError).
Proof.
  intros Hi. unfold Pyomo.getitem. by rewrite lookup_ge_None_2.
Qed.

Lemma in_range_pairs (d : UnitCommitmentData) (f1 f2 : field) (m : nat) :
  (m ≤ length (field_of d f1))%nat → (m ≤ length (field_of d f2))%nat →
  Forall (λ a, (acc_index a < length (field_of d (acc_field a)))%nat)
    (concat ((λ i, [Access f1 i; Access f2 i]) <$> seq 0 m)).
Proof.
  intros H1 H2. apply Forall_concat, Forall_fmap, Forall_forall. intros i Hi.
  apply elem_of_seq in Hi. repeat constructor; cbn; lia.
Qed.

(** X1.  When [pmax], [cfix] or [cvar] is shorter than [pmin], the Pyomo
    builder raises [IndexError] and returns no model; the run stops at the
    first subscript that is out of range, and every subscript before it is
    in range. *)
Theorem build_uc_model_index_error `{Codec} (fs : gmap string blob)
    (d : UnitCommitmentData) :
  (length (pmax d) < length (pmin d) ∨ length (cfix d) < length (pmin d)
   ∨ length (cvar d) < length (pmin d))%nat →
  ∃ l a,
    Pyomo.build_uc_model fs (inr d) = (l ++ [a], Raise IndexError)
    ∧ Forall (λ a, (acc_index a < length (field_of d (acc_field a)))%nat) l
    ∧ (length (field_of d (acc_field a)) ≤ acc_index a)%nat.
Proof.
  intros Hshort.
  unfold Pyomo.build_uc_model. rewrite Exec_bind_ret. cbv zeta.
  set (n := length (pmin d)) in *.
  destruct (decide (length (cfix d) < n ∧ length (cfix d) ≤ length (cvar d))%nat)
    as [[Ha Hab]|Hna].
  { (* [cfix] runs out first *)
    rewrite (seq_split_at n (length (cfix d))) by done.
    rewrite (mapM_raise _ (λ i, [Access f_cfix i; Access f_cvar i]) (Closed.pyomo_term d)
               _ _ _ [Access f_cfix (length (cfix d))] IndexError).
    - rewrite Exec_bind_Raise. eexists _, _. split; [reflexivity|]. split.
      + apply (in_range_pairs d f_cfix f_cvar); cbn; lia.
      + cbn. lia.
    - intros i Hi. apply elem_of_seq in Hi.
      rewrite !getitem_Some by lia. reflexivity.
    - rewrite (getitem_None f_cfix) by lia. reflexivity. }
  destruct (decide (length (cvar d) < n)%nat) as [Hb|Hnb].
  { (* [cvar] runs out first *)
    assert (Hba : (length (cvar d) < length (cfix d))%nat) by lia.
    rewrite (seq_split_at n (length (cvar d))) by done.
    rewrite (mapM_raise _ (λ i, [Access f_cfix i; Access f_cvar i]) (Closed.pyomo_term d)
               _ _ _ [Access f_cfix (length (cvar d)); Access f_cvar (length (cvar d))]
               IndexError).
    - rewrite Exec_bind_Raise.
      exists (concat ((λ i, [Access f_cfix i; Access f_cvar i]) <$> seq 0 (length (cvar d)))
              ++ [Access f_cfix (length (cvar d))]), (Access f_cvar (length (cvar d))).
      split; [by rewrite <- app_assoc|]. split.
      + apply Forall_app. split.
        * apply (in_range_pairs d f_cfix f_cvar); cbn; lia.
        * repeat constructor. cbn. lia.
      + cbn. lia.
    - intros i Hi. apply elem_of_seq in Hi.
      rewrite !getitem_Some by lia. reflexivity.
    - rewrite (getitem_Some f_cfix) by lia. rewrite (getitem_None f_cvar) by lia.
      reflexivity. }
  (* the objective is built; [pmax] runs out in the loop *)
  assert (Hc : (length (pmax d) < n)%nat) by lia.
  rewrite (mapM_pure _ (λ i, [Access f_cfix i; Access f_cvar i]) (Closed.pyomo_term d)).
  2:{ intros i Hi. apply elem_of_seq in Hi.
      rewrite !getitem_Some by lia. reflexivity. }
  rewrite Exec_bind_Ok.
  assert (Hloop : foldlM (λ (lists : list relational * list relational) i,
             hi ← Pyomo.getitem f_pmax (pmax d) i;
             let max_power := lists.1 ++ [RLe (EVar Y i) (EMul (ENum hi) (EVar X i))] in
             lo ← Pyomo.getitem f_pmin (pmin d) i;
             let min_power := lists.2 ++ [RGe (EVar Y i) (EMul (ENum lo) (EVar X i))] in
             mret (max_power, min_power))
           ([], []) (seq 0 n)
          = (concat ((λ i, [Access f_pmax i; Access f_pmin i]) <$> seq 0 (length (pmax d)))
             ++ [Access f_pmax (length (pmax d))], Raise IndexError)).
  { rewrite (seq_split_at n (length (pmax d))) by done.
    apply (foldlM_raise _ _
             (λ st i, (st.1 ++ [Closed.pyomo_max d i], st.2 ++ [Closed.pyomo_min d i]))).
    - intros st i Hi. apply elem_of_seq in Hi.
      rewrite !getitem_Some by (fold n; lia). reflexivity.
    - intros st. rewrite (getitem_None f_pmax) by lia. reflexivity. }
  cbv zeta in Hloop. rewrite Hloop, Exec_bind_Raise. cbn [fst snd].
  exists (concat ((λ i, [Access f_cfix i; Access f_cvar i]) <$> seq 0 n)
          ++ concat ((λ i, [Access f_pmax i; Access f_pmin i]) <$> seq 0 (length (pmax d)))),
         (Access f_pmax (length (pmax d))).
  split; [by rewrite <- app_assoc|]. split.
  - apply Forall_app. split.
    + apply (in_range_pairs d f_cfix f_cvar); cbn; lia.
    + apply (in_range_pairs d f_pmax f_pmin); cbn; fold n; lia.
  - cbn. lia.
Qed.

Lemma build_uc_model_index_error_witness :
  (length (cfix short_data) < length (pmin short_data))%nat
  ∧ (Pyomo.build_uc_model (H:=memory_codec) ∅ (inr short_data)).2 = Raise IndexError.
Proof.
  split; [cbn; lia|].
  destruct (build_uc_model_index_error (H:=memory_codec) ∅ short_data)
    as (l & a & Hrun & _); [right; left; cbn; lia|].
  by rewrite Hrun.
Defined.

(** X2.  With no generators ([pmin] empty) the Pyomo builder raises
    [ValueError] before it touches any list, whatever the demand and the
    other three lists are. *)
Theorem build_uc_model_empty `{Codec} (fs : gmap string blob) (d : UnitCommitmentData) :
  pmin d = [] →
  Pyomo.build_uc_model fs (inr d) = ([], Raise ValueError).
Proof.
  intros Hp. unfold Pyomo.build_uc_model. rewrite Exec_bind_ret, Hp. reflexivity.
Qed.

Lemma build_uc_model_empty_witness :
  pmin {| demand := 0; pmin := []; pmax := [50]; cfix := []; cvar := [1.5; 2] |} = []
  ∧ Pyomo.build_uc_model (H:=memory_codec) ∅
      (inr {| demand := 0; pmin := []; pmax := [50]; cfix := []; cvar := [1.5; 2] |})
    = ([], Raise ValueError).
Proof.
  split; [reflexivity|].
  apply (build_uc_model_empty (H:=memory_codec) ∅
           {| demand := 0; pmin := []; pmax := [50]; cfix := []; cvar := [1.5; 2] |}).
  reflexivity.
Defined.

(** ** Entries beyond the length of [pmin] *)

Lemma Exec_bind_cong {A B : Type} (m m' : Exec A) (k k' : A → Exec B) :
  m = m' → (∀ a, k a = k' a) → m ≫= k = m' ≫= k'.
Proof.
  intros <- Hk. destruct m as [l [a|e]]; [|reflexivity].
  rewrite !Exec_bind_Ok. by rewrite Hk.
Qed.

Lemma getitem_take (f : field) (l : list Q) (n i : nat) :
  (i < n)%nat → Pyomo.getitem f (take n l) i = Pyomo.getitem f l i.
Proof. intros Hi. unfold Pyomo.getitem. by rewrite lookup_take_lt. Qed.

Lemma getindex_take (f : field) (l : list Q) (n g : nat) :
  (g ≤ n)%nat → JuMP.getindex f (take n l) g = JuMP.getindex f l g.
Proof.
  intros Hg. unfold JuMP.getindex. destruct g as [|k]; [reflexivity|].
  by rewrite lookup_take_lt by lia.
Qed.

(** X3.  Both builders use only the first [len(pmin)] entries of [pmax],
    [cfix] and [cvar]: cutting the three lists to the length of [pmin]
    changes neither the accesses nor the result, so surplus entries are
    ignored without any error. *)
Theorem build_uc_model_ignores_surplus `{Codec} (fs : gmap string blob)
    (d : UnitCommitmentData) :
  Pyomo.build_uc_model fs (inr (truncated d)) = Pyomo.build_uc_model fs (inr d)
  ∧ JuMP.build_uc_model fs (inr (truncated d)) = JuMP.build_uc_model fs (inr d).
Proof.
  split.
  - unfold Pyomo.build_uc_model. rewrite !Exec_bind_ret. cbv zeta.
    cbn [truncated pmin pmax cfix cvar demand].
    apply Exec_bind_cong.
    { apply mapM_Exec_ext. intros i Hi. apply elem_of_seq in Hi.
      by rewrite !getitem_take by lia. }
    intros terms. apply Exec_bind_cong; [|reflexivity].
    apply foldlM_ext. intros st i Hi. apply elem_of_seq in Hi.
    by rewrite !getitem_take by lia.
  - unfold JuMP.build_uc_model. rewrite !Exec_bind_ret. cbv zeta.
    cbn [truncated pmin pmax cfix cvar demand].
    apply Exec_bind_cong.
    { apply mapM_Exec_ext. intros g Hg. apply elem_of_seq in Hg.
      by rewrite !getindex_take by lia. }
    intros terms. apply Exec_bind_cong; [|reflexivity].
    apply mapM_Exec_ext. intros g Hg. apply elem_of_seq in Hg.
    by rewrite !getindex_take by lia.
Qed.

(** ** Subscripts of the JuMP builder *)

Lemma getindex_None (f : field) (l : list Q) (g : nat) :
  (length l < g)%nat → JuMP.getindex f l g = ([Access f g], Raise BoundsError).
Proof.
  intros Hg. unfold JuMP.getindex. destruct g as [|k]; [lia|].
  by rewrite lookup_ge_None_2 by lia.
Qed.

Lemma seq1_split_at (n m : nat) :
  (m < n)%nat → seq 1 n = seq 1 m ++ S m :: seq (S (S m)) (n - S m).
Proof.
  intros Hm. replace n with (m + S (n - S m))%nat at 1 by lia.
  by rewrite seq_app.
Qed.

Lemma jump_terms_run (d : UnitCommitmentData) (m : nat) :
  (m ≤ length (cfix d))%nat → (m ≤ length (cvar d))%nat →
  ∀ g, g ∈ seq 1 m →
    (c ← JuMP.getindex f_cfix (cfix d) g;
     v ← JuMP.getindex f_cvar (cvar d) g;
     mret (EAdd (EMul (ENum c) (EVar X g)) (EMul (ENum v) (EVar Y g))))
    = ([Access f_cfix g; Access f_cvar g], Ok (Closed.jump_term d g)).
Proof.
  intros Ha Hb g Hg. apply elem_of_seq in Hg.
  rewrite !getindex_Some by lia. reflexivity.
Qed.

Lemma jump_max_run (d : UnitCommitmentData) (m : nat) :
  (m ≤ length (pmax d))%nat →
  ∀ g, g ∈ seq 1 m →
    (hi ← JuMP.getindex f_pmax (pmax d) g;
     mret (RLe (EVar Y g) (EMul (ENum hi) (EVar X g))))
    = ([Access f_pmax g], Ok (Closed.jump_max d g)).
Proof.
  intros Hc g Hg. apply elem_of_seq in Hg.
  rewrite !getindex_Some by lia. reflexivity.
Qed.

Lemma jump_min_run (d : UnitCommitmentData) :
  ∀ g, g ∈ seq 1 (length (pmin d)) →
    (lo ← JuMP.getindex f_pmin (pmin d) g;
     mret (RGe (EVar Y g) (EMul (ENum lo) (EVar X g))))
    = ([Access f_pmin g], Ok (Closed.jump_min d g)).
Proof.
  intros g Hg. apply elem_of_seq in Hg.
  rewrite !getindex_Some by lia. reflexivity.
Qed.

Lemma in_range1 (d : UnitCommitmentData) (lg : nat → list access) (m : nat) :
  (∀ g, (1 ≤ g ≤ m)%nat →
     Forall (λ a, (1 ≤ acc_index a ≤ length (field_of d (acc_field a)))%nat) (lg g)) →
  Forall (λ a, (1 ≤ acc_index a ≤ length (field_of d (acc_field a)))%nat)
    (concat (lg <$> seq 1 m)).
Proof.
  intros Hlg. apply Forall_concat, Forall_fmap, Forall_forall. intros g Hg.
  apply elem_of_seq in Hg. apply Hlg. lia.
Qed.

(** X4.  When [pmax], [cfix] and [cvar] are at least as long as [pmin],
    every subscript that the JuMP builder applies to one of the four vectors
    lies between 1 and the length of that vector, and no [BoundsError] is
    raised. *)
Theorem jump_build_uc_model_in_bounds `{Codec} (fs : gmap string blob)
    (d : UnitCommitmentData) :
  (length (pmin d) ≤ length (pmax d))%nat →
  (length (pmin d) ≤ length (cfix d))%nat →
  (length (pmin d) ≤ length (cvar d))%nat →
  Forall (λ a, (1 ≤ acc_index a ≤ length (field_of d (acc_field a)))%nat)
         (JuMP.build_uc_model fs (inr d)).1
  ∧ (JuMP.build_uc_model fs (inr d)).2 ≠ Raise BoundsError.
Proof.
  intros Hmax Hfix Hvar.
  unfold JuMP.build_uc_model. rewrite Exec_bind_ret. cbv zeta.
  rewrite (mapM_pure _ _ _ _ (jump_terms_run d (length (pmin d)) Hfix Hvar)).
  rewrite Exec_bind_Ok.
  rewrite (mapM_pure _ _ _ _ (jump_max_run d (length (pmin d)) Hmax)).
  rewrite Exec_bind_Ok.
  rewrite (mapM_pure _ _ _ _ (jump_min_run d)).
  rewrite Exec_bind_Ok. cbn [fst snd]. split; [|discriminate].
  rewrite app_nil_r. repeat (apply Forall_app; split).
  - apply in_range1. intros g Hg. repeat constructor; cbn; lia.
  - apply in_range1. intros g Hg. repeat constructor; cbn; lia.
  - apply in_range1. intros g Hg. repeat constructor; cbn; lia.
Qed.

Lemma jump_build_uc_model_in_bounds_witness :
  (length (pmin ragged_data) ≤ length (pmax ragged_data))%nat
  ∧ Forall (λ a, (1 ≤ acc_index a ≤ length (field_of ragged_data (acc_field a)))%nat)
           (JuMP.build_uc_model (H:=memory_codec) ∅ (inr ragged_data)).1.
Proof.
  split; [cbn; lia|].
  apply (jump_build_uc_model_in_bounds (H:=memory_codec) ∅ ragged_data); cbn; lia.
Defined.

(** X5.  When [pmax], [cfix] or [cvar] is shorter than [pmin], the JuMP
    builder raises [BoundsError] and returns no model. *)
Theorem jump_build_uc_model_bounds_error `{Codec} (fs : gmap string blob)
    (d : UnitCommitmentData) :
  (length (pmax d) < length (pmin d) ∨ length (cfix d) < length (pmin d)
   ∨ length (cvar d) < length (pmin d))%nat →
  (JuMP.build_uc_model fs (inr d)).2 = Raise BoundsError.
Proof.
  intros Hshort.
  unfold JuMP.build_uc_model. rewrite Exec_bind_ret. cbv zeta.
  set (n := length (pmin d)) in *.
  destruct (decide (length (cfix d) < n ∧ length (cfix d) ≤ length (cvar d))%nat)
    as [[Ha Hab]|Hna].
  { rewrite (seq1_split_at n (length (cfix d))) by done.
    rewrite (mapM_raise _ _ _ _ _ _ [Access f_cfix (S (length (cfix d)))] BoundsError
               (jump_terms_run d (length (cfix d)) ltac:(lia) ltac:(lia))).
    - reflexivity.
    - rewrite (getindex_None f_cfix) by lia. reflexivity. }
  destruct (decide (length (cvar d) < n)%nat) as [Hb|Hnb].
  { rewrite (seq1_split_at n (length (cvar d))) by done.
    rewrite (mapM_raise _ _ _ _ _ _
               [Access f_cfix (S (length (cvar d))); Access f_cvar (S (length (cvar d)))]
               BoundsError
               (jump_terms_run d (length (cvar d)) ltac:(lia) ltac:(lia))).
    - reflexivity.
    - rewrite (getindex_Some f_cfix) by lia. rewrite (getindex_None f_cvar) by lia.
      reflexivity. }
  assert (Hc : (length (pmax d) < n)%nat) by lia.
  rewrite (mapM_pure _ _ _ _ (jump_terms_run d n ltac:(lia) ltac:(lia))).
  rewrite Exec_bind_Ok.
  assert (Hmaxs : mapM (λ g,
             hi ← JuMP.getindex f_pmax (pmax d) g;
             mret (RLe (EVar Y g) (EMul (ENum hi) (EVar X g))))
           (seq 1 n)
          = (concat ((λ g, [Access f_pmax g]) <$> seq 1 (length (pmax d)))
             ++ [Access f_pmax (S (length (pmax d)))], Raise BoundsError)).
  { rewrite (seq1_split_at n (length (pmax d))) by done.
    apply (mapM_raise _ _ _ _ _ _ _ _ (jump_max_run d (length (pmax d)) ltac:(lia))).
    rewrite (getindex_None f_pmax) by lia. reflexivity. }
  rewrite Hmaxs. reflexivity.
Qed.

Lemma jump_build_uc_model_bounds_error_witness :
  (length (cfix short_data) < length (pmin short_data))%nat
  ∧ (JuMP.build_uc_model (H:=memory_codec) ∅ (inr short_data)).2 = Raise BoundsError.
Proof.
  split; [cbn; lia|].
  apply (jump_build_uc_model_bounds_error (H:=memory_codec) ∅ short_data).
  right; left. cbn. lia.
Defined.

(** ** What the model says *)

Lemma forallb_seq (f : nat → bool) (n : nat) :
  forallb f (seq 0 n) = true ↔ ∀ i, (i < n)%nat → f i = true.
Proof.
  rewrite forallb_forall. split.
  - intros Hf i Hi. apply Hf, in_seq. lia.
  - intros Hf i Hi. apply in_seq in Hi. apply Hf. lia.
Qed.

Lemma Qsum_fmap_Qeq {A : Type} (f g : A → Q) (l : list A) :
  (∀ a, a ∈ l → f a == g a) → Qsum (f <$> l) == Qsum (g <$> l).
Proof.
  induction l as [|a l IH]; intros Hfg; [reflexivity|].
  rewrite !fmap_cons, !Qsum_cons, (Hfg a) by left.
  rewrite IH; [reflexivity|]. intros b Hb. apply Hfg. by right.
Qed.

Lemma Qsum_fmap_le {A : Type} (f g : A → Q) (l : list A) :
  (∀ a, a ∈ l → f a <= g a) → Qsum (f <$> l) <= Qsum (g <$> l).
Proof.
  induction l as [|a l IH]; intros Hfg; [rewrite !fmap_nil, Qsum_nil; lra|].
  rewrite !fmap_cons, !Qsum_cons.
  pose proof (Hfg a ltac:(left)) as Ha.
  pose proof (IH (λ b Hb, Hfg b ltac:(by right))) as Hl. lra.
Qed.

(** The feasible points of the model that the Pyomo builder returns, spelled
    out constraint by constraint. *)
Lemma pyomo_feasible_unfold (d : UnitCommitmentData) (ρ : assignment) :
  Pyomo.feasible ρ (Pyomo.inner (Closed.pyomo_model d)) = true
  ↔ (∀ i, (i < length (pmin d))%nat →
       (ρ X i == 0 ∨ ρ X i == 1)
       ∧ 0 <= ρ Y i
       ∧ ρ Y i <= nth i (pmax d) 0 * ρ X i
       ∧ nth i (pmin d) 0 * ρ X i <= ρ Y i)
    ∧ Qsum (ρ Y <$> seq 0 (length (pmin d))) == demand d.
Proof.
  unfold Pyomo.feasible, Pyomo.constraints, Closed.pyomo_model.
  cbn [Pyomo.inner Pyomo.x Pyomo.y Pyomo.var_index Pyomo.var_domain
       Pyomo.eq_max_power Pyomo.eq_min_power Pyomo.eq_demand].
  rewrite !forallb_app, !andb_true_iff, !forallb_fmap, !forallb_seq.
  cbn [forallb holds eval]. rewrite andb_true_r, Qeq_bool_iff.
  rewrite eval_py_sum, <- list_fmap_compose.
  change (eval ρ ∘ EVar Y) with (ρ Y).
  split.
  - intros [[Hx Hy] [Hmax [Hmin Hsum]]]. split; [|exact Hsum].
    intros i Hi. specialize (Hx i Hi). specialize (Hy i Hi).
    specialize (Hmax i Hi). specialize (Hmin i Hi).
    cbn in Hx, Hy, Hmax, Hmin.
    apply orb_true_iff in Hx. rewrite !Qeq_bool_iff in Hx.
    apply Qle_bool_iff in Hy, Hmax, Hmin. done.
  - intros [Hall Hsum]. split_and!; try done; intros i Hi;
      destruct (Hall i Hi) as (Hx & Hy & Hmax & Hmin); cbn.
    + apply orb_true_iff. by rewrite !Qeq_bool_iff.
    + by apply Qle_bool_iff.
    + by apply Qle_bool_iff.
    + by apply Qle_bool_iff.
Qed.

Lemma pyomo_build_Ok_ge `{Codec} (fs : gmap string blob) (d : UnitCommitmentData) :
  (1 ≤ length (pmin d))%nat →
  (length (pmin d) ≤ length (pmax d))%nat →
  (length (pmin d) ≤ length (cfix d))%nat →
  (length (pmin d) ≤ length (cvar d))%nat →
  (Pyomo.build_uc_model fs (inr d)).2 = Ok (Closed.pyomo_model d).
Proof.
  intros Hn H1 H2 H3. rewrite pyomo_build_closed by lia.
  cbn [snd]. destruct (decide _); [lia|done].
Qed.

(** X6.  The model that the Pyomo builder returns says what the notebook
    says in words.  For a record with non-negative minima, an assignment is
    a feasible point of the model exactly when every generator is either
    offline and produces nothing, or online and produces between its minimum
    and its maximum, and the total production equals the demand. *)
Theorem model_feasible_iff_schedule `{Codec} (fs : gmap string blob)
    (d : UnitCommitmentData) :
  (1 ≤ length (pmin d))%nat →
  (length (pmin d) ≤ length (pmax d))%nat →
  (length (pmin d) ≤ length (cfix d))%nat →
  (length (pmin d) ≤ length (cvar d))%nat →
  Forall (λ v, 0 <= v) (pmin d) →
  ∃ m, (Pyomo.build_uc_model fs (inr d)).2 = Ok m
       ∧ ∀ ρ, Pyomo.feasible ρ (Pyomo.inner m) = true ↔ Problem.schedule d ρ.
Proof.
  intros Hn H1 H2 H3 Hpos. exists (Closed.pyomo_model d).
  split; [by apply pyomo_build_Ok_ge|].
  intros ρ. rewrite pyomo_feasible_unfold. unfold Problem.schedule.
  split; intros [Hall Hsum]; (split; [|exact Hsum]); intros i Hi.
  - destruct (Hall i Hi) as ([Hx|Hx] & Hy & Hmax & Hmin).
    + left. split; [done|]. rewrite Hx in Hmax. lra.
    + right. rewrite Hx in Hmax, Hmin. split_and!; [done|lra|lra].
  - assert (Hlo : 0 <= nth i (pmin d) 0).
    { eapply Forall_forall; [exact Hpos|]. apply list_elem_of_In, nth_In. lia. }
    destruct (Hall i Hi) as [[Hx Hy]|(Hx & Hmin & Hmax)].
    + rewrite Hx, Hy. split_and!; [by left|lra|lra|lra].
    + rewrite Hx. split_and!; [by right|lra|lra|lra].
Qed.

(** The three-generator instance of the notebooks. *)
Lemma model_feasible_iff_schedule_witness :
  (1 ≤ length (pmin example_data))%nat
  ∧ ∃ m, (Pyomo.build_uc_model (H:=memory_codec) ∅ (inr example_data)).2 = Ok m
         ∧ ∀ ρ, Pyomo.feasible ρ (Pyomo.inner m) = true ↔ Problem.schedule example_data ρ.
Proof.
  split; [cbn; lia|].
  apply (model_feasible_iff_schedule (H:=memory_codec) ∅ example_data);
    [cbn; lia|cbn; lia|cbn; lia|cbn; lia|].
  repeat constructor; discriminate.
Defined.

(** X7.  At every feasible point, the objective of the model that the Pyomo
    builder returns is the cost of the notebook's description: an online
    generator costs its fixed cost plus its variable cost times its
    production, an offline generator costs nothing. *)
Theorem model_objective_is_cost `{Codec} (fs : gmap string blob)
    (d : UnitCommitmentData) :
  (1 ≤ length (pmin d))%nat →
  (length (pmin d) ≤ length (pmax d))%nat →
  (length (pmin d) ≤ length (cfix d))%nat →
  (length (pmin d) ≤ length (cvar d))%nat →
  ∃ m, (Pyomo.build_uc_model fs (inr d)).2 = Ok m
       ∧ ∀ ρ, Pyomo.feasible ρ (Pyomo.inner m) = true →
              eval ρ (Pyomo.obj_expr (Pyomo.obj (Pyomo.inner m))) == Problem.cost d ρ.
Proof.
  intros Hn H1 H2 H3. exists (Closed.pyomo_model d).
  split; [by apply pyomo_build_Ok_ge|].
  intros ρ Hfeas. apply pyomo_feasible_unfold in Hfeas as [Hall _].
  unfold Closed.pyomo_model, Problem.cost. cbn [Pyomo.inner Pyomo.obj Pyomo.obj_expr].
  rewrite eval_py_sum, <- list_fmap_compose.
  apply Qsum_fmap_Qeq. intros i Hi. apply elem_of_seq in Hi.
  destruct (Hall i ltac:(lia)) as ([Hx|Hx] & Hy & Hmax & Hmin);
    unfold compose, Closed.pyomo_term; cbn [eval].
  - assert (Hy0 : ρ Y i == 0) by (rewrite Hx in Hmax; lra).
    destruct (Qeq_bool (ρ X i) 1) eqn:Hb.
    + apply Qeq_bool_iff in Hb. rewrite Hx in Hb. discriminate Hb.
    + rewrite Hx, Hy0. ring.
  - apply Qeq_bool_iff in Hx as Hb. rewrite Hb, Hx. ring.
Qed.

Lemma model_objective_is_cost_witness :
  (1 ≤ length (pmin example_data))%nat
  ∧ ∃ m, (Pyomo.build_uc_model (H:=memory_codec) ∅ (inr example_data)).2 = Ok m
         ∧ ∀ ρ, Pyomo.feasible ρ (Pyomo.inner m) = true →
                eval ρ (Pyomo.obj_expr (Pyomo.obj (Pyomo.inner m)))
                == Problem.cost example_data ρ.
Proof.
  split; [cbn; lia|].
  apply (model_objective_is_cost (H:=memory_codec) ∅ example_data); cbn; lia.
Defined.

(** The solution that the notebooks print for the three-generator instance
    (generators 2 and 3 online, producing 60 and 40) is a feasible point of
    the model, and its objective is the printed 1320. *)
Example notebook_solution :
  let ρ : assignment := λ c i, nth i (match c with X => [0; 1; 1] | Y => [0; 60; 40] end) 0 in
  Pyomo.feasible ρ (Pyomo.inner (Closed.pyomo_model example_data)) = true
  ∧ eval ρ (Pyomo.obj_expr (Pyomo.obj (Pyomo.inner (Closed.pyomo_model example_data))))
    == 1320.
Proof. split; reflexivity. Qed.

(** X8.  The demand must fit the capacity: for a record with non-negative
    maxima, the model that the Pyomo builder returns has a feasible point
    only if the demand is non-negative and at most the sum of [pmax]. *)
Theorem model_feasible_needs_capacity `{Codec} (fs : gmap string blob)
    (d : UnitCommitmentData) :
  (1 ≤ length (pmin d))%nat →
  length (pmax d) = length (pmin d) →
  (length (pmin d) ≤ length (cfix d))%nat →
  (length (pmin d) ≤ length (cvar d))%nat →
  Forall (λ v, 0 <= v) (pmax d) →
  ∃ m, (Pyomo.build_uc_model fs (inr d)).2 = Ok m
       ∧ ∀ ρ, Pyomo.feasible ρ (Pyomo.inner m) = true →
              0 <= demand d ∧ demand d <= Qsum (pmax d).
Proof.
  intros Hn H1 H2 H3 Hpos. exists (Closed.pyomo_model d).
  split; [apply pyomo_build_Ok_ge; lia|].
  intros ρ Hfeas. apply pyomo_feasible_unfold in Hfeas as [Hall Hsum].
  rewrite <- Hsum. split.
  - apply Qsum_nonneg, Forall_fmap, Forall_forall. intros i Hi.
    apply elem_of_seq in Hi. by destruct (Hall i ltac:(lia)) as (_ & Hy & _).
  - apply Qle_trans with (Qsum ((λ k, nth k (pmax d) 0) <$> seq 0 (length (pmax d))));
      [|rewrite fmap_nth_seq; lra].
    rewrite H1. apply Qsum_fmap_le. intros i Hi. apply elem_of_seq in Hi.
    assert (Hhi : 0 <= nth i (pmax d) 0).
    { eapply Forall_forall; [exact Hpos|]. apply list_elem_of_In, nth_In. lia. }
    destruct (Hall i ltac:(lia)) as ([Hx|Hx] & Hy & Hmax & Hmin);
      rewrite Hx in Hmax; lra.
Qed.

Lemma model_feasible_needs_capacity_witness :
  (1 ≤ length (pmin example_data))%nat
  ∧ ∃ m, (Pyomo.build_uc_model (H:=memory_codec) ∅ (inr example_data)).2 = Ok m
         ∧ ∀ ρ, Pyomo.feasible ρ (Pyomo.inner m) = true →
                0 <= demand example_data ∧ demand example_data <= Qsum (pmax example_data).
Proof.
  split; [cbn; lia|].
  apply (model_feasible_needs_capacity (H:=memory_codec) ∅ example_data);
    [cbn; lia|reflexivity|cbn; lia|cbn; lia|].
  repeat constructor; discriminate.
Defined.

(** ** The ranges of the random instances *)

Lemma zip_scaled_range (lo_a hi_a lo_f hi_f : Q) (a f : list Q) :
  0 <= lo_a → length a = length f →
  Forall (λ v, lo_a <= v ∧ v <= hi_a) a →
  Forall (λ v, lo_f <= v ∧ v <= hi_f) f →
  Forall2 (λ lo hi, lo_f * lo <= hi ∧ hi <= hi_f * lo) a (zip_with Qmult a f).
Proof.
  intros Hlo Hlen Ha. revert f Hlen.
  induction Ha as [|v a [Hv1 Hv2] _ IH]; intros [|w f] Hlen Hf;
    try discriminate Hlen.
  { constructor. }
  apply Forall_cons in Hf as [[Hw1 Hw2] Hf].
  cbn [zip_with]. constructor; [split; nra|].
  apply IH; [by injection Hlen|done].
Qed.

(** X9.  The ranges of a random instance.  In every record that
    [random_uc_data] returns, each [pmin] is between 100000 and 500000,
    each [cfix] between 100 and 125 times the [pmin] of its generator, and
    each [cvar] between 1.25 and 1.5; each [pmax] is at least twice the
    [pmin] of its generator, and at most 4.5 times it in the Python
    notebook ([uniform(loc=2.0, scale=2.5)]) but at most 2.5 times it in
    the Julia notebook ([Uniform(2, 2.5)]). *)
Theorem random_uc_data_ranges `{BitGenerator} (samples n seed : Z) :
  (0 ≤ n)%Z →
  (∃ data, Pyomo.random_uc_data samples n seed = Ok data
     ∧ Forall (λ d,
         Forall (λ v, 100000 <= v ∧ v <= 500000) (pmin d)
         ∧ Forall2 (λ lo hi, 2 * lo <= hi ∧ hi <= 4.5 * lo) (pmin d) (pmax d)
         ∧ Forall2 (λ lo c, 100 * lo <= c ∧ c <= 125 * lo) (pmin d) (cfix d)
         ∧ Forall (λ v, 1.25 <= v ∧ v <= 1.5) (cvar d)) data)
  ∧ (∃ data, JuMP.random_uc_data samples n seed = Ok data
       ∧ Forall (λ d,
           Forall (λ v, 100000 <= v ∧ v <= 500000) (pmin d)
           ∧ Forall2 (λ lo hi, 2 * lo <= hi ∧ hi <= 2.5 * lo) (pmin d) (pmax d)
           ∧ Forall2 (λ lo c, 100 * lo <= c ∧ c <= 125 * lo) (pmin d) (cfix d)
           ∧ Forall (λ v, 1.25 <= v ∧ v <= 1.5) (cvar d)) data).
Proof.
  intros Hn. split.
  - unfold Pyomo.random_uc_data.
    destruct (Z.ltb_spec n 0) as [|_]; [lia|]. cbv zeta. unfold Pyomo.rvs.
    set (r1 := sample_affine 100000 400000 (Z.to_nat n) (rng_seed seed)).
    set (r2 := sample_affine 2.0 2.5 (Z.to_nat n) r1.2).
    set (r3 := sample_affine 100.0 25.0 (Z.to_nat n) r2.2).
    set (r4 := sample_affine 1.25 0.25 (Z.to_nat n) r3.2).
    assert (Hl1 : length r1.1 = Z.to_nat n) by apply sample_affine_length.
    assert (Hl2 : length r2.1 = Z.to_nat n) by apply sample_affine_length.
    assert (Hl3 : length r3.1 = Z.to_nat n) by apply sample_affine_length.
    assert (Hr1 : Forall (λ v, 100000 <= v ∧ v <= 100000 + 400000) r1.1)
      by (apply sample_affine_range; lra).
    assert (Hr2 : Forall (λ v, 2.0 <= v ∧ v <= 2.0 + 2.5) r2.1)
      by (apply sample_affine_range; lra).
    assert (Hr3 : Forall (λ v, 100.0 <= v ∧ v <= 100.0 + 25.0) r3.1)
      by (apply sample_affine_range; lra).
    assert (Hr4 : Forall (λ v, 1.25 <= v ∧ v <= 1.25 + 0.25) r4.1)
      by (apply sample_affine_range; lra).
    assert (Hb := zip_scaled_range 100000 (100000 + 400000) 2.0 (2.0 + 2.5) r1.1 r2.1
                    ltac:(lra) ltac:(lia) Hr1 Hr2).
    assert (Hc := zip_scaled_range 100000 (100000 + 400000) 100.0 (100.0 + 25.0) r1.1 r3.1
                    ltac:(lra) ltac:(lia) Hr1 Hr3).
    destruct (scaled_arrays 100000 (100000 + 400000) 2.0 (2.0 + 2.5) r1.1 r2.1)
      as [_ Hpos]; [lra|lra|lia|done|done|].
    destruct (pyomo_comprehension_family r1.1 (zip_with Qmult r1.1 r2.1)
                (zip_with Qmult r1.1 r3.1) r4.1 (Z.to_nat samples) r4.2) as [_ Hall].
    { by apply Qsum_nonneg. }
    eexists. split; [reflexivity|].
    eapply Forall_impl; [exact Hall|].
    intros d (-> & -> & -> & -> & _). split_and!.
    + eapply Forall_impl; [exact Hr1|]. intros v [? ?]. split; lra.
    + eapply Forall2_impl; [exact Hb|]. intros lo hi [? ?]. split; lra.
    + eapply Forall2_impl; [exact Hc|]. intros lo hi [? ?]. split; lra.
    + eapply Forall_impl; [exact Hr4|]. intros v [? ?]. split; lra.
  - unfold JuMP.random_uc_data.
    destruct (Z.ltb_spec n 0) as [|_]; [lia|]. cbv zeta. unfold JuMP.rand.
    set (r1 := sample_affine 100000 (500000 - 100000) (Z.to_nat n) (rng_seed seed)).
    set (r2 := sample_affine 2 (2.5 - 2) (Z.to_nat n) r1.2).
    set (r3 := sample_affine 100 (125 - 100) (Z.to_nat n) r2.2).
    set (r4 := sample_affine 1.25 (1.50 - 1.25) (Z.to_nat n) r3.2).
    assert (Hl1 : length r1.1 = Z.to_nat n) by apply sample_affine_length.
    assert (Hl2 : length r2.1 = Z.to_nat n) by apply sample_affine_length.
    assert (Hl3 : length r3.1 = Z.to_nat n) by apply sample_affine_length.
    assert (Hr1 : Forall (λ v, 100000 <= v ∧ v <= 100000 + (500000 - 100000)) r1.1)
      by (apply sample_affine_range; lra).
    assert (Hr2 : Forall (λ v, 2 <= v ∧ v <= 2 + (2.5 - 2)) r2.1)
      by (apply sample_affine_range; lra).
    assert (Hr3 : Forall (λ v, 100 <= v ∧ v <= 100 + (125 - 100)) r3.1)
      by (apply sample_affine_range; lra).
    assert (Hr4 : Forall (λ v, 1.25 <= v ∧ v <= 1.25 + (1.50 - 1.25)) r4.1)
      by (apply sample_affine_range; lra).
    assert (Hb := zip_scaled_range 100000 (100000 + (500000 - 100000)) 2 (2 + (2.5 - 2))
                    r1.1 r2.1 ltac:(lra) ltac:(lia) Hr1 Hr2).
    assert (Hc := zip_scaled_range 100000 (100000 + (500000 - 100000)) 100
                    (100 + (125 - 100)) r1.1 r3.1 ltac:(lra) ltac:(lia) Hr1 Hr3).
    destruct (scaled_arrays 100000 (100000 + (500000 - 100000)) 2 (2 + (2.5 - 2)) r1.1 r2.1)
      as [_ Hpos]; [lra|lra|lia|done|done|].
    destruct (jump_comprehension_family r1.1 (zip_with Qmult r1.1 r2.1)
                (zip_with Qmult r1.1 r3.1) r4.1 (Z.to_nat samples) r4.2) as [_ Hall].
    { by apply Qsum_nonneg. }
    eexists. split; [reflexivity|].
    eapply Forall_impl; [exact Hall|].
    intros d (-> & -> & -> & -> & _). split_and!.
    + eapply Forall_impl; [exact Hr1|]. intros v [? ?]. split; lra.
    + eapply Forall2_impl; [exact Hb|]. intros lo hi [? ?]. split; lra.
    + eapply Forall2_impl; [exact Hc|]. intros lo hi [? ?]. split; lra.
    + eapply Forall_impl; [exact Hr4|]. intros v [? ?]. split; lra.
Qed.

Lemma random_uc_data_ranges_witness :
  (0 ≤ 2)%Z
  ∧ ∃ data, Pyomo.random_uc_data (H:=lcg) 2 2 42 = Ok data
      ∧ Forall (λ d, Forall2 (λ lo hi, 2 * lo <= hi ∧ hi <= 4.5 * lo) (pmin d) (pmax d)) data.
Proof.
  split; [lia|].
  destruct (random_uc_data_ranges (H:=lcg) 2 2 42) as [(data & Hdata & Hall) _]; [lia|].
  exists data. split; [exact Hdata|].
  eapply Forall_impl; [exact Hall|]. by intros d (_ & Hb & _).
Defined.

(** The two notebooks do not draw [pmax] from the same range: with a bit
    generator that always returns the largest number, the Python generator
    gives a [pmax] of more than 2.5 times [pmin], which the Julia generator
    never does. *)
Example python_pmax_exceeds_julia_range :
  ∃ d lo hi, Pyomo.random_uc_data (H:=top_bits) 1 1 42 = Ok [d]
             ∧ pmin d = [lo] ∧ pmax d = [hi] ∧ 2.5 * lo < hi.
Proof. eexists _, _, _. split_and!; reflexivity. Qed.

(** ** Fewer samples, same records *)

Lemma pyomo_comprehension_take `{BitGenerator} (a b c e : list Q) (k m : nat)
    (g : rng_state) :
  (k ≤ m)%nat →
  Pyomo.comprehension a b c e k g = take k (Pyomo.comprehension a b c e m g).
Proof.
  revert m g. induction k as [|k IH]; intros m g Hkm; [reflexivity|].
  destruct m as [|m]; [lia|]. cbn [Pyomo.comprehension take]. f_equal.
  apply IH. lia.
Qed.

Lemma jump_comprehension_take `{BitGenerator} (a b c e : list Q) (k m : nat)
    (g : rng_state) :
  (k ≤ m)%nat →
  JuMP.comprehension a b c e k g = take k (JuMP.comprehension a b c e m g).
Proof.
  revert m g. induction k as [|k IH]; intros m g Hkm; [reflexivity|].
  destruct m as [|m]; [lia|]. cbn [JuMP.comprehension take]. f_equal.
  apply IH. lia.
Qed.

Lemma pyomo_random_uc_data_take `{BitGenerator} (k m n seed : Z) :
  (0 ≤ n)%Z → (k ≤ m)%Z →
  ∃ data, Pyomo.random_uc_data m n seed = Ok data
          ∧ Pyomo.random_uc_data k n seed = Ok (take (Z.to_nat k) data).
Proof.
  intros Hn Hkm. unfold Pyomo.random_uc_data.
  destruct (Z.ltb_spec n 0) as [|_]; [lia|]. cbv zeta.
  eexists. split; [reflexivity|]. f_equal.
  apply pyomo_comprehension_take. lia.
Qed.

(** X10.  With the same [n] and the same seed, asking for fewer samples
    gives the first records of the longer list: the four arrays do not
    depend on [samples], and the demands are drawn one after the other. *)
Theorem random_uc_data_prefix `{BitGenerator} (k m n seed : Z) :
  (0 ≤ n)%Z → (k ≤ m)%Z →
  (∃ data, Pyomo.random_uc_data m n seed = Ok data
           ∧ Pyomo.random_uc_data k n seed = Ok (take (Z.to_nat k) data))
  ∧ (∃ data, JuMP.random_uc_data m n seed = Ok data
             ∧ JuMP.random_uc_data k n seed = Ok (take (Z.to_nat k) data)).
Proof.
  intros Hn Hkm. split.
  - by apply pyomo_random_uc_data_take.
  - unfold JuMP.random_uc_data.
    destruct (Z.ltb_spec n 0) as [|_]; [lia|]. cbv zeta.
    eexists. split; [reflexivity|]. f_equal.
    apply jump_comprehension_take. lia.
Qed.

Lemma random_uc_data_prefix_witness :
  (0 ≤ 2)%Z ∧ (1 ≤ 3)%Z
  ∧ ∃ data, Pyomo.random_uc_data (H:=lcg) 3 2 42 = Ok data
            ∧ Pyomo.random_uc_data (H:=lcg) 1 2 42 = Ok (take 1 data).
Proof.
  split; [lia|]. split; [lia|].
  destruct (random_uc_data_prefix (H:=lcg) 1 3 2 42) as [Hpy _]; [lia|lia|].
  exact Hpy.
Defined.

(** ** The files of the training and test instances *)

Lemma write_from_length `{Codec} (objs : list UnitCommitmentData) (dirname : string)
    (k : nat) (fs : gmap string blob) :
  length (write_from k objs dirname fs).1 = length objs.
Proof.
  revert k fs. induction objs as [|obj objs IH]; intros k fs; [reflexivity|].
  cbn [write_from fst length]. by rewrite IH.
Qed.

(** Writing into one directory leaves a path alone that is none of the
    paths of that directory. *)
Lemma write_from_other `{Codec} (objs : list UnitCommitmentData) (dirname : string)
    (k : nat) (fs : gmap string blob) (p : string) :
  (∀ j, pkl_gz_path dirname j ≠ p) →
  (write_from k objs dirname fs).2 !! p = fs !! p.
Proof.
  intros Hp. revert k fs. induction objs as [|obj objs IH]; intros k fs; [reflexivity|].
  cbn [write_from snd]. rewrite IH. by apply lookup_insert_ne.
Qed.

Lemma test_path_not_train_path (i j : nat) :
  pkl_gz_path "uc/test" j ≠ pkl_gz_path "uc/train" i.
Proof. unfold pkl_gz_path. simpl. intros Heq. discriminate Heq. Qed.

Lemma slice_lookup {A : Type} (l : list A) (a b i : nat) :
  (i < b - a)%nat → slice l a b !! i = l !! (a + i)%nat.
Proof. intros Hi. unfold slice. by rewrite lookup_take_lt, lookup_drop. Qed.

Lemma pyomo_random_uc_data_length `{BitGenerator} (samples n seed : Z) :
  (0 ≤ n)%Z →
  ∃ data, Pyomo.random_uc_data samples n seed = Ok data
          ∧ length data = Z.to_nat samples.
Proof.
  intros Hn.
  destruct (pyomo_random_uc_data_closed samples n seed)
    as (a & b & c & e & g & Hdata & _ & _ & _ & _ & _ & _ & Hpos); [lia|].
  destruct (pyomo_comprehension_family a b c e (Z.to_nat samples) g) as [Hlen _].
  { by apply Qsum_nonneg. }
  eexists. split; [exact Hdata|exact Hlen].
Qed.

(** The path of a written record, read after more files were written into
    another directory. *)
Lemma build_from_written `{Codec} (fs : gmap string blob) (objs : list UnitCommitmentData)
    (dirname : string) (i : nat) (path : string) :
  (∀ d, loads (dumps d) = Some d) →
  (write_pkl_gz objs dirname fs).1 !! i = Some path →
  ∃ d, objs !! i = Some d
       ∧ path = pkl_gz_path dirname i
       ∧ (write_pkl_gz objs dirname fs).2 !! path = Some (dumps d).
Proof.
  intros Hrt Hpath. unfold write_pkl_gz in *.
  assert (Hi : (i < length objs)%nat).
  { apply lookup_lt_Some in Hpath. by rewrite write_from_length in Hpath. }
  destruct (lookup_lt_is_Some_2 objs i Hi) as [d Hd].
  destruct (write_from_lookup objs dirname 0 i d fs Hd) as [Hp Hfile].
  rewrite Hp in Hpath. injection Hpath as <-. by exists d.
Qed.

(** The generating cell, run: the records and the two writes. *)
Lemma generate_closed `{BitGenerator} `{Codec} (fs : gmap string blob) :
  ∃ data, Pyomo.random_uc_data 500 500 42 = Ok data
    ∧ length data = 500%nat
    ∧ Cells.generate fs
      = Ok {| Cells.data := data;
              Cells.train_data := (write_pkl_gz (slice data 0 450) "uc/train" fs).1;
              Cells.test_data :=
                (write_pkl_gz (slice data 450 500) "uc/test"
                   (write_pkl_gz (slice data 0 450) "uc/train" fs).2).1;
              Cells.files :=
                (write_pkl_gz (slice data 450 500) "uc/test"
                   (write_pkl_gz (slice data 0 450) "uc/train" fs).2).2 |}.
Proof.
  destruct (pyomo_random_uc_data_length 500 500 42) as (data & Hdata & Hlen); [lia|].
  exists data. split; [exact Hdata|]. split; [exact Hlen|].
  unfold Cells.generate. by rewrite Hdata.
Qed.

(** A training path still builds its record after the test files are
    written. *)
Lemma train_path_build `{Codec} (fs : gmap string blob) (data : list UnitCommitmentData)
    (i : nat) (path : string) :
  (∀ d, loads (dumps d) = Some d) →
  (write_pkl_gz (slice data 0 450) "uc/train" fs).1 !! i = Some path →
  ∃ d, data !! i = Some d
       ∧ Pyomo.build_uc_model
           (write_pkl_gz (slice data 450 500) "uc/test"
              (write_pkl_gz (slice data 0 450) "uc/train" fs).2).2 (inl path)
         = Pyomo.build_uc_model fs (inr d).
Proof.
  intros Hrt Hpath.
  destruct (build_from_written fs _ _ i path Hrt Hpath) as (d & Hd & -> & Hfile).
  assert (Hi : (i < 450)%nat).
  { apply lookup_lt_Some in Hd. unfold slice in Hd.
    rewrite length_take in Hd. lia. }
  rewrite slice_lookup in Hd by lia. exists d. split; [exact Hd|].
  unfold Pyomo.build_uc_model. rewrite (read_written _ d); [reflexivity| |apply Hrt].
  unfold write_pkl_gz at 1. rewrite write_from_other; [exact Hfile|].
  intros j. apply test_path_not_train_path.
Qed.

(** X11.  The cell that generates the instances and writes the files
    returns 500 records, 450 training paths and 50 test paths.  Training
    path [i] belongs to record [i] and test path [j] to record [450 + j],
    and after both calls of [write_pkl_gz] building from any of these paths
    is building from its record: the test files do not overwrite the
    training files.  The codec must read back what it writes. *)
Theorem generate_files `{BitGenerator} `{Codec} (fs : gmap string blob) :
  (∀ d, loads (dumps d) = Some d) →
  ∃ g, Cells.generate fs = Ok g
    ∧ length (Cells.data g) = 500%nat
    ∧ length (Cells.train_data g) = 450%nat
    ∧ length (Cells.test_data g) = 50%nat
    ∧ (∀ i path, Cells.train_data g !! i = Some path →
         ∃ d, Cells.data g !! i = Some d
              ∧ Pyomo.build_uc_model (Cells.files g) (inl path)
                = Pyomo.build_uc_model fs (inr d))
    ∧ (∀ j path, Cells.test_data g !! j = Some path →
         ∃ d, Cells.data g !! (450 + j)%nat = Some d
              ∧ Pyomo.build_uc_model (Cells.files g) (inl path)
                = Pyomo.build_uc_model fs (inr d)).
Proof.
  intros Hrt.
  destruct (generate_closed fs) as (data & _ & Hlen & Hg).
  eexists. split; [exact Hg|].
  cbn [Cells.data Cells.train_data Cells.test_data Cells.files].
  split_and!.
  - exact Hlen.
  - unfold write_pkl_gz. rewrite write_from_length. unfold slice.
    rewrite length_take, length_drop. lia.
  - unfold write_pkl_gz. rewrite write_from_length. unfold slice.
    rewrite length_take, length_drop. lia.
  - intros i path Hpath. by apply train_path_build.
  - intros j path Hpath.
    destruct (build_from_written _ _ _ j path Hrt Hpath) as (d & Hd & -> & Hfile).
    assert (Hj : (j < 50)%nat).
    { apply lookup_lt_Some in Hd. unfold slice in Hd.
      rewrite length_take in Hd. lia. }
    rewrite slice_lookup in Hd by lia. exists d. split; [exact Hd|].
    unfold Pyomo.build_uc_model. by rewrite (read_written _ d).
Qed.

Lemma generate_files_witness :
  (∀ d, loads (Codec:=memory_codec) (dumps d) = Some d)
  ∧ ∃ g, Cells.generate (H:=lcg) (H0:=memory_codec) ∅ = Ok g
         ∧ length (Cells.train_data g) = 450%nat
         ∧ length (Cells.test_data g) = 50%nat.
Proof.
  split; [reflexivity|].
  destruct (generate_files (H:=lcg) (H0:=memory_codec) ∅) as (g & Hg & _ & Htr & Hte & _);
    [reflexivity|].
  exists g. split_and!; [exact Hg|exact Htr|exact Hte].
Defined.

(** X12.  The record that the last cell of the Pyomo notebook builds "in
    memory", [random_uc_data(samples=1, n=500)[0]], is the first training
    instance: the seed is the same default, so building it gives the model
    that building from the first training path gives. *)
Theorem in_memory_is_first_training_instance `{BitGenerator} `{Codec}
    (fs : gmap string blob) :
  (∀ d, loads (dumps d) = Some d) →
  ∃ g path, Cells.generate fs = Ok g
    ∧ Cells.train_data g !! 0%nat = Some path
    ∧ Cells.in_memory fs = Pyomo.build_uc_model (Cells.files g) (inl path).
Proof.
  intros Hrt.
  destruct (generate_closed fs) as (data & Hdata & Hlen & Hg).
  assert (Hsome : is_Some ((write_pkl_gz (slice data 0 450) "uc/train" fs).1 !! 0%nat)).
  { apply lookup_lt_is_Some_2. unfold write_pkl_gz. rewrite write_from_length.
    unfold slice. rewrite length_take, length_drop. lia. }
  destruct Hsome as [path Hpath].
  destruct (train_path_build fs data 0 path Hrt Hpath) as (d & Hd & Hbuild).
  eexists _, path. split; [exact Hg|].
  cbn [Cells.train_data Cells.files]. split; [exact Hpath|].
  rewrite Hbuild. unfold Cells.in_memory.
  destruct (pyomo_random_uc_data_take 1 500 500 42) as (data' & Hdata' & Hone); [lia|lia|].
  rewrite Hdata in Hdata'. injection Hdata' as <-.
  rewrite Hone, lookup_take_lt by (change (Z.to_nat 1) with 1%nat; lia).
  by rewrite Hd.
Qed.

Lemma in_memory_is_first_training_instance_witness :
  (∀ d, loads (Codec:=memory_codec) (dumps d) = Some d)
  ∧ ∃ g path, Cells.generate (H:=lcg) (H0:=memory_codec) ∅ = Ok g
      ∧ Cells.train_data g !! 0%nat = Some path
      ∧ Cells.in_memory (H:=lcg) (H0:=memory_codec) ∅
        = Pyomo.build_uc_model (H:=memory_codec) (Cells.files g) (inl path).
Proof.
  split; [reflexivity|].
  apply (in_memory_is_first_training_instance (H:=lcg) (H0:=memory_codec) ∅).
  reflexivity.
Defined.

(** ** The JuMP model says the same *)

(** X13.  The model that the JuMP builder returns has the feasible points
    and the objective of the notebook's description too, with the generators
    counted from 1: for a record with non-negative minima, an assignment is
    feasible exactly when it is a schedule, and the objective at a feasible
    point is its cost. *)
Theorem jump_model_feasible_iff_schedule `{Codec} (fs : gmap string blob)
    (d : UnitCommitmentData) :
  (1 ≤ length (pmin d))%nat →
  (length (pmin d) ≤ length (pmax d))%nat →
  (length (pmin d) ≤ length (cfix d))%nat →
  (length (pmin d) ≤ length (cvar d))%nat →
  Forall (λ v, 0 <= v) (pmin d) →
  ∃ m, (JuMP.build_uc_model fs (inr d)).2 = Ok m
       ∧ ∀ ρ, (JuMP.feasible ρ (JuMP.inner m) = true ↔ Problem.schedule d (shift ρ))
              ∧ (JuMP.feasible ρ (JuMP.inner m) = true →
                 eval ρ (JuMP.objective_function (JuMP.inner m))
                 == Problem.cost d (shift ρ)).
Proof.
  intros Hn H1 H2 H3 Hpos. exists (Closed.jump_model d).
  split; [by apply jump_build_closed|].
  intros ρ.
  pose proof (closed_same_program d) as Hsame.
  rewrite <- (same_program_feasible _ _ ρ Hsame).
  destruct Hsame as (_ & _ & _ & _ & _ & Hobj & _).
  rewrite <- (Hobj ρ), pyomo_feasible_unfold.
  assert (Hiff : ((∀ i, (i < length (pmin d))%nat →
                     (shift ρ X i == 0 ∨ shift ρ X i == 1)
                     ∧ 0 <= shift ρ Y i
                     ∧ shift ρ Y i <= nth i (pmax d) 0 * shift ρ X i
                     ∧ nth i (pmin d) 0 * shift ρ X i <= shift ρ Y i)
                  ∧ Qsum (shift ρ Y <$> seq 0 (length (pmin d))) == demand d)
                 ↔ Problem.schedule d (shift ρ)).
  { unfold Problem.schedule.
    split; intros [Hall Hsum]; (split; [|exact Hsum]); intros i Hi.
    - destruct (Hall i Hi) as ([Hx|Hx] & Hy & Hmax & Hmin).
      + left. split; [done|]. rewrite Hx in Hmax. lra.
      + right. rewrite Hx in Hmax, Hmin. split_and!; [done|lra|lra].
    - assert (Hlo : 0 <= nth i (pmin d) 0).
      { eapply Forall_forall; [exact Hpos|]. apply list_elem_of_In, nth_In. lia. }
      destruct (Hall i Hi) as [[Hx Hy]|(Hx & Hmin & Hmax)].
      + rewrite Hx, Hy. split_and!; [by left|lra|lra|lra].
      + rewrite Hx. split_and!; [by right|lra|lra|lra]. }
  split; [exact Hiff|].
  intros [Hall _].
  unfold Closed.pyomo_model, Problem.cost. cbn [Pyomo.inner Pyomo.obj Pyomo.obj_expr].
  rewrite eval_py_sum, <- list_fmap_compose.
  apply Qsum_fmap_Qeq. intros i Hi. apply elem_of_seq in Hi.
  destruct (Hall i ltac:(lia)) as ([Hx|Hx] & Hy & Hmax & Hmin);
    unfold compose, Closed.pyomo_term; cbn [eval].
  - assert (Hy0 : shift ρ Y i == 0) by (rewrite Hx in Hmax; lra).
    destruct (Qeq_bool (shift ρ X i) 1) eqn:Hb.
    + apply Qeq_bool_iff in Hb. rewrite Hx in Hb. discriminate Hb.
    + rewrite Hx, Hy0. ring.
  - apply Qeq_bool_iff in Hx as Hb. rewrite Hb, Hx. ring.
Qed.

Lemma jump_model_feasible_iff_schedule_witness :
  (1 ≤ length (pmin example_data))%nat
  ∧ ∃ m, (JuMP.build_uc_model (H:=memory_codec) ∅ (inr example_data)).2 = Ok m
         ∧ ∀ ρ, JuMP.feasible ρ (JuMP.inner m) = true
                ↔ Problem.schedule example_data (shift ρ).
Proof.
  split; [cbn; lia|].
  destruct (jump_model_feasible_iff_schedule (H:=memory_codec) ∅ example_data)
    as (m & Hm & Hall); [cbn; lia|cbn; lia|cbn; lia|cbn; lia| |].
  - repeat constructor; discriminate.
  - exists m. split; [exact Hm|]. intros ρ. apply Hall.
Defined.
